(** * Cost-Manager: the cost and user controllers, embedded and verified

    A shallow embedding of the two controllers of the Cost-Manager backend
    (the cost controller: [validateCostInput], [createCost], [updateCost],
    [deleteCost], [fetchMonthlyReport], [addCost], [editCost],
    [removeCost], [getMonthlyReport]; the user controller: [createUser],
    [updateUser], [deleteUser], [fetchUserDetails] and their handlers)
    together with the two Mongoose schemas they use.

    Conventions of the embedding.
    - A JavaScript value is a [value]; a JavaScript number is a [number]:
      NaN, one of the two infinities, or a rational. The sum and the
      difference of two numbers are rounded to the nearest binary64 number,
      ties to even, as the language does; the negative zero is not told
      from zero. What the store's [$sum] accumulator computes from the
      numbers of a group is a field of the runtime.
    - A string is a sequence of code units below 256.
    - A Date is its time value, an integer count of milliseconds since the
      epoch; the invalid Date is [None].
    - The two collections are lists in insertion order; every store
      operation returns a [completion], either a value or a thrown
      exception, and each controller function turns a thrown exception into
      its status-500 reply, as its [try]/[catch] does.
    - The conversions of the runtime between strings and numbers or dates,
      the local time zone offset and the parsing of a storage identifier are
      fields of a [Runtime] record the functions are parameterised by.
    - An update document is the request body, an object of any values. The
      update documents given a meaning name paths of the schema only and
      give them values that are no nested object, no array and not
      [undefined], and no [null] to a required path; on any other update
      document [updateCost] and [updateUser] are [None]. *)

From Stdlib Require Import ZArith QArith Qpower Qcanon List String Ascii Bool Lia.
Import ListNotations.

Local Open Scope string_scope.
Local Open Scope Z_scope.

(* ================================================================== *)
(** ** JavaScript numbers *)

Module Num.

Inductive number : Type :=
| NaN
| Infinity (negative : bool)
| Finite (q : Qc).

(** The number denoted by an integer literal. *)
Definition ofZ (z : Z) : number := Finite (Q2Qc (inject_Z z)).

Definition isNaN (n : number) : bool :=
  match n with NaN => true | _ => false end.

Definition Qc_eqb (a b : Qc) : bool := Qeq_bool (this a) (this b).

(** Strict equality of numbers ([NaN] differs from itself). *)
Definition eqb (a b : number) : bool :=
  match a, b with
  | Finite x, Finite y => Qc_eqb x y
  | Infinity s, Infinity t => Bool.eqb s t
  | _, _ => false
  end.

(** [a < b]; false as soon as one side is [NaN]. *)
Definition ltb (a b : number) : bool :=
  match a, b with
  | NaN, _ | _, NaN => false
  | Infinity true, Infinity true => false
  | Infinity true, _ => true
  | _, Infinity true => false
  | Infinity false, _ => false
  | Finite _, Infinity false => true
  | Finite x, Finite y =>
      match (this x ?= this y)%Q with Lt => true | _ => false end
  end.

(** [a <= b]; false as soon as one side is [NaN]. *)
Definition leb (a b : number) : bool :=
  match a, b with
  | NaN, _ | _, NaN => false
  | _, _ => negb (ltb b a)
  end.

Definition gtb (a b : number) : bool := ltb b a.

(** The quotient [N / D] rounded to the nearest integer, a tie going to
    the even one ([D] is positive). *)
Definition round_half_even (N D : Z) : Z :=
  let m := N / D in
  match 2 * (N mod D) ?= D with
  | Lt => m
  | Gt => m + 1
  | Eq => if Z.even m then m else m + 1
  end.

(** The binary64 number nearest to a rational, ties to even. The rational
    is counted in units of [2 ^ -1074], the smallest positive binary64
    number; a number of at least [2 ^ 52] units keeps 53 significant bits,
    and a result of [2 ^ 1024] or more is an infinity. An integer below
    [2 ^ 53] is a binary64 number and is returned as it is. *)
Definition round64 (q : Qc) : number :=
  let n := Qnum (this q) in
  let d := Zpos (Qden (this q)) in
  if ((d =? 1) && (Z.abs n <? 2 ^ 53))%bool then Finite q
  else
    let N := Z.abs n * 2 ^ 1074 in
    let t := Z.max (Z.log2 (N / d) - 52) 0 in
    let m := round_half_even N (d * 2 ^ t) in
    if 2 ^ 2098 <=? m * 2 ^ t then Infinity (n <? 0)
    else Finite (Q2Qc (Qmake (Z.sgn n * (m * 2 ^ t)) (Z.to_pos (2 ^ 1074)))).

(** The sum of two numbers in exact arithmetic. *)
Definition exact_add (a b : number) : number :=
  match a, b with
  | NaN, _ | _, NaN => NaN
  | Infinity s, Infinity t => if Bool.eqb s t then Infinity s else NaN
  | Infinity s, Finite _ | Finite _, Infinity s => Infinity s
  | Finite x, Finite y => Finite (x + y)%Qc
  end.

(** [a + b]: the exact sum, rounded. *)
Definition add (a b : number) : number :=
  match exact_add a b with
  | Finite q => round64 q
  | other => other
  end.

Definition opp (a : number) : number :=
  match a with
  | NaN => NaN
  | Infinity s => Infinity (negb s)
  | Finite x => Finite (- x)%Qc
  end.

Definition sub (a b : number) : number := add a (opp b).

(** Truncation toward zero of a rational (the finite case of
    ToIntegerOrInfinity). *)
Definition truncate (q : Qc) : Z := Z.quot (Qnum (this q)) (Zpos (Qden (this q))).

(** The numbers that are strictly positive, written from the words
    "positive number". *)
Definition positive (n : number) : Prop :=
  match n with
  | NaN => False
  | Infinity negative => negative = false
  | Finite q => (0 < q)%Qc
  end.

End Num.

Import Num.

(* ================================================================== *)
(** ** JavaScript values *)

(** An object other than a Date (a plain object, an array, a function):
    the controllers never look inside one, so it is kept opaque. *)
Inductive object : Type :=
| PlainObject (tag : nat)
| ArrayObject (tag : nat).

Inductive value : Type :=
| VUndefined
| VNull
| VBoolean (b : bool)
| VNumber (n : number)
| VString (s : string)
| VDate (tv : option Z)
| VObject (o : object).

Inductive jstype : Type :=
| TUndefined | TObject | TBoolean | TNumber | TString.

(** The [typeof] operator ([null] is an "object"). *)
Definition typeof (v : value) : jstype :=
  match v with
  | VUndefined => TUndefined
  | VNull => TObject
  | VBoolean _ => TBoolean
  | VNumber _ => TNumber
  | VString _ => TString
  | VDate _ => TObject
  | VObject _ => TObject
  end.

Definition jstype_eqb (a b : jstype) : bool :=
  match a, b with
  | TUndefined, TUndefined | TObject, TObject | TBoolean, TBoolean
  | TNumber, TNumber | TString, TString => true
  | _, _ => false
  end.

(** ToBoolean: the falsy values are [undefined], [null], [false], the
    zeros, [NaN] and the empty string. *)
Definition ToBoolean (v : value) : bool :=
  match v with
  | VUndefined | VNull => false
  | VBoolean b => b
  | VNumber NaN => false
  | VNumber (Infinity _) => true
  | VNumber (Finite q) => negb (Qc_eqb q (Q2Qc 0))
  | VString s => negb (String.eqb s "")
  | VDate _ | VObject _ => true
  end.

(** The logical not [!v]. *)
Definition js_not (v : value) : bool := negb (ToBoolean v).

(** The operator [a || b] on values. *)
Definition js_or (a b : value) : value := if ToBoolean a then a else b.

(* ------------------------------------------------------------------ *)
(** *** Strings: [trim] and [Array.prototype.includes] *)

(** White space and line terminators among the code units below 256:
    TAB, LF, VT, FF, CR, SPACE and NBSP. *)
Definition is_whitespace (c : ascii) : bool :=
  let n := nat_of_ascii c in
  (Nat.eqb n 9 || Nat.eqb n 10 || Nat.eqb n 11 || Nat.eqb n 12
   || Nat.eqb n 13 || Nat.eqb n 32 || Nat.eqb n 160)%bool.

Fixpoint trimStart (s : string) : string :=
  match s with
  | EmptyString => EmptyString
  | String c rest => if is_whitespace c then trimStart rest else s
  end.

(** [trimEnd] keeps a character when it is no white space or when something
    is kept after it. *)
Fixpoint trimEnd (s : string) : string :=
  match s with
  | EmptyString => EmptyString
  | String c rest =>
      match trimEnd rest with
      | EmptyString => if is_whitespace c then EmptyString else String c EmptyString
      | kept => String c kept
      end
  end.

Definition trim (s : string) : string := trimEnd (trimStart s).

(** [arr.includes(v)] for an array of strings: SameValueZero equates a
    string element only with an equal string. *)
Definition includes (arr : list string) (v : value) : bool :=
  match v with
  | VString s => existsb (String.eqb s) arr
  | _ => false
  end.

(* ================================================================== *)
(** ** The cost controller: validation *)

Definition allowedCategories : list string :=
  ["food"; "health"; "housing"; "sport"; "education"].

Definition msg_description : string :=
  "Description is required and must be a string.".
Definition msg_category : string :=
  "Category must be one of: food, health, housing, sport, education.".
Definition msg_userid : string := "User ID must be a positive number.".
Definition msg_sum : string := "Sum must be a positive number.".

(** [description.trim() === ''], reached only when [description] is a
    string. *)
Definition trim_is_empty (v : value) : bool :=
  match v with
  | VString s => String.eqb (trim s) ""
  | _ => false
  end.

(** [v <= 0], reached only when [v] is a number. *)
Definition le_zero (v : value) : bool :=
  match v with
  | VNumber n => Num.leb n (ofZ 0)
  | _ => false
  end.

(** [validateCostInput]: [None] is the [null] of a valid input. *)
Definition validateCostInput (description category userid sum : value)
  : option string :=
  if (js_not description
      || negb (jstype_eqb (typeof description) TString)
      || trim_is_empty description)%bool
  then Some msg_description
  else if negb (includes allowedCategories category)
  then Some msg_category
  else if (js_not userid
           || negb (jstype_eqb (typeof userid) TNumber)
           || le_zero userid)%bool
  then Some msg_userid
  else if (js_not sum
           || negb (jstype_eqb (typeof sum) TNumber)
           || le_zero sum)%bool
  then Some msg_sum
  else None.

(** The four rules in the words of the specification. *)
Definition valid_description (v : value) : Prop :=
  exists s, v = VString s /\
    exists c, In c (list_ascii_of_string s) /\ is_whitespace c = false.

Definition valid_category (v : value) : Prop :=
  exists s, v = VString s /\ In s allowedCategories.

Definition positive_number (v : value) : Prop :=
  exists n, v = VNumber n /\ Num.positive n.

(* ================================================================== *)
(** ** Dates: the day and year arithmetic of the language's Date *)

Module DateTime.

Definition msPerDay : Z := 86400000.

Definition Day (t : Z) : Z := t / msPerDay.

Definition DaysInYear (y : Z) : Z :=
  if negb (y mod 4 =? 0) then 365
  else if negb (y mod 100 =? 0) then 366
  else if negb (y mod 400 =? 0) then 365
  else 366.

(** The day number of the first day of year [y]. *)
Definition DayFromYear (y : Z) : Z :=
  365 * (y - 1970) + (y - 1969) / 4 - (y - 1901) / 100 + (y - 1601) / 400.

(** The year a day number falls in: the largest [y] with
    [DayFromYear y <= d], found among the three years around the mean-year
    estimate. *)
Definition YearFromDay (d : Z) : Z :=
  let e := 1970 + (400 * d) / 146097 in
  if DayFromYear (e + 1) <=? d then e + 1
  else if DayFromYear e <=? d then e
  else e - 1.

Definition YearFromTime (t : Z) : Z := YearFromDay (Day t).

Definition InLeapYear (t : Z) : Z :=
  if DaysInYear (YearFromTime t) =? 366 then 1 else 0.

Definition DayWithinYear (t : Z) : Z := Day t - DayFromYear (YearFromTime t).

(** The month number, 0 for January to 11 for December. *)
Definition MonthFromTime (t : Z) : Z :=
  let d := DayWithinYear t in
  let leap := InLeapYear t in
  if d <? 31 then 0
  else if d <? 59 + leap then 1
  else if d <? 90 + leap then 2
  else if d <? 120 + leap then 3
  else if d <? 151 + leap then 4
  else if d <? 181 + leap then 5
  else if d <? 212 + leap then 6
  else if d <? 243 + leap then 7
  else if d <? 273 + leap then 8
  else if d <? 304 + leap then 9
  else if d <? 334 + leap then 10
  else 11.

(** The day of the month, from 1. *)
Definition DateFromTime (t : Z) : Z :=
  let d := DayWithinYear t in
  let leap := InLeapYear t in
  match MonthFromTime t with
  | 0 => d + 1
  | 1 => d - 30
  | 2 => d - 58 - leap
  | 3 => d - 89 - leap
  | 4 => d - 119 - leap
  | 5 => d - 150 - leap
  | 6 => d - 180 - leap
  | 7 => d - 211 - leap
  | 8 => d - 242 - leap
  | 9 => d - 272 - leap
  | 10 => d - 303 - leap
  | _ => d - 333 - leap
  end.

(** Days from the first of January to the first of month [mn] (0 to 11)
    of a year with [leap] extra days in February. *)
Definition DaysBeforeMonth (mn leap : Z) : Z :=
  match mn with
  | 0 => 0
  | 1 => 31
  | 2 => 59 + leap
  | 3 => 90 + leap
  | 4 => 120 + leap
  | 5 => 151 + leap
  | 6 => 181 + leap
  | 7 => 212 + leap
  | 8 => 243 + leap
  | 9 => 273 + leap
  | 10 => 304 + leap
  | _ => 334 + leap
  end.

(** MakeDay on integral arguments: months outside 0..11 carry into the
    year, and the day of the month counts from the first, so that day 0 is
    the day before the first. *)
Definition MakeDay (year month date : Z) : Z :=
  let ym := year + month / 12 in
  let mn := month mod 12 in
  DayFromYear ym + DaysBeforeMonth mn (DaysInYear ym - 365) + date - 1.

Definition MakeDate (day time : Z) : Z := day * msPerDay + time.

Definition maxTime : Z := 8640000000000000.

(** TimeClip: a time value out of range makes the Date invalid. *)
Definition TimeClip (t : Z) : option Z :=
  if Z.abs t <=? maxTime then Some t else None.

(** The number of days of month [m] (1 to 12) of year [y] in the civil
    calendar, written from the calendar's rule. *)
Definition days_in_month (y m : Z) : Z :=
  match m with
  | 2 => if ((y mod 4 =? 0) && (negb (y mod 100 =? 0) || (y mod 400 =? 0)))%bool
         then 29 else 28
  | 4 | 6 | 9 | 11 => 30
  | _ => 31
  end.

End DateTime.

Import DateTime.

(* ================================================================== *)
(** ** The runtime: conversions the controllers rely on *)

Definition ObjectId : Type := N.

Record Runtime : Type := {
  (** offset of local time from UTC in milliseconds (taken constant: no
      daylight-saving transitions) *)
  LocalTZA : Z;
  (** StringToNumber of the language *)
  StringToNumber : string -> number;
  (** the primitive string an object converts to *)
  ObjectToString : object -> string;
  (** Number::toString *)
  NumberToString : number -> string;
  (** the string form of a valid Date *)
  DateToString : Z -> string;
  (** the store's String cast of an object, when it has one *)
  CastObjectString : object -> option string;
  (** Date.parse; [None] is NaN *)
  DateParse : string -> option Z;
  (** the store's cast of a string to a storage identifier *)
  ParseObjectId : string -> option ObjectId;
  (** what the store's [$sum] accumulator returns for the numbers of a
      group, in the order of the documents *)
  StoreSum : list number -> number
}.

Section Conversions.

Variable rt : Runtime.

Definition LocalTime (t : Z) : Z := t + LocalTZA rt.
Definition UTC (t : Z) : Z := t - LocalTZA rt.

(** ToNumber, which is also [Number(v)]. *)
Definition ToNumber (v : value) : number :=
  match v with
  | VUndefined => NaN
  | VNull => ofZ 0
  | VBoolean b => if b then ofZ 1 else ofZ 0
  | VNumber n => n
  | VString s => StringToNumber rt s
  | VDate (Some t) => ofZ t
  | VDate None => NaN
  | VObject o => StringToNumber rt (ObjectToString rt o)
  end.

(** The global [isNaN(v)]. *)
Definition js_isNaN (v : value) : bool := Num.isNaN (ToNumber v).

(** [v < n] and [v > n] against a number: both sides go through ToNumber. *)
Definition js_lt (v : value) (n : number) : bool := Num.ltb (ToNumber v) n.
Definition js_gt (v : value) (n : number) : bool := Num.gtb (ToNumber v) n.

(** [v - n]. *)
Definition js_minus (v : value) (n : number) : number := Num.sub (ToNumber v) n.

(** [new Date(year, month, date)]: local midnight of the given day. A year
    from 0 to 99 means 1900 to 1999. *)
Definition newDate3 (year month date : number) : option Z :=
  match year, month, date with
  | Finite y, Finite m, Finite dt =>
      let yi := Num.truncate y in
      let yr := if ((0 <=? yi) && (yi <=? 99))%bool then 1900 + yi else yi in
      let day := MakeDay yr (Num.truncate m) (Num.truncate dt) in
      TimeClip (UTC (MakeDate day 0))
  | _, _, _ => None
  end.

(** [new Date(n)] for a number: the range is checked before the
    truncation. *)
Definition newDate1 (n : number) : option Z :=
  match n with
  | Finite q =>
      if (Num.leb (ofZ (- maxTime)) n && Num.leb n (ofZ maxTime))%bool
      then Some (Num.truncate q)
      else None
  | _ => None
  end.

(** [new Date(d).getDate()] for a stored date; a missing date is [null],
    which [new Date] reads as the epoch. *)
Definition getDate (d : option Z) : number :=
  match d with
  | Some t => ofZ (DateFromTime (LocalTime t))
  | None => ofZ (DateFromTime (LocalTime 0))
  end.

(** [new Date().getFullYear()] at the instant [now]. *)
Definition getFullYear (now : Z) : number := ofZ (YearFromTime (LocalTime now)).

End Conversions.

(* ================================================================== *)
(** ** Exceptions, completions and replies *)

(** What a store operation or a property access can throw. *)
Inductive exn : Type :=
| CastError (path : string)
| ValidationError (path : string)
| DuplicateKeyError (path : string)
| TypeError (what : string).

Inductive completion (A : Type) : Type :=
| Returned (a : A)
| Threw (e : exn).

Arguments Returned {A} a.
Arguments Threw {A} e.

(** The [error] field of a reply: a literal of the controller, or the
    [message] of a caught exception. *)
Inductive errmsg : Type :=
| Text (s : string)
| MessageOf (e : exn).

(** What a controller function returns, [{status, data}], [{status, error}]
    or [{status, message}]; the handlers send the same three shapes. *)
Inductive reply (A : Type) : Type :=
| Data (status : Z) (data : A)
| Error (status : Z) (error : errmsg)
| Message (status : Z) (message : string).

Arguments Data {A} status data.
Arguments Error {A} status error.
Arguments Message {A} status message.

Definition status_of {A} (r : reply A) : Z :=
  match r with
  | Data s _ | Error s _ | Message s _ => s
  end.

(** A JavaScript object with string keys, in insertion order. *)
Definition jsobject (A : Type) : Type := list (string * A).

Fixpoint obj_get {A} (o : jsobject A) (k : string) : option A :=
  match o with
  | [] => None
  | (k', a) :: rest => if String.eqb k k' then Some a else obj_get rest k
  end.

(** [o[k] = a]: an existing key keeps its place, a new key goes last. *)
Fixpoint obj_set {A} (o : jsobject A) (k : string) (a : A) : jsobject A :=
  match o with
  | [] => [(k, a)]
  | (k', a') :: rest =>
      if String.eqb k k' then (k', a) :: rest else (k', a') :: obj_set rest k a
  end.

(** [Object.keys(o)]; no key of the report is an array index, so the order
    is the insertion order. *)
Definition Object_keys {A} (o : jsobject A) : list string := map fst o.

(* ================================================================== *)
(** ** The store: the two schemas and the operations of their models *)

(** A saved document of the Cost schema. [date] alone is not required, so
    it alone can be [null]. *)
Record CostDoc : Type := {
  cost_id : ObjectId;
  description : string;
  category : string;
  userid : number;
  user : ObjectId;
  sum : number;
  date : option Z;
  cost_createdAt : Z;
  cost_updatedAt : Z
}.

(** A saved document of the User schema. *)
Record UserDoc : Type := {
  user_oid : ObjectId;
  id : number;
  first_name : string;
  last_name : string;
  birthday : Z;
  marital_status : string;
  user_createdAt : Z;
  user_updatedAt : Z
}.

Record DB : Type := {
  users : list UserDoc;
  costs : list CostDoc
}.

(** The result of casting a value to a schema type. *)
Inductive cast (A : Type) : Type :=
| CastOk (a : A)
| CastNull
| CastFail.

Arguments CastOk {A} a.
Arguments CastNull {A}.
Arguments CastFail {A}.

(** What the cast of an update document finds for one path. *)
Inductive path_cast (A : Type) : Type :=
| PathAbsent
| PathValue (a : A)
| PathNull
| PathFails
| PathNested.

Arguments PathAbsent {A}.
Arguments PathValue {A} a.
Arguments PathNull {A}.
Arguments PathFails {A}.
Arguments PathNested {A}.

(** The value an update document gives to [path], cast to the schema
    type: the cast is the one of a saved document. A nested object, an
    array and [undefined] are given no meaning here. *)
Definition cast_path {A} (castA : value -> cast A)
    (updateData : jsobject value) (path : string) : path_cast A :=
  match obj_get updateData path with
  | None => PathAbsent
  | Some VUndefined | Some (VObject _) => PathNested
  | Some v =>
      match castA v with
      | CastOk a => PathValue a
      | CastNull => PathNull
      | CastFail => PathFails
      end
  end.

Definition path_fails {A} (p : path_cast A) : bool :=
  match p with PathFails => true | _ => false end.

(** A path that is given a meaning: no nested value, and [null] only where
    the document type has room for it. *)
Definition path_modelled {A} (nullable : bool) (p : path_cast A) : bool :=
  match p with
  | PathNested => false
  | PathNull => nullable
  | _ => true
  end.

(** What the update sets a required path to. *)
Definition path_set {A} (p : path_cast A) : option A :=
  match p with PathValue a => Some a | _ => None end.

(** What the update sets a path that can be [null] to. *)
Definition path_set_nullable {A} (p : path_cast A) : option (option A) :=
  match p with
  | PathValue a => Some (Some a)
  | PathNull => Some None
  | _ => None
  end.

(** Every key of the update document is one of [paths]. *)
Definition only_paths (paths : list string) (updateData : jsobject value)
  : bool :=
  forallb (fun k => existsb (String.eqb k) paths) (Object_keys updateData).

Section Store.

Variable rt : Runtime.

(** The Number cast of the schema. *)
Definition castNumber (v : value) : cast number :=
  match v with
  | VUndefined | VNull => CastNull
  | VObject (ArrayObject _) => CastFail
  | VString s =>
      if String.eqb s "" then CastNull
      else if Num.isNaN (ToNumber rt v) then CastFail
      else CastOk (ToNumber rt v)
  | _ => if Num.isNaN (ToNumber rt v) then CastFail else CastOk (ToNumber rt v)
  end.

(** The String cast of the schema. *)
Definition castString (v : value) : cast string :=
  match v with
  | VUndefined | VNull => CastNull
  | VString s => CastOk s
  | VNumber n => CastOk (NumberToString rt n)
  | VBoolean b => CastOk (if b then "true" else "false")
  | VDate (Some t) => CastOk (DateToString rt t)
  | VDate None => CastOk "Invalid Date"
  | VObject o =>
      match CastObjectString rt o with
      | Some s => CastOk s
      | None => CastFail
      end
  end.

Definition of_date (d : option Z) : cast Z :=
  match d with
  | Some t => CastOk t
  | None => CastFail
  end.

(** The Date cast of the schema. A string that reads as a number outside
    the range of years is a count of milliseconds. *)
Definition castDate (v : value) : cast Z :=
  match v with
  | VUndefined | VNull => CastNull
  | VDate d => of_date d
  | VBoolean _ => CastFail
  | VNumber n => of_date (newDate1 n)
  | VString s =>
      if String.eqb s "" then CastNull
      else
        let n := StringToNumber rt s in
        if (negb (Num.isNaN n)
            && (Num.leb (ofZ 275761) n || Num.ltb n (ofZ (-271820))))%bool
        then of_date (newDate1 n)
        else of_date (DateParse rt s)
  | VObject o => of_date (DateParse rt (ObjectToString rt o))
  end.

(* ------------------------------------------------------------------ *)
(** *** The User model *)

(** [User.findOne({ id: v })]: the filter is cast to the schema's Number;
    a [null] filter matches no document, since [id] is required. A filter
    value that is an object, which the store reads as a query operator, is
    answered here as a value that does not cast. *)
Definition User_findOne (us : list UserDoc) (v : value)
  : completion (option UserDoc) :=
  match castNumber v with
  | CastFail => Threw (CastError "id")
  | CastNull => Returned None
  | CastOk n => Returned (find (fun u => Num.eqb (id u) n) us)
  end.

(** The five fields [addUser] passes on. *)
Record UserData : Type := {
  ud_id : value;
  ud_first_name : value;
  ud_last_name : value;
  ud_birthday : value;
  ud_marital_status : value
}.

(** A required String path: present and not empty. *)
Definition required_string (path : string) (c : cast string)
  : completion string :=
  match c with
  | CastOk s =>
      if String.eqb s "" then Threw (ValidationError path) else Returned s
  | CastNull => Threw (ValidationError path)
  | CastFail => Threw (ValidationError path)
  end.

(** A required path of another type: present. *)
Definition required {A} (path : string) (c : cast A) : completion A :=
  match c with
  | CastOk a => Returned a
  | CastNull => Threw (ValidationError path)
  | CastFail => Threw (ValidationError path)
  end.

Definition bind {A B} (c : completion A) (k : A -> completion B)
  : completion B :=
  match c with
  | Returned a => k a
  | Threw e => Threw e
  end.

Notation "x <- c ;; k" := (bind c (fun x => k))
  (at level 61, c at next level, right associativity).

(** [new User(userData).save()]: the fields are cast and validated, the
    unique index on [id] is checked, and the document is appended with the
    fresh identifier [oid] and both timestamps at [now]. *)
Definition User_save (us : list UserDoc) (now : Z) (oid : ObjectId)
    (d : UserData) : completion (list UserDoc * UserDoc) :=
  i <- required "id" (castNumber (ud_id d)) ;;
  fn <- required_string "first_name" (castString (ud_first_name d)) ;;
  ln <- required_string "last_name" (castString (ud_last_name d)) ;;
  bd <- required "birthday" (castDate (ud_birthday d)) ;;
  ms <- required_string "marital_status" (castString (ud_marital_status d)) ;;
  if existsb (fun u => Num.eqb (id u) i) us
  then Threw (DuplicateKeyError "id")
  else if existsb (fun u => N.eqb (user_oid u) oid) us
  then Threw (DuplicateKeyError "_id")
  else
    let doc := {| user_oid := oid; id := i; first_name := fn;
                  last_name := ln; birthday := bd; marital_status := ms;
                  user_createdAt := now; user_updatedAt := now |} in
    Returned ((us ++ [doc])%list, doc).

(* ------------------------------------------------------------------ *)
(** *** The Cost model *)

(** The object literal [createCost] hands to [new Cost]. *)
Record NewCost : Type := {
  nc_description : value;
  nc_category : value;
  nc_userid : value;
  nc_user : ObjectId;
  nc_sum : value;
  nc_date : value
}.

(** The [enum] validator of the [category] path. *)
Definition category_enum : list string :=
  ["food"; "health"; "housing"; "sport"; "education"].

Definition in_enum (s : string) : bool := existsb (String.eqb s) category_enum.

(** An optional path: [null] is kept. *)
Definition optional {A} (path : string) (c : cast A) : completion (option A) :=
  match c with
  | CastOk a => Returned (Some a)
  | CastNull => Returned None
  | CastFail => Threw (ValidationError path)
  end.

(** [new Cost(fields).save()]: cast, validate ([required] and [enum]) and
    append the document with the fresh identifier [oid]. *)
Definition Cost_save (cs : list CostDoc) (now : Z) (oid : ObjectId)
    (f : NewCost) : completion (list CostDoc * CostDoc) :=
  d <- required_string "description" (castString (nc_description f)) ;;
  c <- required_string "category" (castString (nc_category f)) ;;
  u <- required "userid" (castNumber (nc_userid f)) ;;
  s <- required "sum" (castNumber (nc_sum f)) ;;
  dt <- optional "date" (castDate (nc_date f)) ;;
  if negb (in_enum c) then Threw (ValidationError "category")
  else if existsb (fun k => N.eqb (cost_id k) oid) cs
  then Threw (DuplicateKeyError "_id")
  else
    let doc := {| cost_id := oid; description := d; category := c;
                  userid := u; user := nc_user f; sum := s; date := dt;
                  cost_createdAt := now; cost_updatedAt := now |} in
    Returned ((cs ++ [doc])%list, doc).

(** The update document of an expense after the schema's cast: each path
    is left alone or set to a value of its schema type, [date] possibly to
    [null]. No validator runs on an update. *)
Record CostUpdate : Type := {
  up_description : option string;
  up_category : option string;
  up_userid : option number;
  up_sum : option number;
  up_date : option (option Z)
}.

Definition cost_paths : list string :=
  ["description"; "category"; "userid"; "sum"; "date"].

Definition user_paths : list string :=
  ["id"; "first_name"; "last_name"; "birthday"; "marital_status"].

(** The cast of the update document of an expense. A value that does not
    cast makes the store throw before it looks anything up (which of
    several such paths the error names is not modelled: the first in the
    order of the schema). [None] marks an update document that is given no
    meaning here. *)
Definition Cost_castUpdate (updateData : jsobject value)
  : option (completion CostUpdate) :=
  let d := cast_path castString updateData "description" in
  let c := cast_path castString updateData "category" in
  let u := cast_path castNumber updateData "userid" in
  let s := cast_path castNumber updateData "sum" in
  let t := cast_path castDate updateData "date" in
  if negb (only_paths cost_paths updateData
           && path_modelled false d && path_modelled false c
           && path_modelled false u && path_modelled false s
           && path_modelled true t)
  then None
  else if path_fails d then Some (Threw (CastError "description"))
  else if path_fails c then Some (Threw (CastError "category"))
  else if path_fails u then Some (Threw (CastError "userid"))
  else if path_fails s then Some (Threw (CastError "sum"))
  else if path_fails t then Some (Threw (CastError "date"))
  else Some (Returned {| up_description := path_set d;
                         up_category := path_set c;
                         up_userid := path_set u;
                         up_sum := path_set s;
                         up_date := path_set_nullable t |}).

Definition or_else {A} (o : option A) (a : A) : A :=
  match o with Some x => x | None => a end.

(** The partial merge: a path that is set replaces the field, another one
    keeps it; the update timestamp moves to [now]. *)
Definition apply_update (now : Z) (u : CostUpdate) (c : CostDoc) : CostDoc :=
  {| cost_id := cost_id c;
     description := or_else (up_description u) (description c);
     category := or_else (up_category u) (category c);
     userid := or_else (up_userid u) (userid c);
     user := user c;
     sum := or_else (up_sum u) (sum c);
     date := or_else (up_date u) (date c);
     cost_createdAt := cost_createdAt c;
     cost_updatedAt := now |}.

(** Replace the first document whose identifier is [oid]. *)
Fixpoint update_first (oid : ObjectId) (f : CostDoc -> CostDoc)
    (cs : list CostDoc) : list CostDoc * option CostDoc :=
  match cs with
  | [] => ([], None)
  | c :: rest =>
      if N.eqb (cost_id c) oid then (f c :: rest, Some (f c))
      else let '(rest', r) := update_first oid f rest in (c :: rest', r)
  end.

(** [Cost.findByIdAndUpdate(costId, updateData, { new: true })]: the
    identifier is cast, then the update document, and only then is the
    document looked up; the updated document is returned, or [null]. *)
Definition Cost_findByIdAndUpdate (cs : list CostDoc) (now : Z)
    (costId : string) (updateData : jsobject value)
  : option (completion (list CostDoc * option CostDoc)) :=
  match Cost_castUpdate updateData with
  | None => None
  | Some casted =>
      Some match ParseObjectId rt costId with
           | None => Threw (CastError "_id")
           | Some oid =>
               u <- casted ;;
               Returned (update_first oid (apply_update now u) cs)
           end
  end.

(** Remove the first document whose identifier is [oid]. *)
Fixpoint delete_first (oid : ObjectId) (cs : list CostDoc)
  : list CostDoc * option CostDoc :=
  match cs with
  | [] => ([], None)
  | c :: rest =>
      if N.eqb (cost_id c) oid then (rest, Some c)
      else let '(rest', r) := delete_first oid rest in (c :: rest', r)
  end.

(** [Cost.findByIdAndDelete(costId)]. *)
Definition Cost_findByIdAndDelete (cs : list CostDoc) (costId : string)
  : completion (list CostDoc * option CostDoc) :=
  match ParseObjectId rt costId with
  | None => Threw (CastError "_id")
  | Some oid => Returned (delete_first oid cs)
  end.

(** The filter [{ userid: n, date: { $gte: startDate, $lte: endDate } }]
    on one document. *)
Definition in_report_range (n : number) (startDate endDate : Z) (c : CostDoc)
  : bool :=
  (Num.eqb (userid c) n
   && match date c with
      | Some t => (startDate <=? t) && (t <=? endDate)
      | None => false
      end)%bool.

(** [Cost.find] with that filter: the invalid Date and [NaN] do not cast,
    and the error of the path [date] comes first. *)
Definition Cost_find (cs : list CostDoc) (n : number)
    (startDate endDate : option Z) : completion (list CostDoc) :=
  match startDate, endDate with
  | Some s, Some e =>
      if Num.isNaN n then Threw (CastError "userid")
      else Returned (filter (in_report_range n s e) cs)
  | _, _ => Threw (CastError "date")
  end.

(** One group of the aggregation, [{ _id: null, total }]. *)
Record Group : Type := { total : number }.

(** The accumulator [$sum] of the [$group] stage on the [sum] fields of
    the documents of the group. *)
Definition accumulate_sum (cs : list CostDoc) : number :=
  StoreSum rt (map sum cs).

(** [Cost.aggregate([{ $match: { userid: n } },
                     { $group: { _id: null, total: { $sum: "$sum" } } }])]:
    no document in, no group out. *)
Definition Cost_aggregate_total (cs : list CostDoc) (n : number) : list Group :=
  match filter (fun c => Num.eqb (userid c) n) cs with
  | [] => []
  | matched => [ {| total := accumulate_sum matched |} ]
  end.

End Store.

(* ================================================================== *)
(** ** The cost controller *)

(** The five fields [addCost] reads from the request body; an absent one
    is [undefined]. *)
Record CostData : Type := {
  cd_description : value;
  cd_category : value;
  cd_userid : value;
  cd_sum : value;
  cd_date : value
}.

(** One line of the monthly report, [{ sum, description, day }]. *)
Record Entry : Type := {
  entry_sum : number;
  entry_description : string;
  entry_day : number
}.

(** The [data] of the monthly report. [report_costs] is an array of
    objects. *)
Record Report : Type := {
  report_userid : number;
  report_year : number;
  report_month : number;
  report_costs : list (jsobject (list Entry))
}.

(** The query string of the report request. *)
Record ReportQuery : Type := {
  q_id : value;
  q_year : value;
  q_month : value
}.

Definition date_value (d : option Z) : value :=
  match d with
  | Some t => VDate (Some t)
  | None => VNull
  end.

Definition msg_user_not_found : string := "User not found. Cannot add cost.".
Definition msg_cost_not_found : string := "Cost not found.".
Definition msg_cost_deleted : string := "Cost deleted successfully.".

Section CostController.

Variable rt : Runtime.

(** [createCost]. [now] is what [Date.now()] returns and [oid] the
    identifier [new Cost] generates. *)
Definition createCost (db : DB) (now : Z) (oid : ObjectId)
    (costData : CostData) : DB * reply (jsobject value) :=
  match User_findOne rt (users db) (cd_userid costData) with
  | Threw e => (db, Error 500 (MessageOf e))
  | Returned None => (db, Error 404 (Text msg_user_not_found))
  | Returned (Some user) =>
      let newCost :=
        {| nc_description := cd_description costData;
           nc_category := cd_category costData;
           nc_userid := cd_userid costData;
           nc_user := user_oid user;
           nc_sum := cd_sum costData;
           nc_date := js_or (cd_date costData) (VNumber (ofZ now)) |} in
      match Cost_save rt (costs db) now oid newCost with
      | Threw e => (db, Error 500 (MessageOf e))
      | Returned (costs', savedCost) =>
          ({| users := users db; costs := costs' |},
           Data 201
             [("description", VString (description savedCost));
              ("category", VString (category savedCost));
              ("userid", VNumber (userid savedCost));
              ("sum", VNumber (sum savedCost));
              ("date", date_value (date savedCost))])
      end
  end.

(** [updateCost]; [updateData] is the request body. [None] for an update
    document that is given no meaning here. *)
Definition updateCost (db : DB) (now : Z) (costId : string)
    (updateData : jsobject value) : option (DB * reply CostDoc) :=
  match Cost_findByIdAndUpdate rt (costs db) now costId updateData with
  | None => None
  | Some (Threw e) => Some (db, Error 500 (MessageOf e))
  | Some (Returned (_, None)) =>
      Some (db, Error 404 (Text msg_cost_not_found))
  | Some (Returned (costs', Some updatedCost)) =>
      Some ({| users := users db; costs := costs' |}, Data 200 updatedCost)
  end.

(** [deleteCost]. *)
Definition deleteCost (db : DB) (costId : string) : DB * reply unit :=
  match Cost_findByIdAndDelete rt (costs db) costId with
  | Threw e => (db, Error 500 (MessageOf e))
  | Returned (_, None) => (db, Error 404 (Text msg_cost_not_found))
  | Returned (costs', Some _) =>
      ({| users := users db; costs := costs' |}, Message 200 msg_cost_deleted)
  end.

(** The fixed categories of the report, in the order of the source. *)
Definition categories : list string :=
  ["food"; "health"; "housing"; "sport"; "education"].

(** [categories.forEach(category => { groupedCosts[category] = []; })]
    from the empty object. *)
Definition init_groups : jsobject (list Entry) :=
  fold_left (fun g category => obj_set g category []) categories [].

Definition entry_of (cost : CostDoc) : Entry :=
  {| entry_sum := sum cost;
     entry_description := description cost;
     entry_day := getDate rt (date cost) |}.

(** [groupedCosts[cost.category].push(...)]: the array is looked up and
    extended in place; a category that is no key of the object yields
    [undefined] (or an inherited property that is no array), and the call
    of [push] on it throws. *)
Definition push_cost (g : jsobject (list Entry)) (cost : CostDoc)
  : completion (jsobject (list Entry)) :=
  match obj_get g (category cost) with
  | Some arr => Returned (obj_set g (category cost) (arr ++ [entry_of cost])%list)
  | None => Threw (TypeError "push")
  end.

(** [costs.forEach(cost => ...)], stopping at the first throw. *)
Fixpoint push_all (g : jsobject (list Entry)) (cs : list CostDoc)
  : completion (jsobject (list Entry)) :=
  match cs with
  | [] => Returned g
  | cost :: rest =>
      match push_cost g cost with
      | Returned g' => push_all g' rest
      | Threw e => Threw e
      end
  end.

(** [Object.keys(groupedCosts).map(category =>
      ({ [category]: groupedCosts[category] }))]. *)
Definition single_key_objects (g : jsobject (list Entry))
  : list (jsobject (list Entry)) :=
  map (fun category => [(category, or_else (obj_get g category) [])])
      (Object_keys g).

(** The two ends of the date filter. *)
Definition startDate_of (year month : value) : option Z :=
  newDate3 rt (ToNumber rt year) (js_minus rt month (ofZ 1)) (ofZ 1).

Definition endDate_of (year month : value) : option Z :=
  newDate3 rt (ToNumber rt year) (ToNumber rt month) (ofZ 0).

(** [fetchMonthlyReport]; it only reads the store. *)
Definition fetchMonthlyReport (db : DB) (id year month : value)
  : reply Report :=
  let startDate := startDate_of year month in
  let endDate := endDate_of year month in
  match Cost_find (costs db) (ToNumber rt id) startDate endDate with
  | Threw e => Error 500 (MessageOf e)
  | Returned found =>
      match push_all init_groups found with
      | Threw e => Error 500 (MessageOf e)
      | Returned groupedCosts =>
          Data 200
            {| report_userid := ToNumber rt id;
               report_year := ToNumber rt year;
               report_month := ToNumber rt month;
               report_costs := single_key_objects groupedCosts |}
      end
  end.

(** [if (validationError)]: a message is truthy when it is not empty. *)
Definition is_error (validationError : option string) : bool :=
  match validationError with
  | Some s => negb (String.eqb s "")
  | None => false
  end.

(** The handler [addCost]: validation, then [createCost]; the reply is
    sent with its own status. *)
Definition addCost (db : DB) (now : Z) (oid : ObjectId) (body : CostData)
  : DB * reply (jsobject value) :=
  let validationError :=
    validateCostInput (cd_description body) (cd_category body)
                      (cd_userid body) (cd_sum body) in
  if is_error validationError
  then (db, Error 400 (Text (or_else validationError "")))
  else createCost db now oid body.


(** The handler [removeCost]. *)
Definition removeCost (db : DB) (params_id : string) : DB * reply unit :=
  deleteCost db params_id.

(** The handler [getMonthlyReport]: the three query parameters are checked
    through ToNumber, so a string that reads as a number passes. *)
Definition getMonthlyReport (db : DB) (now : Z) (query : ReportQuery)
  : reply Report :=
  let id := q_id query in
  let year := q_year query in
  let month := q_month query in
  if (js_not id || js_isNaN rt id)%bool
  then Error 400 (Text "Valid user ID is required.")
  else if (js_not year || js_isNaN rt year || js_lt rt year (ofZ 2000)
           || js_gt rt year (getFullYear rt now))%bool
  then Error 400 (Text "Valid year is required.")
  else if (js_not month || js_isNaN rt month || js_lt rt month (ofZ 1)
           || js_gt rt month (ofZ 12))%bool
  then Error 400 (Text "Month must be between 1 and 12.")
  else fetchMonthlyReport db id year month.

End CostController.

(* ================================================================== *)
(** ** The user controller *)

Definition msg_user_exists : string := "User ID already exists.".

Section UserController.

Variable rt : Runtime.

(** [createUser]: the lookup by [id] comes before the save. *)
Definition createUser (db : DB) (now : Z) (oid : ObjectId)
    (userData : UserData) : DB * reply UserDoc :=
  match User_findOne rt (users db) (ud_id userData) with
  | Threw e => (db, Error 500 (MessageOf e))
  | Returned (Some existingUser) => (db, Error 400 (Text msg_user_exists))
  | Returned None =>
      match User_save rt (users db) now oid userData with
      | Threw e => (db, Error 500 (MessageOf e))
      | Returned (users', savedUser) =>
          ({| users := users'; costs := costs db |}, Data 201 savedUser)
      end
  end.

(** [totalCostResult.length > 0 ? totalCostResult[0].total : 0]. *)
Definition totalCost_of (totalCostResult : list Group) : number :=
  match totalCostResult with
  | g :: _ => total g
  | [] => ofZ 0
  end.

(** The lifetime total of the user numbered [n]. *)
Definition lifetimeTotal (db : DB) (n : number) : number :=
  totalCost_of (Cost_aggregate_total rt (costs db) n).

(** [fetchUserDetails]; it only reads the store. *)
Definition fetchUserDetails (db : DB) (userId : value)
  : reply (jsobject value) :=
  match User_findOne rt (users db) userId with
  | Threw e => Error 500 (MessageOf e)
  | Returned None => Error 404 (Text "User not found")
  | Returned (Some user) =>
      let totalCost := lifetimeTotal db (id user) in
      Data 200
        [("first_name", VString (first_name user));
         ("last_name", VString (last_name user));
         ("id", VNumber (id user));
         ("total", VNumber totalCost)]
  end.

End UserController.

(* ================================================================== *)
(** ** Sample data *)

Module Sample.

Definition hex_digit (c : ascii) : option N :=
  let n := N_of_ascii c in
  if ((48 <=? n) && (n <=? 57))%N then Some (n - 48)%N
  else if ((97 <=? n) && (n <=? 102))%N then Some (n - 87)%N
  else if ((65 <=? n) && (n <=? 70))%N then Some (n - 55)%N
  else None.

Fixpoint hex_value (acc : N) (s : string) : option N :=
  match s with
  | EmptyString => Some acc
  | String c rest =>
      match hex_digit c with
      | Some d => hex_value (16 * acc + d)%N rest
      | None => None
      end
  end.

(** A storage identifier is written as 24 hexadecimal digits. *)
Definition parse_hex24 (s : string) : option ObjectId :=
  if Nat.eqb (String.length s) 24 then hex_value 0%N s else None.

Fixpoint decimal_value (acc : Z) (s : string) : option Z :=
  match s with
  | EmptyString => Some acc
  | String c rest =>
      let n := Z.of_N (N_of_ascii c) in
      if (48 <=? n) && (n <=? 57) then decimal_value (10 * acc + (n - 48)) rest
      else None
  end.

(** A runtime in UTC that reads unsigned decimal integers and whose store
    adds the numbers of a group one by one, from the left. *)
Definition runtime : Runtime :=
  {| LocalTZA := 0;
     StringToNumber := fun s =>
       match s with
       | EmptyString => ofZ 0
       | _ => match decimal_value 0 s with
              | Some z => ofZ z
              | None => NaN
              end
       end;
     ObjectToString := fun _ => "[object Object]";
     NumberToString := fun _ => "0";
     DateToString := fun _ => "Thu Jan 01 1970";
     CastObjectString := fun _ => None;
     DateParse := fun _ => None;
     ParseObjectId := parse_hex24;
     StoreSum := fun l => fold_left Num.add l (ofZ 0) |}.

Definition alice : UserDoc :=
  {| user_oid := 1%N; id := ofZ 1001; first_name := "A"; last_name := "B";
     birthday := 631152000000; marital_status := "single";
     user_createdAt := 0; user_updatedAt := 0 |}.

(** Noon of 31 January 2025, UTC. *)
Definition noon_jan31_2025 : Z := 1738324800000.

Definition milk : CostDoc :=
  {| cost_id := 16%N; description := "milk"; category := "food";
     userid := ofZ 1001; user := 1%N; sum := ofZ 8;
     date := Some noon_jan31_2025;
     cost_createdAt := noon_jan31_2025; cost_updatedAt := noon_jan31_2025 |}.

(** Noon of 15 January 2025, UTC. *)
Definition noon_jan15_2025 : Z := 1736942400000.

Definition bread : CostDoc :=
  {| cost_id := 17%N; description := "bread"; category := "food";
     userid := ofZ 1001; user := 1%N; sum := ofZ 3;
     date := Some noon_jan15_2025;
     cost_createdAt := noon_jan15_2025; cost_updatedAt := noon_jan15_2025 |}.

Definition db0 : DB := {| users := [alice]; costs := [bread; milk] |}.

(** Three expenses of 8, 12.5 and 3. *)
Definition expense (oid : ObjectId) (amount : Q) : CostDoc :=
  {| cost_id := oid; description := "item"; category := "food";
     userid := ofZ 1001; user := 1%N; sum := Finite (Q2Qc amount);
     date := Some noon_jan15_2025;
     cost_createdAt := noon_jan15_2025; cost_updatedAt := noon_jan15_2025 |}.

Definition db_three : DB :=
  {| users := [alice];
     costs := [expense 32%N (8#1); expense 33%N (25#2); expense 34%N (3#1)] |}.

Definition new_milk : CostData :=
  {| cd_description := VString "milk"; cd_category := VString "food";
     cd_userid := VNumber (ofZ 1001); cd_sum := VNumber (ofZ 8);
     cd_date := VUndefined |}.

(** The empty update document. *)
Definition no_update : jsobject value := [].

(** An update document no rule of the validator would accept. *)
Definition travel_update : jsobject value :=
  [("description", VString ""); ("category", VString "travel");
   ("sum", VNumber (ofZ (-5)))].



(** The identifier of [milk], as the request path carries it. *)
Definition milk_id : string := "000000000000000000000010".

End Sample.

(* ================================================================== *)
(** ** The notions the properties are stated with *)

(** The instant [t] falls, in local time, on day [d] of month [m] (1 to
    12) of year [y]: what [getFullYear], [getMonth] and [getDate] read. *)
Definition on_local_day (rt : Runtime) (t y m d : Z) : Prop :=
  YearFromTime (LocalTime rt t) = y
  /\ MonthFromTime (LocalTime rt t) = m - 1
  /\ DateFromTime (LocalTime rt t) = d.

(** Milliseconds since the local midnight that starts the day of [t]. *)
Definition local_time_of_day (rt : Runtime) (t : Z) : Z :=
  LocalTime rt t mod msPerDay.

(** The date filter of the monthly report on one instant. *)
Definition in_month_filter (rt : Runtime) (year month : value) (t : Z) : bool :=
  match startDate_of rt year month, endDate_of rt year month with
  | Some s, Some e => (s <=? t) && (t <=? e)
  | _, _ => false
  end.

(** The expenses the report query fetches; none when the query throws. *)
Definition matching_costs (rt : Runtime) (db : DB) (id year month : value)
  : list CostDoc :=
  match Cost_find (costs db) (ToNumber rt id)
                  (startDate_of rt year month) (endDate_of rt year month) with
  | Returned found => found
  | Threw _ => []
  end.

(** The lines of the report for one category, in fetch order. *)
Definition entries_of (rt : Runtime) (cat : string) (found : list CostDoc)
  : list Entry :=
  map (entry_of rt) (filter (fun c => String.eqb (category c) cat) found).

(** The [costs] of a report whose lines are taken from [found]: one
    single-key object per category, in the fixed order. *)
Definition costs_shape (rt : Runtime) (found : list CostDoc)
  : list (jsobject (list Entry)) :=
  map (fun cat => [(cat, entries_of rt cat found)]) categories.

(** The sum of a list of numbers in exact arithmetic. *)
Definition sum_of (l : list number) : number :=
  fold_right Num.exact_add (ofZ 0) l.

(** A rational that is a binary64 number: an integer of less than 53 bits
    times a power of two within the range of the format. *)
Definition is_double (q : Qc) : Prop :=
  exists m e : Z,
    Z.abs m < 2 ^ 53 /\ -1074 <= e <= 971
    /\ (this q == inject_Z m * Qpower 2 e)%Q.

(** Adding the numbers of a list one by one to [acc] never leaves the
    binary64 numbers: each number is one, and so is each running sum. *)
Fixpoint adds_exactly_from (acc : Qc) (l : list number) : Prop :=
  match l with
  | [] => True
  | Finite q :: rest =>
      is_double q /\ is_double (acc + q)%Qc
      /\ adds_exactly_from (acc + q)%Qc rest
  | _ :: _ => False
  end.

Definition adds_exactly (l : list number) : Prop := adds_exactly_from 0%Qc l.

(** The store sums without error the numbers that add up without
    rounding. This is so for a store that adds binary64 numbers one by
    one, with or without a compensation term for the rounding errors. *)
Definition exact_store_sum (rt : Runtime) : Prop :=
  forall l, l <> [] -> adds_exactly l -> StoreSum rt l = sum_of l.

(** The expenses of the user numbered [n]. *)
Definition costs_of_user (db : DB) (n : number) : list CostDoc :=
  filter (fun c => Num.eqb (userid c) n) (costs db).

(** The document with identifier [oid] is the first of the collection to
    carry it: the collection is [before ++ c :: after]. *)
Definition first_with_id (cs : list CostDoc) (oid : ObjectId)
    (before : list CostDoc) (c : CostDoc) (after : list CostDoc) : Prop :=
  cs = (before ++ c :: after)%list
  /\ cost_id c = oid
  /\ forall k, In k before -> cost_id k <> oid.

Definition with_date (costData : CostData) (d : value) : CostData :=
  {| cd_description := cd_description costData;
     cd_category := cd_category costData;
     cd_userid := cd_userid costData;
     cd_sum := cd_sum costData;
     cd_date := d |}.

Definition is_string (v : value) : Prop := exists s, v = VString s.

(** The field [new] is what an update document makes of the field [old]:
    the cast of the value the document gives to [path], and [old] when it
    gives none. *)
Definition merged {A} (castA : value -> cast A) (updateData : jsobject value)
    (path : string) (old new : A) : Prop :=
  match obj_get updateData path with
  | Some v => castA v = CastOk new
  | None => new = old
  end.

(** The same for a field that can be [null]. *)
Definition merged_nullable {A} (castA : value -> cast A)
    (updateData : jsobject value) (path : string) (old new : option A)
  : Prop :=
  match obj_get updateData path with
  | Some v =>
      match new with
      | Some a => castA v = CastOk a
      | None => castA v = CastNull
      end
  | None => new = old
  end.

(** A value an update document can give to a path: no nested object, no
    array, and not [undefined]. *)
Definition plain_value (v : value) : Prop :=
  match v with
  | VUndefined | VObject _ => False
  | _ => True
  end.

(** The update documents of an expense that are given a meaning: the keys
    are among the five paths [description], [category], [userid], [sum]
    and [date], the values are plain, and no value given to one of the
    first four casts to [null] (as [null] does, and the empty string on a
    Number path). *)
Definition cost_update_in_model (rt : Runtime) (updateData : jsobject value)
  : Prop :=
  (forall k, In k (Object_keys updateData) -> In k cost_paths)
  /\ (forall k v, obj_get updateData k = Some v -> plain_value v)
  /\ (forall k v, In k ["description"; "category"] ->
        obj_get updateData k = Some v -> castString rt v <> CastNull)
  /\ (forall k v, In k ["userid"; "sum"] ->
        obj_get updateData k = Some v -> castNumber rt v <> CastNull).

(** The update document gives some path a value that does not cast to the
    type of the path. *)
Definition cost_update_fails (rt : Runtime) (updateData : jsobject value)
  : Prop :=
  exists path v,
    obj_get updateData path = Some v
    /\ ((In path ["description"; "category"] /\ castString rt v = CastFail)
        \/ (In path ["userid"; "sum"] /\ castNumber rt v = CastFail)
        \/ (path = "date" /\ castDate rt v = CastFail)).

(** The expense [c'] is the expense [c] with the update document merged
    in at the instant [now]: each of the five paths is the cast of the
    value the document gives to it, or as it was; the identifier, the
    reference to the user and the creation time are as they were. *)
Definition cost_merge (rt : Runtime) (now : Z) (updateData : jsobject value)
    (c c' : CostDoc) : Prop :=
  cost_id c' = cost_id c /\ user c' = user c
  /\ cost_createdAt c' = cost_createdAt c /\ cost_updatedAt c' = now
  /\ merged (castString rt) updateData "description"
            (description c) (description c')
  /\ merged (castString rt) updateData "category" (category c) (category c')
  /\ merged (castNumber rt) updateData "userid" (userid c) (userid c')
  /\ merged (castNumber rt) updateData "sum" (sum c) (sum c')
  /\ merged_nullable (castDate rt) updateData "date" (date c) (date c').


(** The same two notions for the update document of a user, whose five
    paths are all required. *)
Definition user_update_in_model (rt : Runtime) (updateData : jsobject value)
  : Prop :=
  (forall k, In k (Object_keys updateData) -> In k user_paths)
  /\ (forall k v, obj_get updateData k = Some v -> plain_value v)
  /\ (forall k v, In k ["first_name"; "last_name"; "marital_status"] ->
        obj_get updateData k = Some v -> castString rt v <> CastNull)
  /\ (forall v, obj_get updateData "id" = Some v -> castNumber rt v <> CastNull)
  /\ (forall v, obj_get updateData "birthday" = Some v ->
        castDate rt v <> CastNull).

(** The user [u'] is the user [u] with the update document merged in at
    the instant [now]. *)
Definition user_merge (rt : Runtime) (now : Z) (updateData : jsobject value)
    (u u' : UserDoc) : Prop :=
  user_oid u' = user_oid u
  /\ user_createdAt u' = user_createdAt u /\ user_updatedAt u' = now
  /\ merged (castNumber rt) updateData "id" (id u) (id u')
  /\ merged (castString rt) updateData "first_name"
            (first_name u) (first_name u')
  /\ merged (castString rt) updateData "last_name" (last_name u) (last_name u')
  /\ merged (castDate rt) updateData "birthday" (birthday u) (birthday u')
  /\ merged (castString rt) updateData "marital_status"
            (marital_status u) (marital_status u').

Definition user_update_fails (rt : Runtime) (updateData : jsobject value)
  : Prop :=
  exists path v,
    obj_get updateData path = Some v
    /\ ((In path ["first_name"; "last_name"; "marital_status"]
         /\ castString rt v = CastFail)
        \/ (path = "id" /\ castNumber rt v = CastFail)
        \/ (path = "birthday" /\ castDate rt v = CastFail)).

(* ================================================================== *)
(** ** The user controller: update, deletion and the handlers *)

(** The update document of a user after the schema's cast: each path is
    left alone or set to a value of its schema type. [id] is a path like
    the others. *)
Record UserUpdate : Type := {
  uu_id : option number;
  uu_first_name : option string;
  uu_last_name : option string;
  uu_birthday : option Z;
  uu_marital_status : option string
}.

(** The partial merge on a user; the update timestamp moves to [now]. *)
Definition apply_user_update (now : Z) (d : UserUpdate) (u : UserDoc) : UserDoc :=
  {| user_oid := user_oid u;
     id := or_else (uu_id d) (id u);
     first_name := or_else (uu_first_name d) (first_name u);
     last_name := or_else (uu_last_name d) (last_name u);
     birthday := or_else (uu_birthday d) (birthday u);
     marital_status := or_else (uu_marital_status d) (marital_status u);
     user_createdAt := user_createdAt u;
     user_updatedAt := now |}.

(** The collection split at the first user numbered [n]. *)
Fixpoint split_user (n : number) (us : list UserDoc)
  : option (list UserDoc * UserDoc * list UserDoc) :=
  match us with
  | [] => None
  | u :: rest =>
      if Num.eqb (id u) n then Some ([], u, rest)
      else match split_user n rest with
           | Some (before, x, after) => Some (u :: before, x, after)
           | None => None
           end
  end.

Definition msg_user_missing : string := "User not found.".
Definition msg_user_deleted : string := "User deleted successfully.".
Definition msg_valid_id : string := "Valid user ID is required.".

Section UserUpdates.

Variable rt : Runtime.

(** The cast of the update document of a user; every path is required, so
    none has room for [null]. *)
Definition User_castUpdate (updateData : jsobject value)
  : option (completion UserUpdate) :=
  let i := cast_path (castNumber rt) updateData "id" in
  let f := cast_path (castString rt) updateData "first_name" in
  let l := cast_path (castString rt) updateData "last_name" in
  let b := cast_path (castDate rt) updateData "birthday" in
  let m := cast_path (castString rt) updateData "marital_status" in
  if negb (only_paths user_paths updateData
           && path_modelled false i && path_modelled false f
           && path_modelled false l && path_modelled false b
           && path_modelled false m)
  then None
  else if path_fails i then Some (Threw (CastError "id"))
  else if path_fails f then Some (Threw (CastError "first_name"))
  else if path_fails l then Some (Threw (CastError "last_name"))
  else if path_fails b then Some (Threw (CastError "birthday"))
  else if path_fails m then Some (Threw (CastError "marital_status"))
  else Some (Returned {| uu_id := path_set i;
                         uu_first_name := path_set f;
                         uu_last_name := path_set l;
                         uu_birthday := path_set b;
                         uu_marital_status := path_set m |}).

(** The merge of a cast update into the first user numbered [n]; the
    unique index on [id] refuses a number another user carries. *)
Definition update_user (us : list UserDoc) (now : Z) (n : number)
    (d : UserUpdate) : completion (list UserDoc * option UserDoc) :=
  match split_user n us with
  | None => Returned (us, None)
  | Some (before, u, after) =>
      let u' := apply_user_update now d u in
      if existsb (fun x => Num.eqb (id x) (id u')) (before ++ after)%list
      then Threw (DuplicateKeyError "id")
      else Returned ((before ++ u' :: after)%list, Some u')
  end.

(** [User.findOneAndUpdate({ id: v }, updateData, { new: true })]: the
    filter is cast, then the update document, and only then is the user
    looked up. A filter value that is an object is read by the store as
    a query operator and is given no meaning here. *)
Definition User_findOneAndUpdate (us : list UserDoc) (now : Z) (v : value)
    (updateData : jsobject value)
  : option (completion (list UserDoc * option UserDoc)) :=
  match v, User_castUpdate updateData with
  | VObject _, _ | _, None => None
  | _, Some casted =>
      Some match castNumber rt v with
           | CastFail => Threw (CastError "id")
           | CastNull => match casted with
                         | Threw e => Threw e
                         | Returned _ => Returned (us, None)
                         end
           | CastOk n => match casted with
                         | Threw e => Threw e
                         | Returned d => update_user us now n d
                         end
           end
  end.

(** [User.findOneAndDelete({ id: v })]. *)
Definition User_findOneAndDelete (us : list UserDoc) (v : value)
  : completion (list UserDoc * option UserDoc) :=
  match castNumber rt v with
  | CastFail => Threw (CastError "id")
  | CastNull => Returned (us, None)
  | CastOk n =>
      match split_user n us with
      | None => Returned (us, None)
      | Some (before, u, after) => Returned ((before ++ after)%list, Some u)
      end
  end.

(** [updateUser]; [updateData] is the request body. [None] for an update
    that is given no meaning here. *)
Definition updateUser (db : DB) (now : Z) (userId : value)
    (updateData : jsobject value) : option (DB * reply UserDoc) :=
  match User_findOneAndUpdate (users db) now userId updateData with
  | None => None
  | Some (Threw e) => Some (db, Error 500 (MessageOf e))
  | Some (Returned (_, None)) =>
      Some (db, Error 404 (Text msg_user_missing))
  | Some (Returned (users', Some updatedUser)) =>
      Some ({| users := users'; costs := costs db |}, Data 200 updatedUser)
  end.

(** [deleteUser]: the expenses of the user are not looked at. *)
Definition deleteUser (db : DB) (userId : value) : DB * reply unit :=
  match User_findOneAndDelete (users db) userId with
  | Threw e => (db, Error 500 (MessageOf e))
  | Returned (_, None) => (db, Error 404 (Text msg_user_missing))
  | Returned (users', Some _) =>
      ({| users := users'; costs := costs db |}, Message 200 msg_user_deleted)
  end.

(** [!userId || isNaN(userId)] on the path parameter, a string. *)
Definition bad_user_id (params_id : string) : bool :=
  (js_not (VString params_id) || js_isNaN rt (VString params_id))%bool.

(** The handler [editUser]: the path parameter is checked, the body is
    not. *)
Definition editUser (db : DB) (now : Z) (params_id : string)
    (body : jsobject value) : option (DB * reply UserDoc) :=
  if bad_user_id params_id then Some (db, Error 400 (Text msg_valid_id))
  else updateUser db now (VNumber (ToNumber rt (VString params_id))) body.

(** The handler [removeUser]. *)
Definition removeUser (db : DB) (params_id : string) : DB * reply unit :=
  if bad_user_id params_id then (db, Error 400 (Text msg_valid_id))
  else deleteUser db (VNumber (ToNumber rt (VString params_id))).

(** The handler [getUserDetails]. *)
Definition getUserDetails (db : DB) (params_id : string)
  : reply (jsobject value) :=
  if bad_user_id params_id then Error 400 (Text msg_valid_id)
  else fetchUserDetails rt db (VNumber (ToNumber rt (VString params_id))).

End UserUpdates.

(* ================================================================== *)
(** ** Invariants of the store *)

(** No two expenses share a storage identifier. *)
Definition unique_cost_ids (db : DB) : Prop := NoDup (map cost_id (costs db)).

(** No two users share a number, and no number is [NaN]. *)
Definition unique_user_ids (db : DB) : Prop :=
  NoDup (map id (users db))
  /\ forall u, In u (users db) -> Num.isNaN (id u) = false.

(** Every expense carries one of the five categories. *)
Definition categories_valid (db : DB) : Prop :=
  forall c, In c (costs db) -> In (category c) categories.

(** All the lines of a report, category after category. *)
Definition report_lines (r : Report) : list Entry :=
  List.concat (map (fun o => List.concat (map snd o)) (report_costs r)).

(** More sample data: a second user, and an update that renumbers. *)
Module Sample2.

Definition bob : UserDoc :=
  {| user_oid := 2%N; id := ofZ 1002; first_name := "C"; last_name := "D";
     birthday := 0; marital_status := "married";
     user_createdAt := 0; user_updatedAt := 0 |}.

Definition db2 : DB :=
  {| users := [Sample.alice; bob]; costs := [Sample.bread; Sample.milk] |}.

Definition carol : UserData :=
  {| ud_id := VNumber (ofZ 1003); ud_first_name := VString "E";
     ud_last_name := VString "F"; ud_birthday := VNumber (ofZ 0);
     ud_marital_status := VString "single" |}.

(** An update document that renames, and one that renumbers. *)
Definition rename : jsobject value := [("first_name", VString "Z")].

Definition renumber (k : Z) : jsobject value := [("id", VNumber (ofZ k))].

(** An update document whose [birthday] is no date. *)
Definition bad_birthday : jsobject value := [("birthday", VBoolean true)].

Definition bread_id : string := "000000000000000000000011".

End Sample2.

(* ================================================================== *)
(** * Properties *)

(** ** Numbers and strings *)

Lemma Qc_eqb_eq (a b : Qc) : Qc_eqb a b = true <-> a = b.
Proof.
  unfold Qc_eqb. split.
  - intros H. apply Qc_is_canon. now apply Qeq_bool_iff.
  - intros ->. apply Qeq_bool_iff. reflexivity.
Qed.

Lemma this_ofZ (z : Z) : this (Q2Qc (inject_Z z)) = inject_Z z.
Proof.
  change (this (Q2Qc (inject_Z z))) with (Qred (inject_Z z)).
  apply Qred_identity. simpl. apply Z.gcd_1_r.
Qed.

Lemma truncate_ofZ (z : Z) : Num.truncate (Q2Qc (inject_Z z)) = z.
Proof.
  unfold Num.truncate. rewrite this_ofZ. simpl. apply Z.quot_1_r.
Qed.

(** An integer of less than 53 bits is not rounded. *)
Lemma round64_small (q : Qc) (z : Z) :
  this q = inject_Z z -> Z.abs z < 2 ^ 53 -> Num.round64 q = Finite q.
Proof.
  intros Hq Hz. unfold Num.round64. rewrite Hq. cbn [Qnum Qden inject_Z].
  apply Z.ltb_lt in Hz. rewrite Hz. reflexivity.
Qed.

Lemma Qc_sub_ofZ (a b : Z) :
  (Q2Qc (inject_Z a) + - Q2Qc (inject_Z b))%Qc = Q2Qc (inject_Z (a - b)).
Proof.
  apply Qc_is_canon.
  unfold Qcplus, Qcopp, Q2Qc, this.
  rewrite !Qred_correct. unfold Z.sub. rewrite inject_Z_plus, inject_Z_opp. reflexivity.
Qed.

Lemma sub_ofZ (a b : Z) :
  Z.abs (a - b) < 2 ^ 53 -> Num.sub (ofZ a) (ofZ b) = ofZ (a - b).
Proof.
  intros H. unfold Num.sub, Num.add, ofZ.
  cbn [Num.opp Num.exact_add]. rewrite Qc_sub_ofZ.
  apply (round64_small _ (a - b)); [apply this_ofZ | exact H].
Qed.

Lemma ltb_zero_positive (n : number) :
  Num.isNaN n = false -> (Num.leb n (ofZ 0) = false <-> Num.positive n).
Proof.
  destruct n as [|[|]|q]; simpl; try discriminate; intros _.
  - split; [discriminate | discriminate].
  - split; reflexivity.
  - unfold Qclt. change (this 0%Qc) with 0%Q.
    change (Qred 0) with 0%Q.
    rewrite negb_false_iff. unfold Qlt, Qcompare.
    destruct (Z.compare_spec (Qnum 0 * QDen (this q)) (Qnum (this q) * QDen 0));
      split; intros; try discriminate; try reflexivity; lia.
Qed.

Lemma trimEnd_empty s :
  trimEnd s = "" <-> forallb is_whitespace (list_ascii_of_string s) = true.
Proof.
  induction s as [|c s IH]; simpl.
  - tauto.
  - destruct (trimEnd s) eqn:E.
    + destruct (is_whitespace c); simpl.
      * tauto.
      * split; discriminate.
    + split; [discriminate|].
      rewrite andb_true_iff. intros [_ H]. apply IH in H. discriminate.
Qed.

Lemma trimStart_empty s :
  trimEnd (trimStart s) = "" <-> forallb is_whitespace (list_ascii_of_string s) = true.
Proof.
  induction s as [|c s IH]; simpl.
  - tauto.
  - destruct (is_whitespace c) eqn:E; simpl.
    + exact IH.
    + destruct (trimEnd s); try rewrite E; split; discriminate.
Qed.

Lemma trim_empty_iff s :
  trim s = "" <-> (forall c, In c (list_ascii_of_string s) -> is_whitespace c = true).
Proof.
  unfold trim. rewrite trimStart_empty, forallb_forall. tauto.
Qed.

Lemma includes_iff (arr : list string) (v : value) :
  includes arr v = true <-> exists s, v = VString s /\ In s arr.
Proof.
  destruct v; simpl; try (split; [discriminate | intros (s0 & H & _); discriminate]).
  rewrite existsb_exists. split.
  - intros (x & Hin & Heq). apply String.eqb_eq in Heq. subst. eauto.
  - intros (s0 & H & Hin). injection H as <-. exists s. split; [assumption | apply String.eqb_refl].
Qed.

Lemma description_rule (d : value) :
  (js_not d || negb (jstype_eqb (typeof d) TString) || trim_is_empty d)%bool = false
  <-> valid_description d.
Proof.
  unfold valid_description.
  destruct d; unfold js_not; simpl;
    try rewrite orb_true_r; simpl;
    try (split; [discriminate | intros (s0 & H & _); discriminate]).
  rewrite orb_false_r, negb_involutive.
  rewrite orb_false_iff.
  split.
  - intros [_ H]. exists s. split; [reflexivity|].
    apply String.eqb_neq in H.
    destruct (forallb is_whitespace (list_ascii_of_string s)) eqn:E.
    + exfalso. apply H. apply trim_empty_iff. now apply forallb_forall.
    + clear H. induction (list_ascii_of_string s) as [|c l IH]; simpl in E; [discriminate|].
      destruct (is_whitespace c) eqn:Ec; simpl in E.
      * destruct (IH E) as (c' & Hin & Hc'). exists c'. split; [now right | assumption].
      * exists c. split; [now left | assumption].
  - intros (s0 & H & c & Hin & Hc). injection H as <-.
    assert (Hne : trim s <> "").
    { intros Ht. rewrite trim_empty_iff in Ht. rewrite (Ht c Hin) in Hc. discriminate. }
    split.
    + apply String.eqb_neq. intros ->. destruct Hin.
    + now apply String.eqb_neq.
Qed.

Lemma number_rule (v : value) :
  (js_not v || negb (jstype_eqb (typeof v) TNumber) || le_zero v)%bool = false
  <-> positive_number v.
Proof.
  unfold positive_number.
  destruct v as [| |b|n|s|tv|o]; unfold js_not at 1; simpl;
    try (rewrite orb_true_r; simpl);
    try (split; [discriminate | intros (n0 & H & _); discriminate]).
  rewrite orb_false_r.
  destruct n as [|neg|q].
  - simpl. split; [discriminate | intros (n0 & H & Hp); injection H as <-; destruct Hp].
  - unfold js_not. simpl.
    rewrite (ltb_zero_positive (Infinity neg) eq_refl).
    split; [eauto | intros (n0 & H & Hp); now injection H as <-].
  - rewrite orb_false_iff. rewrite (ltb_zero_positive (Finite q) eq_refl).
    split.
    + intros [_ H]. eauto.
    + intros (n0 & H & Hp). injection H as <-. split; [|assumption].
      unfold js_not. simpl. rewrite negb_involutive.
      destruct (Qc_eqb q (Q2Qc 0)) eqn:E; [|reflexivity].
      apply Qc_eqb_eq in E. subst q. exfalso. revert Hp. apply Qlt_irrefl.
Qed.

(* ================================================================== *)
(** ** Validation *)

(** Every message of the validator is truthy, so [addCost] rejects exactly
    the inputs the validator does not return [null] on. *)
Lemma is_error_validate (d c u s : value) :
  is_error (validateCostInput d c u s) = true
  <-> validateCostInput d c u s <> None.
Proof.
  unfold validateCostInput.
  repeat match goal with
         | |- context [if ?b then _ else _] => destruct b
         end; simpl; split; congruence.
Qed.

(** C4. [validateCostInput] is a total function of its four arguments and
    of nothing else. It checks the description, the category, the user
    identifier and the sum in this order and returns the message of the
    first rule that fails: the description must be a string with a
    character that is no white space, the category one of the five fixed
    names, the user identifier and the sum positive numbers. It returns
    [null] exactly when the four rules hold. *)
Theorem validateCostInput_first_failure (d c u s : value) :
  (~ valid_description d ->
     validateCostInput d c u s = Some msg_description)
  /\ (valid_description d -> ~ valid_category c ->
     validateCostInput d c u s = Some msg_category)
  /\ (valid_description d -> valid_category c -> ~ positive_number u ->
     validateCostInput d c u s = Some msg_userid)
  /\ (valid_description d -> valid_category c -> positive_number u ->
      ~ positive_number s ->
     validateCostInput d c u s = Some msg_sum)
  /\ (validateCostInput d c u s = None
      <-> valid_description d /\ valid_category c
          /\ positive_number u /\ positive_number s).
Proof.
  pose proof (description_rule d) as Hd.
  pose proof (includes_iff allowedCategories c) as Hc.
  pose proof (number_rule u) as Hu.
  pose proof (number_rule s) as Hs.
  fold (valid_category c) in Hc.
  unfold validateCostInput.
  destruct (js_not d || negb (jstype_eqb (typeof d) TString) || trim_is_empty d)%bool;
  destruct (includes allowedCategories c);
  destruct (js_not u || negb (jstype_eqb (typeof u) TNumber) || le_zero u)%bool;
  destruct (js_not s || negb (jstype_eqb (typeof s) TNumber) || le_zero s)%bool;
  simpl; repeat split; intros;
  try reflexivity; try discriminate;
  try tauto;
  try (exfalso; intuition congruence).
Qed.

(** A zero sum after three good fields is answered with the message of the
    sum. *)
Lemma validateCostInput_first_failure_witness :
  validateCostInput (VString "milk") (VString "food") (VNumber (ofZ 1001))
                    (VNumber (ofZ 0)) = Some msg_sum.
Proof.
  destruct (validateCostInput_first_failure (VString "milk") (VString "food")
              (VNumber (ofZ 1001)) (VNumber (ofZ 0)))
    as (_ & _ & _ & H & _).
  apply H.
  - exists "milk". split; [reflexivity|]. exists "m"%char. split; [now left | reflexivity].
  - exists "food". split; [reflexivity | now left].
  - exists (ofZ 1001). split; reflexivity.
  - intros (n & E & P). injection E as <-. revert P. vm_compute. discriminate.
Defined.

(** At the inputs the specification names, a zero sum, a negative sum,
    the category "travel" and an empty description are each rejected with
    the message of their own rule. *)
Example validateCostInput_rejections :
  validateCostInput (VString "milk") (VString "food") (VNumber (ofZ 1001))
                    (VNumber (ofZ 0)) = Some msg_sum
  /\ validateCostInput (VString "milk") (VString "food") (VNumber (ofZ 1001))
                       (VNumber (ofZ (-5))) = Some msg_sum
  /\ validateCostInput (VString "milk") (VString "travel")
                       (VNumber (ofZ 1001)) (VNumber (ofZ 8)) = Some msg_category
  /\ validateCostInput (VString "") (VString "food") (VNumber (ofZ 1001))
                       (VNumber (ofZ 8)) = Some msg_description
  /\ validateCostInput (VString "milk") (VString "food") (VNumber (ofZ 1001))
                       (VNumber (ofZ 8)) = None.
Proof. repeat split. Qed.

(* ================================================================== *)
(** ** The calendar *)

Module DateFacts.

Lemma DaysInYear_cases y : DaysInYear y = 365 \/ DaysInYear y = 366.
Proof.
  unfold DaysInYear.
  destruct (y mod 4 =? 0), (y mod 100 =? 0), (y mod 400 =? 0); simpl; auto.
Qed.

Lemma DayFromYear_succ y : DayFromYear (y + 1) = DayFromYear y + DaysInYear y.
Proof.
  unfold DayFromYear, DaysInYear.
  destruct (Z.eqb_spec (y mod 4) 0), (Z.eqb_spec (y mod 100) 0),
           (Z.eqb_spec (y mod 400) 0); cbn [negb];
    Z.to_euclidean_division_equations; lia.
Qed.

Lemma YearFromDay_spec d :
  DayFromYear (YearFromDay d) <= d < DayFromYear (YearFromDay d + 1).
Proof.
  unfold YearFromDay, DayFromYear.
  repeat match goal with
         | |- context [?a <=? ?b] => destruct (Z.leb_spec a b)
         end;
    Z.to_euclidean_division_equations; lia.
Qed.

Lemma DayFromYear_mono a b : a <= b -> DayFromYear a <= DayFromYear b.
Proof.
  unfold DayFromYear. intros H. Z.to_euclidean_division_equations. lia.
Qed.

(** The year of a day is the only year whose days contain it. *)
Lemma YearFromDay_unique d y :
  DayFromYear y <= d < DayFromYear (y + 1) -> YearFromDay d = y.
Proof.
  intros H. pose proof (YearFromDay_spec d) as S.
  destruct (Z.lt_trichotomy (YearFromDay d) y) as [L | [E | G]]; [|assumption|].
  - pose proof (DayFromYear_mono (YearFromDay d + 1) y ltac:(lia)). lia.
  - pose proof (DayFromYear_mono (y + 1) (YearFromDay d) ltac:(lia)). lia.
Qed.

Lemma Day_MakeDate day tod :
  0 <= tod < msPerDay -> Day (MakeDate day tod) = day.
Proof.
  intros H. unfold Day, MakeDate, msPerDay in *.
  Z.to_euclidean_division_equations. lia.
Qed.

Lemma leap_is_feb29 y :
  DaysInYear y - 365 = days_in_month y 2 - 28.
Proof.
  unfold DaysInYear, days_in_month.
  destruct (y mod 4 =? 0), (y mod 100 =? 0), (y mod 400 =? 0); reflexivity.
Qed.

Lemma days_in_month_bounds y m : 28 <= days_in_month y m <= 31.
Proof.
  unfold days_in_month.
  destruct m as [|p|p]; try lia.
  do 4 (try destruct p as [p|p|]); try lia;
    match goal with
    | |- context [if ?b then _ else _] => destruct b
    end; lia.
Qed.

Ltac eval_divmod :=
  repeat match goal with
         | |- context [?a / ?b] =>
             let v := eval vm_compute in (a / b) in change (a / b) with v
         | |- context [?a mod ?b] =>
             let v := eval vm_compute in (a mod b) in change (a mod b) with v
         end.

Ltac month_cases m H :=
  assert (m = 1 \/ m = 2 \/ m = 3 \/ m = 4 \/ m = 5 \/ m = 6 \/ m = 7
          \/ m = 8 \/ m = 9 \/ m = 10 \/ m = 11 \/ m = 12) as H by lia;
  repeat (destruct H as [H | H]); subst m.

(** Day 0 of the next month is the last day of the month. *)
Lemma MakeDay_last_day y m :
  1 <= m <= 12 -> MakeDay y m 0 = MakeDay y (m - 1) (days_in_month y m).
Proof.
  intros Hm. month_cases m H; unfold MakeDay; eval_divmod;
    cbn [DaysBeforeMonth];
    rewrite ?Z.add_0_r; try rewrite (DayFromYear_succ y);
    pose proof (leap_is_feb29 y); pose proof (DaysInYear_cases y);
    unfold days_in_month in *; lia.
Qed.

(** The first of the next month comes [days_in_month] days after the first
    of the month. *)
Lemma MakeDay_next_month y m :
  1 <= m <= 12 ->
  MakeDay y m 1 = MakeDay y (m - 1) 1 + days_in_month y m.
Proof.
  intros Hm. pose proof (MakeDay_last_day y m Hm) as H.
  unfold MakeDay in *. lia.
Qed.

(** Reading back the fields of a day built by [MakeDay]. *)
Lemma fields_of_MakeDay y mn d tod :
  0 <= mn <= 11 -> 1 <= d <= days_in_month y (mn + 1) ->
  0 <= tod < msPerDay ->
  let t := MakeDate (MakeDay y mn d) tod in
  YearFromTime t = y /\ MonthFromTime t = mn /\ DateFromTime t = d.
Proof.
  intros Hm Hd Ht t.
  assert (HD : Day t = MakeDay y mn d) by (apply Day_MakeDate; assumption).
  pose proof (leap_is_feb29 y) as Hl. pose proof (DaysInYear_cases y) as Hc.
  pose proof (DayFromYear_succ y) as Hs.
  assert (Hy : YearFromTime t = y).
  { unfold YearFromTime. rewrite HD. apply YearFromDay_unique.
    rewrite Hs. unfold MakeDay.
    assert (mn = 0 \/ mn = 1 \/ mn = 2 \/ mn = 3 \/ mn = 4 \/ mn = 5 \/ mn = 6
            \/ mn = 7 \/ mn = 8 \/ mn = 9 \/ mn = 10 \/ mn = 11) as H by lia.
    repeat (destruct H as [H | H]); subst mn; eval_divmod;
      cbn [DaysBeforeMonth]; cbn in Hd;
      rewrite ?Z.add_0_r; unfold days_in_month in *; lia. }
  assert (Hw : DayWithinYear t = DaysBeforeMonth mn (DaysInYear y - 365) + d - 1).
  { unfold DayWithinYear. rewrite HD, Hy. unfold MakeDay.
    rewrite (Z.div_small mn 12), (Z.mod_small mn 12) by lia.
    rewrite Z.add_0_r. lia. }
  assert (Hleap : InLeapYear t = DaysInYear y - 365).
  { unfold InLeapYear. rewrite Hy. destruct Hc as [-> | ->]; reflexivity. }
  split; [assumption|].
  unfold DateFromTime, MonthFromTime. rewrite Hw, Hleap.
  assert (mn = 0 \/ mn = 1 \/ mn = 2 \/ mn = 3 \/ mn = 4 \/ mn = 5 \/ mn = 6
          \/ mn = 7 \/ mn = 8 \/ mn = 9 \/ mn = 10 \/ mn = 11) as H by lia.
  repeat (destruct H as [H | H]); subst mn; cbn in Hd;
    cbn [DaysBeforeMonth];
    unfold days_in_month in *;
    repeat match goal with
           | |- context [?a <? ?b] => destruct (Z.ltb_spec a b); try lia
           end; split; lia.
Qed.

(** The day number of an instant, from the fields read from it. *)
Lemma Day_of_fields t y mn d :
  YearFromTime t = y -> MonthFromTime t = mn -> DateFromTime t = d ->
  0 <= mn <= 11 /\ Day t = MakeDay y mn d.
Proof.
  intros Hy Hm Hd.
  unfold DateFromTime in Hd. rewrite Hm in Hd.
  unfold MonthFromTime in Hm.
  unfold DayWithinYear in *. unfold InLeapYear in *. rewrite Hy in *.
  unfold MakeDay.
  pose proof (DaysInYear_cases y) as Hc.
  assert (Hl : (if DaysInYear y =? 366 then 1 else 0) = DaysInYear y - 365)
    by (destruct Hc as [-> | ->]; reflexivity).
  rewrite Hl in *.
  repeat match type of Hm with
         | context [?a <? ?b] => destruct (Z.ltb_spec a b)
         end; subst mn; eval_divmod; cbn [DaysBeforeMonth];
    rewrite ?Z.add_0_r; split; lia.
Qed.

End DateFacts.

Import DateFacts.

(* ================================================================== *)
(** ** The date filter of the monthly report *)

Section MonthFilter.

Variable rt : Runtime.
Variables (year month : value) (y m : Z).

Hypothesis year_reads : ToNumber rt year = ofZ y.
Hypothesis month_reads : ToNumber rt month = ofZ m.
Hypothesis month_range : 1 <= m <= 12.
Hypothesis year_range : 100 <= y <= 275000.
Hypothesis zone_range : Z.abs (LocalTZA rt) <= msPerDay.

Lemma MakeDay_bounds mn d :
  0 <= mn <= 12 -> 0 <= d <= 1 -> -700000 <= MakeDay y mn d <= 99900000.
Proof.
  intros Hm Hd. pose proof year_range as Hy.
  assert (H : mn = 0 \/ mn = 1 \/ mn = 2 \/ mn = 3 \/ mn = 4 \/ mn = 5 \/ mn = 6
              \/ mn = 7 \/ mn = 8 \/ mn = 9 \/ mn = 10 \/ mn = 11 \/ mn = 12)
    by lia.
  pose proof (DaysInYear_cases y) as Hc.
  repeat (destruct H as [H | H]); subst mn; unfold MakeDay; eval_divmod;
    cbn [DaysBeforeMonth]; rewrite ?Z.add_0_r; unfold DayFromYear;
    Z.to_euclidean_division_equations; lia.
Qed.

Lemma newDate3_local_midnight mn d :
  0 <= mn <= 12 -> 0 <= d <= 1 ->
  newDate3 rt (ofZ y) (ofZ mn) (ofZ d)
  = Some (MakeDay y mn d * msPerDay - LocalTZA rt).
Proof.
  intros Hm Hd. unfold newDate3, ofZ. rewrite !truncate_ofZ.
  replace ((0 <=? y) && (y <=? 99))%bool with false
    by (symmetry; apply andb_false_iff; right; apply Z.leb_gt;
        pose proof year_range; lia).
  unfold UTC, MakeDate, TimeClip. rewrite Z.add_0_r.
  pose proof (MakeDay_bounds mn d Hm Hd) as Hb. pose proof zone_range as Hz.
  unfold msPerDay, maxTime in *.
  destruct (Z.leb_spec (Z.abs (MakeDay y mn d * 86400000 - LocalTZA rt))
                       8640000000000000); [reflexivity | lia].
Qed.

(** The filter starts at the local midnight that opens the first day. *)
Lemma startDate_of_month :
  startDate_of rt year month
  = Some (MakeDay y (m - 1) 1 * msPerDay - LocalTZA rt).
Proof.
  unfold startDate_of, js_minus. rewrite year_reads, month_reads.
  rewrite sub_ofZ
    by (pose proof month_range; change (2 ^ 53) with 9007199254740992; lia).
  apply newDate3_local_midnight; pose proof month_range; lia.
Qed.

(** The filter ends at the local midnight that opens the last day. *)
Lemma endDate_of_month :
  endDate_of rt year month
  = Some (MakeDay y (m - 1) (days_in_month y m) * msPerDay - LocalTZA rt).
Proof.
  unfold endDate_of. rewrite year_reads, month_reads.
  rewrite newDate3_local_midnight by (pose proof month_range; lia).
  now rewrite MakeDay_last_day.
Qed.

Lemma in_month_filter_eq t :
  in_month_filter rt year month t
  = ((MakeDay y (m - 1) 1 * msPerDay <=? LocalTime rt t)
     && (LocalTime rt t
         <=? MakeDay y (m - 1) (days_in_month y m) * msPerDay))%bool.
Proof.
  unfold in_month_filter. rewrite startDate_of_month, endDate_of_month.
  unfold LocalTime.
  apply eq_true_iff_eq. rewrite !andb_true_iff, !Z.leb_le. lia.
Qed.

Lemma local_day_bounds t d :
  on_local_day rt t y m d ->
  MakeDay y (m - 1) d * msPerDay <= LocalTime rt t
  /\ LocalTime rt t = MakeDay y (m - 1) d * msPerDay + local_time_of_day rt t
  /\ 0 <= local_time_of_day rt t < msPerDay.
Proof.
  intros (Hy & Hm & Hd).
  destruct (Day_of_fields _ _ _ _ Hy Hm Hd) as [_ HD].
  unfold local_time_of_day. unfold Day in HD. rewrite <- HD.
  unfold msPerDay. Z.to_euclidean_division_equations. lia.
Qed.

Lemma MakeDay_plus d k :
  MakeDay y (m - 1) (d + k) = MakeDay y (m - 1) d + k.
Proof. unfold MakeDay. lia. Qed.

(** An expense dated on the first day of the month passes the filter. *)
Lemma first_day_included t :
  on_local_day rt t y m 1 -> in_month_filter rt year month t = true.
Proof.
  intros H. rewrite in_month_filter_eq.
  destruct (local_day_bounds t 1 H) as (H1 & H2 & H3).
  pose proof (days_in_month_bounds y m) as Hb.
  pose proof (MakeDay_plus 1 (days_in_month y m - 1)) as Hp.
  replace (1 + (days_in_month y m - 1)) with (days_in_month y m) in Hp by lia.
  rewrite Hp. apply andb_true_iff. rewrite !Z.leb_le.
  unfold msPerDay in *. lia.
Qed.

(** An expense dated a day before the first day does not pass. *)
Lemma day_before_first_excluded t :
  on_local_day rt (t + msPerDay) y m 1 ->
  in_month_filter rt year month t = false.
Proof.
  intros H. rewrite in_month_filter_eq.
  destruct (local_day_bounds _ 1 H) as (H1 & H2 & H3).
  apply andb_false_iff. left. apply Z.leb_gt.
  unfold LocalTime, msPerDay in *. lia.
Qed.

(** An expense dated a day after the last day does not pass. *)
Lemma day_after_last_excluded t :
  on_local_day rt (t - msPerDay) y m (days_in_month y m) ->
  in_month_filter rt year month t = false.
Proof.
  intros H. rewrite in_month_filter_eq.
  destruct (local_day_bounds _ _ H) as (H1 & H2 & H3).
  apply andb_false_iff. right. apply Z.leb_gt.
  unfold LocalTime, msPerDay in *. lia.
Qed.

(** On the last day only the instant of its opening midnight passes. *)
Lemma last_day_included_iff t :
  on_local_day rt t y m (days_in_month y m) ->
  (in_month_filter rt year month t = true <-> local_time_of_day rt t = 0).
Proof.
  intros H. rewrite in_month_filter_eq.
  destruct (local_day_bounds _ _ H) as (H1 & H2 & H3).
  pose proof (days_in_month_bounds y m) as Hb.
  pose proof (MakeDay_plus 1 (days_in_month y m - 1)) as Hp.
  replace (1 + (days_in_month y m - 1)) with (days_in_month y m) in Hp by lia.
  rewrite andb_true_iff, !Z.leb_le. rewrite Hp in *.
  unfold msPerDay in *. lia.
Qed.

End MonthFilter.

(* ================================================================== *)
(** ** The monthly report *)

Section Report.

Variable rt : Runtime.

(** What the query of the report fetches: the expenses of the user whose
    date passes the filter, in the order of the collection. *)
Lemma matching_costs_iff (db : DB) (id year month : value) (c : CostDoc) :
  In c (matching_costs rt db id year month)
  <-> In c (costs db)
      /\ Num.isNaN (ToNumber rt id) = false
      /\ Num.eqb (userid c) (ToNumber rt id) = true
      /\ exists t, date c = Some t /\ in_month_filter rt year month t = true.
Proof.
  unfold matching_costs, Cost_find, in_month_filter.
  destruct (startDate_of rt year month) as [s|],
           (endDate_of rt year month) as [e|]; simpl;
    try (split; [tauto | intros (_ & _ & _ & t & _ & H); discriminate]).
  destruct (Num.isNaN (ToNumber rt id)) eqn:En; simpl.
  - split; [tauto | intros (_ & H & _); discriminate].
  - rewrite filter_In. unfold in_report_range.
    rewrite andb_true_iff. split.
    + intros (Hin & Hu & Hd). repeat split; try assumption.
      destruct (date c) as [t|]; [|discriminate]. eauto.
    + intros (Hin & _ & Hu & t & Ht & Hf). rewrite Ht. tauto.
Qed.

Lemma obj_get_set_same {A} (g : jsobject A) (k : string) (a : A) :
  obj_get (obj_set g k a) k = Some a.
Proof.
  induction g as [|[k' a'] g IH]; simpl.
  - now rewrite String.eqb_refl.
  - destruct (String.eqb k k') eqn:E; simpl; rewrite E; [reflexivity | exact IH].
Qed.

Lemma obj_get_set_other {A} (g : jsobject A) (k k' : string) (a : A) :
  k <> k' -> obj_get (obj_set g k a) k' = obj_get g k'.
Proof.
  intros Hne. induction g as [|[k0 a0] g IH]; simpl.
  - destruct (String.eqb_spec k' k); [congruence | reflexivity].
  - destruct (String.eqb_spec k k0) as [-> | Hk]; simpl.
    + destruct (String.eqb_spec k' k0); [congruence | reflexivity].
    + now rewrite IH.
Qed.

(** Writing under a key the object has leaves its keys as they are. *)
Lemma obj_set_keys {A} (g : jsobject A) (k : string) (a a0 : A) :
  obj_get g k = Some a0 -> Object_keys (obj_set g k a) = Object_keys g.
Proof.
  unfold Object_keys. induction g as [|[k' a'] g IH]; simpl; [discriminate|].
  destruct (String.eqb k k'); simpl; intros H; [reflexivity | now rewrite IH].
Qed.

Lemma obj_get_in_keys {A} (g : jsobject A) (k : string) :
  obj_get g k <> None <-> In k (Object_keys g).
Proof.
  unfold Object_keys. induction g as [|[k' a'] g IH]; simpl; [tauto|].
  destruct (String.eqb_spec k k') as [-> | Hne].
  - split; [auto | discriminate].
  - rewrite IH. split; [auto | intros [H | H]; congruence].
Qed.

(** [push_all] either throws, at a category that is no key, or keeps the
    keys and appends to each array the lines of its category. *)
Lemma push_all_spec (found : list CostDoc) :
  forall g : jsobject (list Entry),
    match push_all rt g found with
    | Returned g' =>
        Object_keys g' = Object_keys g
        /\ (forall c, In c found -> In (category c) (Object_keys g))
        /\ forall k arr, obj_get g k = Some arr ->
             obj_get g' k = Some (arr ++ entries_of rt k found)%list
    | Threw e =>
        e = TypeError "push"
        /\ exists c, In c found /\ ~ In (category c) (Object_keys g)
    end.
Proof.
  induction found as [|c rest IH]; intros g; simpl.
  - repeat split; [tauto|]. intros k arr H. unfold entries_of. simpl.
    now rewrite app_nil_r.
  - unfold push_cost.
    destruct (obj_get g (category c)) as [arr0|] eqn:E.
    + specialize (IH (obj_set g (category c) (arr0 ++ [entry_of rt c])%list)).
      pose proof (obj_set_keys g (category c) (arr0 ++ [entry_of rt c])%list
                    arr0 E) as Hk.
      assert (Hc : In (category c) (Object_keys g))
        by (apply obj_get_in_keys; congruence).
      destruct (push_all rt _ rest) as [g'|e].
      * destruct IH as (K & I & G). rewrite Hk in K, I.
        split; [assumption|]. split.
        { intros c' [<- | Hin]; auto. }
        intros k arr Hg. unfold entries_of. simpl.
        destruct (String.eqb_spec (category c) k) as [Heq | Hne].
        -- subst k. rewrite E in Hg. injection Hg as <-.
           rewrite (G _ _ (obj_get_set_same _ _ _)).
           unfold entries_of. simpl. now rewrite <- app_assoc.
        -- apply G. now rewrite obj_get_set_other.
      * destruct IH as (-> & c' & Hin & Hnk). rewrite Hk in Hnk.
        split; [reflexivity|]. exists c'. split; [now right | assumption].
    + split; [reflexivity|]. exists c. split; [now left|].
      rewrite <- obj_get_in_keys. intros H. now apply H.
Qed.

Lemma init_groups_get (k : string) :
  In k categories -> obj_get init_groups k = Some [].
Proof.
  intros H. repeat (destruct H as [<- | H]); try reflexivity. destruct H.
Qed.

Lemma single_key_objects_eq (g : jsobject (list Entry)) (f : string -> list Entry) :
  (forall k, In k (Object_keys g) -> obj_get g k = Some (f k)) ->
  single_key_objects g = map (fun k => [(k, f k)]) (Object_keys g).
Proof.
  intros H. unfold single_key_objects. apply map_ext_in.
  intros k Hin. now rewrite (H k Hin).
Qed.

End Report.

(* ================================================================== *)
(** ** C1: the ends of the month in the report *)

(** The first day of the month is in the report, and the days next to the
    month are not: an expense of the user dated on the first day is
    fetched, one dated a day before the first or a day after the last is
    not. *)
Lemma report_month_boundaries (rt : Runtime) (db : DB) (id year month : value)
    (y m : Z) (c : CostDoc) (t : Z) :
  ToNumber rt year = ofZ y -> ToNumber rt month = ofZ m ->
  1 <= m <= 12 -> 100 <= y <= 275000 -> Z.abs (LocalTZA rt) <= msPerDay ->
  date c = Some t ->
  (on_local_day rt t y m 1 ->
     In c (costs db) -> Num.isNaN (ToNumber rt id) = false ->
     Num.eqb (userid c) (ToNumber rt id) = true ->
     In c (matching_costs rt db id year month))
  /\ (on_local_day rt (t + msPerDay) y m 1 ->
     ~ In c (matching_costs rt db id year month))
  /\ (on_local_day rt (t - msPerDay) y m (days_in_month y m) ->
     ~ In c (matching_costs rt db id year month)).
Proof.
  intros Hy Hm Rm Ry Rz Hd. rewrite !matching_costs_iff. repeat split; auto.
  - exists t. split; [assumption|].
    now apply (first_day_included rt year month y m).
  - intros H (_ & _ & _ & t' & Ht' & F). rewrite Hd in Ht'. injection Ht' as <-.
    rewrite (day_before_first_excluded rt year month y m) in F;
      [discriminate | assumption ..].
  - intros H (_ & _ & _ & t' & Ht' & F). rewrite Hd in Ht'. injection Ht' as <-.
    rewrite (day_after_last_excluded rt year month y m) in F;
      [discriminate | assumption ..].
Qed.

(** C1. The filter of the monthly report ends at the midnight that opens
    the last day of the month: an expense dated on the last calendar day
    of the requested month, at any later instant of that day, is not
    fetched, whatever the user, the year and the month (the 29th of
    February of a leap year included). *)
Theorem report_drops_last_day (rt : Runtime) (db : DB) (id year month : value)
    (y m : Z) (c : CostDoc) (t : Z) :
  ToNumber rt year = ofZ y -> ToNumber rt month = ofZ m ->
  1 <= m <= 12 -> 100 <= y <= 275000 -> Z.abs (LocalTZA rt) <= msPerDay ->
  date c = Some t ->
  on_local_day rt t y m (days_in_month y m) ->
  local_time_of_day rt t <> 0 ->
  ~ In c (matching_costs rt db id year month).
Proof.
  intros Hy Hm Rm Ry Rz Hd Hl Ht. rewrite matching_costs_iff.
  intros (_ & _ & _ & t' & Ht' & F). rewrite Hd in Ht'. injection Ht' as <-.
  apply Ht. now apply (last_day_included_iff rt year month y m).
Qed.

(** The expense of the sample store is dated at noon of 31 January 2025 and
    the report for January 2025 does not fetch it. *)
Lemma report_drops_last_day_witness :
  on_local_day Sample.runtime Sample.noon_jan31_2025 2025 1 (days_in_month 2025 1)
  /\ ~ In Sample.milk
        (matching_costs Sample.runtime Sample.db0 (VNumber (ofZ 1001))
                        (VNumber (ofZ 2025)) (VNumber (ofZ 1))).
Proof.
  assert (H : on_local_day Sample.runtime Sample.noon_jan31_2025 2025 1
                (days_in_month 2025 1)) by (repeat split).
  split; [exact H|].
  apply (report_drops_last_day Sample.runtime Sample.db0 (VNumber (ofZ 1001))
           (VNumber (ofZ 2025)) (VNumber (ofZ 1)) 2025 1 Sample.milk
           Sample.noon_jan31_2025);
    try reflexivity; try exact H; try (vm_compute; intuition discriminate).
Defined.

(** The same on the whole function. User 1001 bought bread on 15 January
    2025 and milk at noon of 31 January 2025: the report of January 2025
    lists the bread under "food" and misses the milk. *)
Example report_of_january_misses_milk :
  exists r,
    fetchMonthlyReport Sample.runtime Sample.db0 (VNumber (ofZ 1001))
                       (VNumber (ofZ 2025)) (VNumber (ofZ 1)) = Data 200 r
    /\ report_costs r
       = [[("food", [ {| entry_sum := ofZ 3; entry_description := "bread";
                         entry_day := ofZ 15 |} ])];
          [("health", [])]; [("housing", [])]; [("sport", [])];
          [("education", [])]].
Proof. eexists. split; reflexivity. Qed.

(** February of the leap year 2024, in UTC: the last instant of the 28th
    and the midnight that opens the 29th pass the filter, noon of the 29th
    does not, and neither does the first of March. *)
Example leap_day_filter :
  let feb := in_month_filter Sample.runtime (VNumber (ofZ 2024))
                             (VNumber (ofZ 2)) in
  DateFromTime 1709208000000 = 29 /\ MonthFromTime 1709208000000 = 1
  /\ feb 1709164799999 = true
  /\ feb 1709164800000 = true
  /\ feb 1709208000000 = false
  /\ feb 1709251200000 = false.
Proof. repeat split. Qed.

(** The 29th of February 2024 is the last day of its month. *)
Example leap_february : days_in_month 2024 2 = 29 /\ days_in_month 2025 2 = 28
  /\ days_in_month 1900 2 = 28 /\ days_in_month 2000 2 = 29.
Proof. repeat split. Qed.

(* ================================================================== *)
(** ** C2: the five categories of the report *)

Lemma entries_of_none (rt : Runtime) (cat : string) (found : list CostDoc) :
  (forall c, In c found -> category c <> cat) -> entries_of rt cat found = [].
Proof.
  intros H. unfold entries_of.
  induction found as [|c rest IH]; simpl; [reflexivity|].
  destruct (String.eqb_spec (category c) cat) as [E | _].
  - exfalso. apply (H c); [now left | assumption].
  - apply IH. intros c' Hin. apply H. now right.
Qed.

Lemma push_all_init (rt : Runtime) (found : list CostDoc) (g : jsobject (list Entry)) :
  push_all rt init_groups found = Returned g ->
  single_key_objects g = costs_shape rt found.
Proof.
  intros H. pose proof (push_all_spec rt found init_groups) as S.
  rewrite H in S. destruct S as (K & _ & G).
  rewrite (single_key_objects_eq g (fun k => entries_of rt k found)).
  - rewrite K. reflexivity.
  - intros k Hk. rewrite K in Hk.
    apply (G k [] (init_groups_get k Hk)).
Qed.

(** C2. Whenever the monthly report is produced, its [costs] is the
    sequence of five single-key objects, one per category in the order
    food, health, housing, sport, education, each holding the lines of the
    fetched expenses of that category in fetch order, and so the empty
    sequence for a category without a fetched expense. The report is
    produced whenever the query returns expenses whose categories are
    among the five; with no fetched expense it is the report of five empty
    categories. *)
Theorem monthly_report_five_categories (rt : Runtime) (db : DB)
    (id year month : value) :
  let found := matching_costs rt db id year month in
  let query := Cost_find (costs db) (ToNumber rt id)
                 (startDate_of rt year month) (endDate_of rt year month) in
  (forall r, fetchMonthlyReport rt db id year month = Data 200 r ->
     report_costs r = costs_shape rt found
     /\ map (@Object_keys (list Entry)) (report_costs r)
        = [["food"]; ["health"]; ["housing"]; ["sport"]; ["education"]]
     /\ forall cat, In cat categories ->
          (forall c, In c found -> category c <> cat) ->
          In [(cat, [])] (report_costs r))
  /\ (forall l, query = Returned l ->
      (forall c, In c l -> In (category c) categories) ->
      exists r, fetchMonthlyReport rt db id year month = Data 200 r)
  /\ (query = Returned [] ->
      fetchMonthlyReport rt db id year month
      = Data 200 {| report_userid := ToNumber rt id;
                    report_year := ToNumber rt year;
                    report_month := ToNumber rt month;
                    report_costs :=
                      [[("food", [])]; [("health", [])]; [("housing", [])];
                       [("sport", [])]; [("education", [])]] |}).
Proof.
  intros found query. subst found query.
  unfold fetchMonthlyReport, matching_costs.
  destruct (Cost_find _ _ _ _) as [l|e]; [|repeat split; intros; discriminate].
  repeat split.
  - destruct (push_all rt init_groups l) as [g|e] eqn:P; [|discriminate].
    injection H as <-. simpl. now apply push_all_init.
  - destruct (push_all rt init_groups l) as [g|e] eqn:P; [|discriminate].
    injection H as <-. simpl. rewrite (push_all_init rt l g P). reflexivity.
  - intros cat Hcat Hnone.
    destruct (push_all rt init_groups l) as [g|e] eqn:P; [|discriminate].
    injection H as <-. simpl. rewrite (push_all_init rt l g P).
    unfold costs_shape. apply in_map_iff. exists cat.
    now rewrite (entries_of_none rt cat l Hnone).
  - intros l' H Hcats. injection H as <-.
    pose proof (push_all_spec rt l init_groups) as S.
    destruct (push_all rt init_groups l) as [g|e]; [eauto|].
    destruct S as (_ & c & Hin & Hn). exfalso. apply Hn. now apply Hcats.
  - intros H. injection H as ->. reflexivity.
Qed.

(** The January 2025 report of user 1001, who has a fetched expense, and
    of user 7, who has none. *)
Lemma monthly_report_five_categories_witness :
  (exists r,
     fetchMonthlyReport Sample.runtime Sample.db0 (VNumber (ofZ 1001))
                        (VNumber (ofZ 2025)) (VNumber (ofZ 1)) = Data 200 r
     /\ map (@Object_keys (list Entry)) (report_costs r)
        = [["food"]; ["health"]; ["housing"]; ["sport"]; ["education"]]
     /\ In [("health", [])] (report_costs r))
  /\ fetchMonthlyReport Sample.runtime Sample.db0 (VNumber (ofZ 7))
                        (VNumber (ofZ 2025)) (VNumber (ofZ 1))
     = Data 200 {| report_userid := ofZ 7; report_year := ofZ 2025;
                   report_month := ofZ 1;
                   report_costs :=
                     [[("food", [])]; [("health", [])]; [("housing", [])];
                      [("sport", [])]; [("education", [])]] |}.
Proof.
  split.
  - destruct (monthly_report_five_categories Sample.runtime Sample.db0
                (VNumber (ofZ 1001)) (VNumber (ofZ 2025)) (VNumber (ofZ 1)))
      as (Hshape & Hreturns & _).
    assert (C : forall c, In c [Sample.bread] -> In (category c) categories)
      by (intros c [E | []]; subst c; now left).
    destruct (Hreturns [Sample.bread] eq_refl C) as [r E].
    exists r. split; [exact E|].
    destruct (Hshape r E) as (_ & K & Hempty). split; [exact K|].
    apply Hempty; [right; now left|].
    intros c Hin. vm_compute in Hin. destruct Hin as [Hc | []].
    subst c. discriminate.
  - destruct (monthly_report_five_categories Sample.runtime Sample.db0
                (VNumber (ofZ 7)) (VNumber (ofZ 2025)) (VNumber (ofZ 1)))
      as (_ & _ & Hnone).
    apply Hnone. reflexivity.
Defined.

(* ================================================================== *)
(** ** The store *)

Lemma Num_eqb_eq (a b : number) : Num.eqb a b = true -> a = b.
Proof.
  destruct a as [|s|x], b as [|t|y]; simpl; try discriminate.
  - intros H. apply Bool.eqb_prop in H. now subst.
  - intros H. apply Qc_eqb_eq in H. now subst.
Qed.

Lemma Num_eqb_refl (a : number) : Num.isNaN a = false -> Num.eqb a a = true.
Proof.
  destruct a as [|s|x]; simpl; [discriminate | intros _ | intros _].
  - apply Bool.eqb_reflx.
  - now apply Qc_eqb_eq.
Qed.

Section StoreFacts.

Variable rt : Runtime.

Lemma castNumber_not_nan (v : value) (n : number) :
  castNumber rt v = CastOk n -> Num.isNaN n = false.
Proof.
  unfold castNumber.
  destruct v as [| |b|k|s|tv|[tag|tag]]; try discriminate;
    try (destruct (String.eqb s ""); [discriminate|]);
    match goal with
    | |- context [Num.isNaN ?x] => destruct (Num.isNaN x) eqn:E
    end; try discriminate; intros H; injection H as <-; exact E.
Qed.

Lemma castNumber_number (n : number) :
  Num.isNaN n = false -> castNumber rt (VNumber n) = CastOk n.
Proof. intros H. unfold castNumber. simpl. now rewrite H. Qed.

Lemma positive_not_nan (n : number) : Num.positive n -> Num.isNaN n = false.
Proof. destruct n; simpl; [intros [] | reflexivity | reflexivity]. Qed.

(** The lookup finds no user when no user carries the identifier. *)
Lemma User_findOne_none (us : list UserDoc) (v : value) :
  castNumber rt v <> CastFail ->
  (forall n u, castNumber rt v = CastOk n -> In u us -> id u <> n) ->
  User_findOne rt us v = Returned None.
Proof.
  intros Hc Hn. unfold User_findOne.
  destruct (castNumber rt v) as [n| |]; [|reflexivity|congruence].
  destruct (find (fun u => Num.eqb (id u) n) us) as [u|] eqn:F; [|reflexivity].
  apply find_some in F. destruct F as [Hin He].
  apply Num_eqb_eq in He. exfalso. now apply (Hn n u).
Qed.

(** The lookup finds a user as soon as one carries the identifier. *)
Lemma User_findOne_some (us : list UserDoc) (v : value) (n : number) (u : UserDoc) :
  castNumber rt v = CastOk n -> In u us -> id u = n ->
  exists u', User_findOne rt us v = Returned (Some u') /\ In u' us /\ id u' = n.
Proof.
  intros Hc Hin Hid. unfold User_findOne. rewrite Hc.
  destruct (find (fun u => Num.eqb (id u) n) us) as [u'|] eqn:F.
  - apply find_some in F. destruct F as [Hin' He]. apply Num_eqb_eq in He. eauto.
  - exfalso. pose proof (find_none _ _ F u Hin) as H. simpl in H.
    rewrite Hid, Num_eqb_refl in H; [discriminate|].
    now apply castNumber_not_nan with (v := v).
Qed.



End StoreFacts.

(* ================================================================== *)
(** ** C3: an expense of an unknown user *)

(** A lookup that finds no user ends [createCost] before the save. *)
Lemma createCost_no_user (rt : Runtime) (db : DB) (now : Z)
    (oid : ObjectId) (costData : CostData) :
  User_findOne rt (users db) (cd_userid costData) = Returned None ->
  createCost rt db now oid costData = (db, Error 404 (Text msg_user_not_found)).
Proof. intros H. unfold createCost. now rewrite H. Qed.

(** An input the validator accepts has a string description, a category
    of the five and positive numbers for the user and the sum. *)
Lemma validateCostInput_accepts (d c u s : value) :
  validateCostInput d c u s = None ->
  valid_description d /\ valid_category c
  /\ positive_number u /\ positive_number s.
Proof.
  pose proof (description_rule d) as Hd.
  pose proof (includes_iff allowedCategories c) as Hc.
  pose proof (number_rule u) as Hu.
  pose proof (number_rule s) as Hs.
  fold (valid_category c) in Hc.
  unfold validateCostInput.
  destruct (js_not d || negb (jstype_eqb (typeof d) TString) || trim_is_empty d)%bool;
    [discriminate|].
  destruct (includes allowedCategories c); [|discriminate].
  destruct (js_not u || negb (jstype_eqb (typeof u) TNumber) || le_zero u)%bool;
    [discriminate|].
  destruct (js_not s || negb (jstype_eqb (typeof s) TNumber) || le_zero s)%bool;
    [discriminate|].
  intros _. tauto.
Qed.

(** C3. When the [userid] of the input resolves to no user (no user of the
    collection carries it), [createCost] answers 404 with the message
    "User not found. Cannot add cost." and hands the store back as it was:
    the lookup comes before the save, which is not reached. *)
Theorem createCost_unknown_user (rt : Runtime) (db : DB) (now : Z)
    (oid : ObjectId) (costData : CostData) :
  castNumber rt (cd_userid costData) <> CastFail ->
  (forall n u, castNumber rt (cd_userid costData) = CastOk n ->
               In u (users db) -> id u <> n) ->
  createCost rt db now oid costData
  = (db, Error 404 (Text "User not found. Cannot add cost.")).
Proof.
  intros Hc Hn. apply createCost_no_user.
  now apply User_findOne_none.
Qed.

(** The user 999999 of the specification does not exist in the sample
    store. *)
Lemma createCost_unknown_user_witness :
  createCost Sample.runtime Sample.db0 Sample.noon_jan15_2025 99%N
    {| cd_description := VString "milk"; cd_category := VString "food";
       cd_userid := VNumber (ofZ 999999); cd_sum := VNumber (ofZ 8);
       cd_date := VUndefined |}
  = (Sample.db0, Error 404 (Text "User not found. Cannot add cost.")).
Proof.
  apply createCost_unknown_user.
  - discriminate.
  - intros n u H [<- | []]. injection H as <-. vm_compute. discriminate.
Defined.

(** Only the reply of status 201 comes with a changed store. *)
Lemma createCost_failure_keeps_store (rt : Runtime) (db db' : DB) (now : Z)
    (oid : ObjectId) (costData : CostData) (r : reply (jsobject value)) :
  createCost rt db now oid costData = (db', r) ->
  (forall payload, r <> Data 201 payload) -> db' = db.
Proof.
  unfold createCost.
  destruct (User_findOne rt (users db) (cd_userid costData)) as [[u|]|e];
    try (intros H _; now injection H as <- _).
  destruct (Cost_save rt _ _ _ _) as [[cs' saved]|e];
    [|intros H _; now injection H as <- _].
  intros H Hn. injection H as _ <-. exfalso. eapply Hn. reflexivity.
Qed.

(** Through the handler: a body that passes the validation and names an
    unknown user is answered 404, the store unchanged. *)
Lemma addCost_unknown_user (rt : Runtime) (db : DB) (now : Z) (oid : ObjectId)
    (body : CostData) (n : number) :
  validateCostInput (cd_description body) (cd_category body)
                    (cd_userid body) (cd_sum body) = None ->
  cd_userid body = VNumber n ->
  (forall u, In u (users db) -> id u <> n) ->
  addCost rt db now oid body
  = (db, Error 404 (Text "User not found. Cannot add cost.")).
Proof.
  intros Hv Hu Hn. unfold addCost. rewrite Hv. simpl.
  apply validateCostInput_accepts in Hv.
  destruct Hv as (_ & _ & (n' & Hn' & Hp) & _).
  rewrite Hu in Hn'. injection Hn' as <-.
  apply createCost_no_user. apply User_findOne_none; rewrite Hu.
  - rewrite castNumber_number by now apply positive_not_nan. discriminate.
  - intros k u. rewrite castNumber_number by now apply positive_not_nan.
    intros H. injection H as <-. apply Hn.
Qed.

(* ================================================================== *)
(** ** Rounding *)

Lemma round_half_even_exact (D K : Z) :
  0 < D -> Num.round_half_even (D * K) D = K.
Proof.
  intros HD. unfold Num.round_half_even.
  rewrite (Z.mul_comm D K), Z.mod_mul, Z.div_mul by lia.
  change (2 * 0) with 0.
  destruct (Z.compare_spec 0 D); try lia; reflexivity.
Qed.

Lemma pow2_pos (z : Z) : 0 <= z -> 0 < 2 ^ z.
Proof. intros H. apply Z.pow_pos_nonneg; lia. Qed.

(** In units of [2 ^ -1074] a binary64 number is an integer. *)
Lemma double_units (q : Qc) (m e : Z) :
  -1074 <= e ->
  (this q == inject_Z m * Qpower 2 e)%Q ->
  Qnum (this q) * 2 ^ 1074 = Zpos (Qden (this q)) * (m * 2 ^ (e + 1074)).
Proof.
  intros He Hq.
  assert (H2 : (Qpower 2 e * inject_Z (2 ^ 1074)
                == inject_Z (2 ^ (e + 1074)))%Q).
  { rewrite !Zpower_Qpower by lia. change (inject_Z 2) with 2%Q.
    rewrite Qpower_plus by discriminate. reflexivity. }
  assert (H : (this q * inject_Z (2 ^ 1074)
               == inject_Z (m * 2 ^ (e + 1074)))%Q).
  { rewrite Hq, inject_Z_mult, <- H2. ring. }
  unfold Qeq in H. cbn [Qnum Qden Qmult inject_Z] in H.
  rewrite Pos.mul_1_r, Z.mul_1_r in H. lia.
Qed.

(** A binary64 number is not rounded. *)
Lemma round64_exact (q : Qc) : is_double q -> Num.round64 q = Finite q.
Proof.
  intros (m & e & Hm & He & Hq).
  unfold Num.round64.
  destruct ((Z.pos (Qden (this q)) =? 1)
            && (Z.abs (Qnum (this q)) <? 2 ^ 53))%bool; [reflexivity|].
  pose proof (double_units q m e ltac:(lia) Hq) as U.
  set (n := Qnum (this q)) in *. set (d := Z.pos (Qden (this q))) in *.
  set (E := e + 1074) in *.
  assert (HE : 0 <= E <= 2045) by (unfold E; lia).
  assert (Hd : 0 < d) by (unfold d; lia).
  set (I := Z.abs m * 2 ^ E).
  assert (HN : Z.abs n * 2 ^ 1074 = d * I).
  { unfold I. pose proof (pow2_pos 1074 ltac:(lia)).
    pose proof (pow2_pos E ltac:(lia)).
    rewrite <- (Z.abs_eq (2 ^ 1074)) by lia. rewrite <- Z.abs_mul, U.
    rewrite !Z.abs_mul. rewrite (Z.abs_eq d), (Z.abs_eq (2 ^ E)) by lia.
    reflexivity. }
  rewrite HN. rewrite (Z.mul_comm d I), Z.div_mul by lia.
  set (t := Z.max (Z.log2 I - 52) 0).
  assert (HI : 0 <= I) by (unfold I; pose proof (pow2_pos E ltac:(lia)); nia).
  assert (HIlt : I < 2 ^ (53 + E)).
  { unfold I. rewrite Z.pow_add_r by lia. pose proof (pow2_pos E ltac:(lia)).
    nia. }
  assert (Ht : 0 <= t <= E).
  { unfold t. split; [lia|]. apply Z.max_lub; [|lia].
    destruct (Z.eq_dec I 0) as [-> | Hn]; [cbn; lia|].
    assert (Z.log2 I < 53 + E) by (apply Z.log2_lt_pow2; lia). lia. }
  set (K := Z.abs m * 2 ^ (E - t)).
  assert (HK : I = K * 2 ^ t).
  { unfold I, K. rewrite <- Z.mul_assoc, <- Z.pow_add_r by lia.
    f_equal. f_equal. lia. }
  assert (HR : Num.round_half_even (I * d) (d * 2 ^ t) = K).
  { rewrite HK. replace (K * 2 ^ t * d) with (d * 2 ^ t * K) by ring.
    apply round_half_even_exact. pose proof (pow2_pos t ltac:(lia)). nia. }
  rewrite HR, <- HK.
  assert (HO : (2 ^ 2098 <=? I) = false).
  { apply Z.leb_gt. eapply Z.lt_le_trans; [exact HIlt|].
    apply Z.pow_le_mono_r; lia. }
  rewrite HO. f_equal. apply Qc_is_canon.
  change (this (Q2Qc ?x)) with (Qred x). rewrite Qred_correct.
  unfold Qeq. cbn [Qnum Qden]. fold n d.
  rewrite Z2Pos.id by (apply pow2_pos; lia).
  rewrite <- Z.mul_assoc, (Z.mul_comm I d), <- HN.
  rewrite Z.mul_assoc, (Z.mul_comm (Z.sgn n)), Z.abs_sgn. reflexivity.
Qed.

Lemma exact_add_assoc (a b c : number) :
  Num.exact_add (Num.exact_add a b) c = Num.exact_add a (Num.exact_add b c).
Proof.
  destruct a as [|[|]|x], b as [|[|]|y], c as [|[|]|z]; simpl;
    try reflexivity.
  now rewrite Qcplus_assoc.
Qed.

Lemma exact_add_comm (a b : number) : Num.exact_add a b = Num.exact_add b a.
Proof.
  destruct a as [|[|]|x], b as [|[|]|y]; simpl; try reflexivity.
  now rewrite Qcplus_comm.
Qed.

Lemma exact_add_0_l (a : number) : Num.exact_add (ofZ 0) a = a.
Proof.
  destruct a as [|s|x]; simpl; try reflexivity.
  f_equal. apply Qcplus_0_l.
Qed.

Lemma exact_add_0_r (a : number) : Num.exact_add a (ofZ 0) = a.
Proof.
  destruct a as [|s|x]; simpl; try reflexivity.
  f_equal. apply Qcplus_0_r.
Qed.

Lemma sum_of_app (l1 l2 : list number) :
  sum_of (l1 ++ l2) = Num.exact_add (sum_of l1) (sum_of l2).
Proof.
  unfold sum_of. induction l1 as [|x l1 IH]; cbn [app fold_right].
  - symmetry. apply exact_add_0_l.
  - rewrite IH. symmetry. apply exact_add_assoc.
Qed.

(** The sum of numbers that add up without rounding is finite, and a
    binary64 number once added to the starting point. *)
Lemma adds_exactly_total (l : list number) :
  forall acc, adds_exactly_from acc l ->
    exists t, sum_of l = Finite t /\ (l <> [] -> is_double (acc + t)%Qc).
Proof.
  induction l as [|x rest IH]; intros acc H.
  - exists 0%Qc. split; [reflexivity | congruence].
  - destruct x as [| |q]; [destruct H | destruct H |].
    destruct H as (_ & Hq & Hr).
    destruct (IH _ Hr) as (t & Et & Dt).
    exists (q + t)%Qc. split.
    + change (sum_of (Finite q :: rest))
        with (Num.exact_add (Finite q) (sum_of rest)). now rewrite Et.
    + intros _. destruct rest as [|y rest'].
      * cbn in Et. injection Et as <-.
        now rewrite Qcplus_0_r.
      * rewrite Qcplus_assoc. apply Dt. discriminate.
Qed.

Lemma adds_exactly_app (l1 l2 : list number) :
  forall acc, adds_exactly_from acc (l1 ++ l2) ->
    adds_exactly_from acc l1
    /\ forall t, sum_of l1 = Finite t -> adds_exactly_from (acc + t)%Qc l2.
Proof.
  induction l1 as [|x rest IH]; intros acc H.
  - split; [exact I|]. intros t Et. cbn in Et. injection Et as <-.
    now rewrite Qcplus_0_r.
  - destruct x as [| |q]; [destruct H | destruct H |].
    destruct H as (Hq & Hs & Hr). destruct (IH _ Hr) as (H1 & H2).
    split; [repeat split; assumption|].
    intros t Et.
    destruct (adds_exactly_total rest _ H1) as (t' & Et' & _).
    change (sum_of (Finite q :: rest))
      with (Num.exact_add (Finite q) (sum_of rest)) in Et.
    rewrite Et' in Et. injection Et as <-.
    rewrite Qcplus_assoc. now apply H2.
Qed.

(** Adding one by one, from the left, numbers that add up without
    rounding gives their sum. *)
Lemma fold_add_exact (l : list number) :
  forall acc, adds_exactly_from acc l ->
    fold_left Num.add l (Finite acc) = Num.exact_add (Finite acc) (sum_of l).
Proof.
  induction l as [|x rest IH]; intros acc H.
  - cbn [fold_left]. symmetry. apply exact_add_0_r.
  - destruct x as [| |q]; [destruct H | destruct H |].
    destruct H as (_ & Hq & Hr). cbn [fold_left].
    replace (Num.add (Finite acc) (Finite q)) with (Finite (acc + q)%Qc)
      by (symmetry; apply round64_exact; exact Hq).
    rewrite (IH _ Hr).
    change (sum_of (Finite q :: rest))
      with (Num.exact_add (Finite q) (sum_of rest)).
    now rewrite <- exact_add_assoc.
Qed.

(** The store of the sample runtime, which adds from the left, sums
    without error what adds up without rounding. *)
Lemma sample_store_sum_exact : exact_store_sum Sample.runtime.
Proof.
  intros l _ H.
  change (fold_left Num.add l (Finite 0%Qc) = sum_of l).
  rewrite (fold_add_exact l 0%Qc H). apply exact_add_0_l.
Qed.

(* ================================================================== *)
(** ** C5: the lifetime total *)

Section Total.

Variable rt : Runtime.

(** The total depends on the store through the expenses of the user
    only. *)
Lemma lifetimeTotal_eq (db : DB) (n : number) :
  lifetimeTotal rt db n
  = match costs_of_user db n with
    | [] => ofZ 0
    | matched => StoreSum rt (map sum matched)
    end.
Proof.
  unfold lifetimeTotal, Cost_aggregate_total, costs_of_user.
  now destruct (filter _ (costs db)).
Qed.

Lemma lifetimeTotal_none (db : DB) (n : number) :
  costs_of_user db n = [] -> lifetimeTotal rt db n = ofZ 0.
Proof.
  unfold lifetimeTotal, Cost_aggregate_total, costs_of_user. now intros ->.
Qed.

Lemma lifetimeTotal_some (db : DB) (n : number) :
  costs_of_user db n <> [] ->
  lifetimeTotal rt db n = StoreSum rt (map sum (costs_of_user db n)).
Proof.
  unfold lifetimeTotal, Cost_aggregate_total, costs_of_user.
  destruct (filter _ (costs db)) as [|c rest]; [congruence | reflexivity].
Qed.

(** With a store that sums without error, the total is the sum whenever
    the [sum] fields add up without rounding. *)
Lemma lifetimeTotal_exact (db : DB) (n : number) :
  exact_store_sum rt -> adds_exactly (map sum (costs_of_user db n)) ->
  lifetimeTotal rt db n = sum_of (map sum (costs_of_user db n)).
Proof.
  intros Hs Ha. destruct (costs_of_user db n) as [|c rest] eqn:E.
  - now rewrite lifetimeTotal_none.
  - rewrite lifetimeTotal_some by congruence. rewrite E.
    apply Hs; [discriminate | exact Ha].
Qed.

End Total.


(** 8, 12.5 and 3 add up without rounding. *)
Lemma three_expenses_add_exactly :
  adds_exactly (map sum (costs_of_user Sample.db_three (ofZ 1001))).
Proof.
  change (costs_of_user Sample.db_three (ofZ 1001)) with (costs Sample.db_three).
  assert (D : forall k : Z, Z.abs k < 2 ^ 53 -> forall q : Qc,
                (this q == inject_Z k * Qpower 2 (-1))%Q -> is_double q).
  { intros k Hk q Hq. exists k, (-1). repeat split; try lia; assumption. }
  cbn [Sample.db_three costs map sum Sample.expense adds_exactly
       adds_exactly_from].
  repeat split;
    [apply (D 16) | apply (D 16) | apply (D 25) | apply (D 41)
     | apply (D 6) | apply (D 47)];
    try (vm_compute; reflexivity).
Qed.


(** With any store that sums without error the three expenses give 23.5,
    and a user without expenses has the total 0 with any store. *)
Example lifetime_total_23_5 (rt : Runtime) :
  (exact_store_sum rt ->
   lifetimeTotal rt Sample.db_three (ofZ 1001) = Finite (Q2Qc (47 # 2)))
  /\ lifetimeTotal rt Sample.db_three (ofZ 7) = ofZ 0.
Proof.
  split; [|reflexivity].
  intros H. rewrite (lifetimeTotal_exact rt _ _ H three_expenses_add_exactly).
  apply (f_equal Finite). apply Qc_is_canon. reflexivity.
Qed.

(** The binary64 numbers nearest to 0.1 and 0.2 do not add up without
    rounding: the store of the sample runtime answers the binary64 number
    above their sum, which is not the one nearest to 0.3. *)
Example lifetime_total_rounds :
  let tenth := Q2Qc (3602879701896397 # 36028797018963968) in
  let fifth := Q2Qc (3602879701896397 # 18014398509481984) in
  let db := {| users := [Sample.alice];
               costs := [Sample.expense 48%N (this tenth);
                         Sample.expense 49%N (this fifth)] |} in
  Num.eqb (lifetimeTotal Sample.runtime db (ofZ 1001))
          (Finite (Q2Qc (5404319552844596 # 18014398509481984))) = true
  /\ Num.eqb (lifetimeTotal Sample.runtime db (ofZ 1001))
             (Finite (tenth + fifth)%Qc) = false
  /\ Num.round64 (Q2Qc (3 # 10))
     = Finite (Q2Qc (5404319552844595 # 18014398509481984)).
Proof.
  repeat split; try (vm_compute; reflexivity).
  apply Num_eqb_eq. vm_compute. reflexivity.
Qed.

(* ================================================================== *)
(** ** C6: a user identifier already in use *)

(** C6. When the [id] of the input is the [id] of a user of the
    collection, [createUser] answers status 400 with "User ID already
    exists." from its own lookup, before any save, and hands the store
    back as it was, the existing user included. *)
Theorem createUser_conflict (rt : Runtime) (db : DB) (now : Z) (oid : ObjectId)
    (userData : UserData) (n : number) (u : UserDoc) :
  castNumber rt (ud_id userData) = CastOk n ->
  In u (users db) -> id u = n ->
  createUser rt db now oid userData
  = (db, Error 400 (Text "User ID already exists.")).
Proof.
  intros Hc Hin Hid. unfold createUser.
  destruct (User_findOne_some rt (users db) _ n u Hc Hin Hid) as (u' & -> & _).
  reflexivity.
Qed.

Lemma createUser_conflict_witness :
  createUser Sample.runtime Sample.db0 Sample.noon_jan15_2025 5%N
    {| ud_id := VNumber (ofZ 1001); ud_first_name := VString "C";
       ud_last_name := VString "D"; ud_birthday := VNumber (ofZ 0);
       ud_marital_status := VString "married" |}
  = (Sample.db0, Error 400 (Text "User ID already exists.")).
Proof.
  apply (createUser_conflict Sample.runtime Sample.db0 _ _ _ (ofZ 1001)
           Sample.alice).
  - reflexivity.
  - now left.
  - reflexivity.
Defined.

(** A new identifier is saved: the conflict comes from the identifier
    only. *)
Example createUser_new_id :
  exists saved,
    createUser Sample.runtime Sample.db0 Sample.noon_jan15_2025 5%N
      {| ud_id := VNumber (ofZ 1002); ud_first_name := VString "C";
         ud_last_name := VString "D"; ud_birthday := VNumber (ofZ 0);
         ud_marital_status := VString "married" |}
    = ({| users := [Sample.alice; saved]; costs := costs Sample.db0 |},
       Data 201 saved)
    /\ id saved = ofZ 1002.
Proof. eexists. split; reflexivity. Qed.

(* ================================================================== *)
(** ** The cast of an update document *)

Lemma only_paths_all (paths : list string) (o : jsobject value) :
  (forall k, In k (Object_keys o) -> In k paths) -> only_paths paths o = true.
Proof.
  intros H. unfold only_paths. apply forallb_forall. intros k Hk.
  apply existsb_exists. exists k. split; [now apply H | apply String.eqb_refl].
Qed.

Section PathCast.

Context {A : Type} (castA : value -> cast A).
Variables (updateData : jsobject value) (path : string).

(** A plain value is cast. *)
Lemma cast_path_plain (v : value) :
  (forall v, obj_get updateData path = Some v -> plain_value v) -> obj_get updateData path = Some v ->
  cast_path castA updateData path
  = match castA v with
    | CastOk a => PathValue a
    | CastNull => PathNull
    | CastFail => PathFails
    end.
Proof.
  intros plain E. pose proof (plain v E) as Pv.
  unfold cast_path. rewrite E. destruct v; try reflexivity; destruct Pv.
Qed.

Lemma cast_path_absent :
  obj_get updateData path = None -> cast_path castA updateData path = PathAbsent.
Proof. intros E. unfold cast_path. now rewrite E. Qed.

Lemma cast_path_modelled (nullable : bool) :
  (forall v, obj_get updateData path = Some v -> plain_value v) ->
  (nullable = false ->
   forall v, obj_get updateData path = Some v -> castA v <> CastNull) ->
  path_modelled nullable (cast_path castA updateData path) = true.
Proof.
  intros plain Hnull.
  destruct (obj_get updateData path) as [v|] eqn:E.
  - rewrite (cast_path_plain v) by (rewrite ?E; auto).
    destruct (castA v) eqn:C; try reflexivity.
    destruct nullable; [reflexivity|].
    exfalso. now apply (Hnull eq_refl v eq_refl).
  - now rewrite cast_path_absent.
Qed.

Lemma cast_path_fails :
  (forall v, obj_get updateData path = Some v -> plain_value v) ->
  (path_fails (cast_path castA updateData path) = true
   <-> exists v, obj_get updateData path = Some v /\ castA v = CastFail).
Proof.
  intros plain.
  destruct (obj_get updateData path) as [v|] eqn:E.
  - rewrite (cast_path_plain v) by (rewrite ?E; auto). split.
    + intros H. exists v. split; [reflexivity|].
      destruct (castA v); try discriminate. reflexivity.
    + intros (v' & Ev & C). injection Ev as <-. now rewrite C.
  - rewrite cast_path_absent by assumption.
    split; [discriminate | intros (v & Ev & _); discriminate].
Qed.

(** A path set to a value carries the cast of the value the update
    document gives to it. *)
Lemma cast_path_value (a : A) :
  cast_path castA updateData path = PathValue a ->
  exists v, obj_get updateData path = Some v /\ castA v = CastOk a.
Proof.
  unfold cast_path. destruct (obj_get updateData path) as [v|]; [|discriminate].
  intros H. exists v. split; [reflexivity|].
  destruct v; try discriminate; destruct (castA _); try discriminate;
    now injection H as <-.
Qed.

(** What the cast sets a required path to is the merge. *)
Lemma cast_path_merged (old : A) :
  path_modelled false (cast_path castA updateData path) = true ->
  path_fails (cast_path castA updateData path) = false ->
  merged castA updateData path old
         (or_else (path_set (cast_path castA updateData path)) old).
Proof.
  unfold merged, cast_path.
  destruct (obj_get updateData path) as [v|]; [|reflexivity].
  destruct v; try discriminate; destruct (castA _); cbn; intros;
    try discriminate; reflexivity.
Qed.

Lemma cast_path_merged_nullable (old : option A) :
  path_modelled true (cast_path castA updateData path) = true ->
  path_fails (cast_path castA updateData path) = false ->
  merged_nullable castA updateData path old
    (or_else (path_set_nullable (cast_path castA updateData path)) old).
Proof.
  unfold merged_nullable, cast_path.
  destruct (obj_get updateData path) as [v|]; [|reflexivity].
  destruct v; try discriminate; destruct (castA _); cbn; intros;
    try discriminate; reflexivity.
Qed.

End PathCast.

(* ================================================================== *)
(** ** C7: the update of an expense *)

Section Update.

Variable rt : Runtime.

(** The update a cast returns merges as the update document says. *)
Lemma Cost_castUpdate_returned (updateData : jsobject value) (u : CostUpdate) :
  Cost_castUpdate rt updateData = Some (Returned u) ->
  forall now c, cost_merge rt now updateData c (apply_update now u c).
Proof.
  unfold Cost_castUpdate.
  destruct (only_paths cost_paths updateData); [|discriminate].
  destruct (path_modelled false (cast_path (castString rt) updateData
                                           "description")) eqn:Md;
    [|discriminate].
  destruct (path_modelled false (cast_path (castString rt) updateData
                                           "category")) eqn:Mc;
    [|discriminate].
  destruct (path_modelled false (cast_path (castNumber rt) updateData
                                           "userid")) eqn:Mu;
    [|discriminate].
  destruct (path_modelled false (cast_path (castNumber rt) updateData "sum"))
    eqn:Ms; [|discriminate].
  destruct (path_modelled true (cast_path (castDate rt) updateData "date"))
    eqn:Mt; [|discriminate].
  cbn [andb negb].
  destruct (path_fails (cast_path (castString rt) updateData "description"))
    eqn:Fd; [discriminate|].
  destruct (path_fails (cast_path (castString rt) updateData "category"))
    eqn:Fc; [discriminate|].
  destruct (path_fails (cast_path (castNumber rt) updateData "userid"))
    eqn:Fu; [discriminate|].
  destruct (path_fails (cast_path (castNumber rt) updateData "sum"))
    eqn:Fs; [discriminate|].
  destruct (path_fails (cast_path (castDate rt) updateData "date"))
    eqn:Ft; [discriminate|].
  intros H now c. injection H as <-.
  unfold cost_merge, apply_update.
  cbn [cost_id user cost_createdAt cost_updatedAt description category
       userid sum date up_description up_category up_userid up_sum up_date].
  repeat split.
  - now apply cast_path_merged.
  - now apply cast_path_merged.
  - now apply cast_path_merged.
  - now apply cast_path_merged.
  - now apply cast_path_merged_nullable.
Qed.

(** The cast of an update document that is given a meaning: it throws
    when a value does not cast, and returns otherwise. *)
Lemma Cost_castUpdate_outcome (updateData : jsobject value) :
  cost_update_in_model rt updateData ->
  (cost_update_fails rt updateData
   /\ exists e, Cost_castUpdate rt updateData = Some (Threw e))
  \/ (~ cost_update_fails rt updateData
      /\ exists u, Cost_castUpdate rt updateData = Some (Returned u)
                   /\ forall now c,
                        cost_merge rt now updateData c (apply_update now u c)).
Proof.
  intros (Hkeys & Hplain & Hstr & Hnum).
  assert (P : forall path v, obj_get updateData path = Some v -> plain_value v)
    by (intros path v; apply Hplain).
  pose proof (cast_path_modelled (castString rt) updateData "description"
                false (P _)
                (fun _ v => Hstr "description" v (or_introl eq_refl))) as Md.
  pose proof (cast_path_modelled (castString rt) updateData "category"
                false (P _)
                (fun _ v => Hstr "category" v (or_intror (or_introl eq_refl))))
    as Mc.
  pose proof (cast_path_modelled (castNumber rt) updateData "userid"
                false (P _)
                (fun _ v => Hnum "userid" v (or_introl eq_refl))) as Mu.
  pose proof (cast_path_modelled (castNumber rt) updateData "sum"
                false (P _)
                (fun _ v => Hnum "sum" v (or_intror (or_introl eq_refl))))
    as Ms.
  pose proof (cast_path_modelled (castDate rt) updateData "date"
                true (P _) ltac:(discriminate)) as Mt.
  pose proof (cast_path_fails (castString rt) updateData "description" (P _))
    as Fd.
  pose proof (cast_path_fails (castString rt) updateData "category" (P _))
    as Fc.
  pose proof (cast_path_fails (castNumber rt) updateData "userid" (P _)) as Fu.
  pose proof (cast_path_fails (castNumber rt) updateData "sum" (P _)) as Fs.
  pose proof (cast_path_fails (castDate rt) updateData "date" (P _)) as Ft.
  assert (Yes : forall path v,
             obj_get updateData path = Some v ->
             (In path ["description"; "category"] /\ castString rt v = CastFail)
             \/ (In path ["userid"; "sum"] /\ castNumber rt v = CastFail)
             \/ (path = "date" /\ castDate rt v = CastFail) ->
             cost_update_fails rt updateData)
    by (intros path v E H; exists path, v; auto).
  destruct (Cost_castUpdate rt updateData) as [[u|e]|] eqn:C.
  - right. split; [|eauto using Cost_castUpdate_returned].
    unfold Cost_castUpdate in C.
    rewrite (only_paths_all _ _ Hkeys), Md, Mc, Mu, Ms, Mt in C.
    cbn [andb negb] in C.
    destruct (path_fails (cast_path (castString rt) updateData "description"));
      [discriminate|].
    destruct (path_fails (cast_path (castString rt) updateData "category"));
      [discriminate|].
    destruct (path_fails (cast_path (castNumber rt) updateData "userid"));
      [discriminate|].
    destruct (path_fails (cast_path (castNumber rt) updateData "sum"));
      [discriminate|].
    destruct (path_fails (cast_path (castDate rt) updateData "date"));
      [discriminate|].
    intros (path & v & E & [[Hp F] | [[Hp F] | [Hp F]]]).
    + destruct Hp as [<- | [<- | []]].
      * assert (X : false = true) by (apply Fd; eauto). discriminate X.
      * assert (X : false = true) by (apply Fc; eauto). discriminate X.
    + destruct Hp as [<- | [<- | []]].
      * assert (X : false = true) by (apply Fu; eauto). discriminate X.
      * assert (X : false = true) by (apply Fs; eauto). discriminate X.
    + subst path.
      assert (X : false = true) by (apply Ft; eauto). discriminate X.
  - left. split; [|eauto].
    unfold Cost_castUpdate in C.
    rewrite (only_paths_all _ _ Hkeys), Md, Mc, Mu, Ms, Mt in C.
    cbn [andb negb] in C.
    destruct (path_fails (cast_path (castString rt) updateData "description"));
      [destruct (proj1 Fd eq_refl) as (v & E & F);
       apply (Yes _ v E); left; split; [now left | exact F]|].
    destruct (path_fails (cast_path (castString rt) updateData "category"));
      [destruct (proj1 Fc eq_refl) as (v & E & F);
       apply (Yes _ v E); left; split; [right; now left | exact F]|].
    destruct (path_fails (cast_path (castNumber rt) updateData "userid"));
      [destruct (proj1 Fu eq_refl) as (v & E & F);
       apply (Yes _ v E); right; left; split; [now left | exact F]|].
    destruct (path_fails (cast_path (castNumber rt) updateData "sum"));
      [destruct (proj1 Fs eq_refl) as (v & E & F);
       apply (Yes _ v E); right; left; split; [right; now left | exact F]|].
    destruct (path_fails (cast_path (castDate rt) updateData "date"));
      [destruct (proj1 Ft eq_refl) as (v & E & F);
       apply (Yes _ v E); right; right; split; [reflexivity | exact F]|].
    discriminate C.
  - exfalso. unfold Cost_castUpdate in C.
    rewrite (only_paths_all _ _ Hkeys), Md, Mc, Mu, Ms, Mt in C.
    cbn [andb negb] in C.
    repeat match type of C with
           | (if ?b then _ else _) = _ => destruct b; try discriminate C
           end.
Qed.





(** A collection either has no document with the identifier or splits at
    the first one. *)
Lemma first_with_id_cases (cs : list CostDoc) (oid : ObjectId) :
  (forall c, In c cs -> cost_id c <> oid)
  \/ exists before c after, first_with_id cs oid before c after.
Proof.
  induction cs as [|c rest IH].
  - left. intros c [].
  - destruct (N.eq_dec (cost_id c) oid) as [E | E].
    + right. exists [], c, rest. repeat split; [assumption | intros k []].
    + destruct IH as [Hn | (before & c' & after & -> & Hc & Hb)].
      * left. intros k [<- | Hin]; auto.
      * right. exists (c :: before), c', after. repeat split; [assumption|].
        intros k [<- | Hin]; auto.
Qed.

(** The store after [updateCost]: as it was, or with one document
    replaced by its merge. *)
Lemma updateCost_store (db : DB) (now : Z) (costId : string)
    (updateData : jsobject value) (r : DB * reply CostDoc) :
  updateCost rt db now costId updateData = Some r ->
  fst r = db
  \/ exists oid u,
       Cost_castUpdate rt updateData = Some (Returned u)
       /\ fst r = {| users := users db;
                     costs := fst (update_first oid (apply_update now u)
                                                (costs db)) |}.
Proof.
  unfold updateCost, Cost_findByIdAndUpdate.
  destruct (Cost_castUpdate rt updateData) as [[u|e]|]; [| |discriminate].
  - destruct (ParseObjectId rt costId) as [oid|];
      [|intros H; injection H as <-; now left].
    cbn [bind].
    destruct (update_first oid _ (costs db)) as [cs' [c|]] eqn:E;
      intros H; injection H as <-; [|now left].
    right. exists oid, u. split; [reflexivity|]. cbn [fst].
    change cs' with (fst (cs', Some c)). now rewrite <- E.
  - destruct (ParseObjectId rt costId); intros H; injection H as <-; now left.
Qed.

(** [updateCost] answers every update document that is given a meaning. *)
Lemma updateCost_defined (db : DB) (now : Z) (costId : string)
    (updateData : jsobject value) :
  cost_update_in_model rt updateData ->
  exists r, updateCost rt db now costId updateData = Some r.
Proof.
  intros Hm. unfold updateCost, Cost_findByIdAndUpdate.
  destruct (Cost_castUpdate_outcome updateData Hm)
    as [(_ & e & ->) | (_ & u & -> & _)];
    destruct (ParseObjectId rt costId) as [oid|]; cbn [bind]; eauto.
  destruct (update_first oid (apply_update now u) (costs db)) as [cs' [c'|]];
    eauto.
Qed.

End Update.




(* ================================================================== *)
(** ** C8: what a creation answers *)

Section Creation.

Variable rt : Runtime.

(** A save that returns has appended the document it returns. *)
Lemma Cost_save_appends (cs cs' : list CostDoc) (now : Z) (oid : ObjectId)
    (f : NewCost) (saved : CostDoc) :
  Cost_save rt cs now oid f = Returned (cs', saved) ->
  cs' = (cs ++ [saved])%list
  /\ cost_id saved = oid /\ user saved = nc_user f
  /\ optional "date" (castDate rt (nc_date f)) = Returned (date saved).
Proof.
  unfold Cost_save, bind.
  destruct (required_string "description" _) as [d|e]; [|discriminate].
  destruct (required_string "category" _) as [c|e]; [|discriminate].
  destruct (required "userid" _) as [u|e]; [|discriminate].
  destruct (required "sum" _) as [s|e]; [|discriminate].
  destruct (optional "date" _) as [dt|e]; [|discriminate].
  destruct (negb (in_enum c)); [discriminate|].
  destruct (existsb _ cs); [discriminate|].
  intros H. injection H as <- <-. auto.
Qed.

(** The reply of a creation that went through, in terms of the saved
    document. *)
Lemma createCost_data (db db' : DB) (now : Z) (oid : ObjectId)
    (costData : CostData) (status : Z) (payload : jsobject value) :
  createCost rt db now oid costData = (db', Data status payload) ->
  exists savedCost,
    status = 201
    /\ costs db' = (costs db ++ [savedCost])%list
    /\ users db' = users db
    /\ payload = [("description", VString (description savedCost));
                  ("category", VString (category savedCost));
                  ("userid", VNumber (userid savedCost));
                  ("sum", VNumber (sum savedCost));
                  ("date", date_value (date savedCost))]
    /\ optional "date"
         (castDate rt (js_or (cd_date costData) (VNumber (ofZ now))))
       = Returned (date savedCost).
Proof.
  unfold createCost.
  destruct (User_findOne rt (users db) (cd_userid costData)) as [[u|]|e];
    try discriminate.
  destruct (Cost_save rt _ _ _ _) as [[cs' saved]|e] eqn:S; [|discriminate].
  intros H. injection H as <- <- <-.
  apply Cost_save_appends in S. destruct S as (-> & _ & _ & Hd).
  exists saved. repeat split. exact Hd.
Qed.

(** A creation goes through for an input the validator accepts, a user
    that exists, a date that casts and a fresh identifier. *)
Lemma createCost_succeeds (db : DB) (now : Z) (oid : ObjectId)
    (costData : CostData) (n : number) (u : UserDoc) :
  validateCostInput (cd_description costData) (cd_category costData)
                    (cd_userid costData) (cd_sum costData) = None ->
  cd_userid costData = VNumber n -> In u (users db) -> id u = n ->
  castDate rt (js_or (cd_date costData) (VNumber (ofZ now))) <> CastFail ->
  (forall c, In c (costs db) -> cost_id c <> oid) ->
  exists db' payload,
    createCost rt db now oid costData = (db', Data 201 payload).
Proof.
  intros Hv Hu Hin Hid Hd Hfresh.
  apply validateCostInput_accepts in Hv.
  destruct Hv as ((d & Ed & ch & Hch & _) & (c & Ec & Hc)
                  & (n' & En & Hn) & (s & Es & Hs)).
  rewrite Hu in En. injection En as <-.
  unfold createCost.
  assert (Hcast : castNumber rt (cd_userid costData) = CastOk n)
    by (rewrite Hu; apply castNumber_number; now apply positive_not_nan).
  destruct (User_findOne_some rt (users db) _ n u Hcast Hin Hid)
    as (u' & -> & _).
  unfold Cost_save, bind. cbn [nc_description nc_category nc_userid nc_sum
                                nc_date nc_user].
  rewrite Ed, Ec, Hcast, Es.
  rewrite (castNumber_number rt s (positive_not_nan s Hs)).
  cbn [castString required_string required].
  replace (String.eqb d "") with false
    by (symmetry; apply String.eqb_neq; intros ->; destruct Hch).
  assert (Hin_enum : in_enum c = true).
  { unfold in_enum. apply existsb_exists. exists c.
    split; [exact Hc | apply String.eqb_refl]. }
  replace (String.eqb c "") with false
    by (symmetry; apply String.eqb_neq; intros ->;
        repeat (destruct Hc as [Hc | Hc]; try discriminate); destruct Hc).
  destruct (castDate rt _) as [t| |]; [| |congruence];
    cbn [optional]; rewrite Hin_enum; cbn [negb];
    replace (existsb (fun k => N.eqb (cost_id k) oid) (costs db)) with false;
    eauto;
    symmetry; apply not_true_is_false; rewrite existsb_exists;
    intros (k & Hk & E); apply N.eqb_eq in E; now apply (Hfresh k).
Qed.

End Creation.

(** C8. A creation that goes through answers status 201 with a payload of
    exactly the five fields description, category, userid, sum and date,
    in this order, each read from the saved document, which is the one
    appended to the collection; the payload has neither the identifier of
    the document ([_id]) nor the reference to the user ([user]). *)
Theorem createCost_payload (rt : Runtime) (db db' : DB) (now : Z)
    (oid : ObjectId) (costData : CostData) (status : Z)
    (payload : jsobject value) :
  createCost rt db now oid costData = (db', Data status payload) ->
  status = 201
  /\ exists savedCost,
       costs db' = (costs db ++ [savedCost])%list
       /\ payload = [("description", VString (description savedCost));
                     ("category", VString (category savedCost));
                     ("userid", VNumber (userid savedCost));
                     ("sum", VNumber (sum savedCost));
                     ("date", date_value (date savedCost))]
       /\ Object_keys payload
          = ["description"; "category"; "userid"; "sum"; "date"]
       /\ obj_get payload "_id" = None
       /\ obj_get payload "user" = None.
Proof.
  intros H. apply createCost_data in H.
  destruct H as (saved & -> & Hc & _ & -> & _).
  split; [reflexivity|]. exists saved. repeat split. exact Hc.
Qed.

(** The creation of the scenario of the specification: milk for 8, user
    1001, no date. *)
Lemma createCost_payload_witness :
  let payload :=
    [("description", VString "milk"); ("category", VString "food");
     ("userid", VNumber (ofZ 1001)); ("sum", VNumber (ofZ 8));
     ("date", VDate (Some Sample.noon_jan31_2025))] in
  let saved :=
    {| cost_id := 64%N; description := "milk"; category := "food";
       userid := ofZ 1001; user := 1%N; sum := ofZ 8;
       date := Some Sample.noon_jan31_2025;
       cost_createdAt := Sample.noon_jan31_2025;
       cost_updatedAt := Sample.noon_jan31_2025 |} in
  createCost Sample.runtime Sample.db0 Sample.noon_jan31_2025 64%N
             Sample.new_milk
  = ({| users := [Sample.alice];
        costs := [Sample.bread; Sample.milk; saved] |}, Data 201 payload)
  /\ Object_keys payload = ["description"; "category"; "userid"; "sum"; "date"]
  /\ obj_get payload "_id" = None
  /\ obj_get payload "user" = None.
Proof.
  intros payload saved.
  assert (E : createCost Sample.runtime Sample.db0 Sample.noon_jan31_2025 64%N
                Sample.new_milk
              = ({| users := [Sample.alice];
                    costs := [Sample.bread; Sample.milk; saved] |},
                 Data 201 payload)) by reflexivity.
  split; [exact E|].
  destruct (createCost_payload _ _ _ _ _ _ _ _ E)
    as (_ & s & _ & _ & K & I & U).
  auto.
Defined.

(* ================================================================== *)
(** ** C9: strings that read as numbers *)

Lemma ltb_ofZ (a b : Z) : Num.ltb (ofZ a) (ofZ b) = (a <? b).
Proof.
  unfold Num.ltb, ofZ. rewrite !this_ofZ.
  unfold Qcompare, inject_Z. cbn [Qnum Qden].
  rewrite !Z.mul_1_r. unfold Z.ltb. reflexivity.
Qed.

Lemma validate_string_userid (d c s : value) (str : string) :
  validateCostInput d c (VString str) s <> None.
Proof.
  unfold validateCostInput.
  destruct (js_not d || _ || _)%bool; [discriminate|].
  destruct (negb (includes allowedCategories c)); [discriminate|].
  cbn [typeof jstype_eqb negb]. rewrite orb_true_r. discriminate.
Qed.

Lemma validate_string_sum (d c u : value) (str : string) :
  validateCostInput d c u (VString str) <> None.
Proof.
  unfold validateCostInput.
  destruct (js_not d || _ || _)%bool; [discriminate|].
  destruct (negb (includes allowedCategories c)); [discriminate|].
  destruct (js_not u || _ || _)%bool; [discriminate|].
  cbn [typeof jstype_eqb negb]. rewrite orb_true_r. discriminate.
Qed.

Lemma addCost_rejects (rt : Runtime) (db : DB) (now : Z) (oid : ObjectId)
    (body : CostData) :
  validateCostInput (cd_description body) (cd_category body)
                    (cd_userid body) (cd_sum body) <> None ->
  exists msg,
    validateCostInput (cd_description body) (cd_category body)
                      (cd_userid body) (cd_sum body) = Some msg
    /\ addCost rt db now oid body = (db, Error 400 (Text msg)).
Proof.
  intros H. unfold addCost.
  pose proof (proj2 (is_error_validate _ _ _ _) H) as E. rewrite E.
  destruct (validateCostInput _ _ _ _) as [msg|]; [|congruence].
  exists msg. split; reflexivity.
Qed.

(** The three checks of the report handler on strings that read as
    numbers in range. *)
Lemma getMonthlyReport_accepts (rt : Runtime) (db : DB) (now : Z)
    (sid sy sm : string) (y m : Z) :
  sid <> "" -> Num.isNaN (StringToNumber rt sid) = false ->
  sy <> "" -> StringToNumber rt sy = ofZ y ->
  2000 <= y <= YearFromTime (LocalTime rt now) ->
  sm <> "" -> StringToNumber rt sm = ofZ m -> 1 <= m <= 12 ->
  getMonthlyReport rt db now
    {| q_id := VString sid; q_year := VString sy; q_month := VString sm |}
  = fetchMonthlyReport rt db (VString sid) (VString sy) (VString sm).
Proof.
  intros Hid Nid Hy Ny Ry Hm Nm Rm.
  unfold getMonthlyReport, js_not, js_isNaN, js_lt, js_gt, getFullYear.
  cbn [q_id q_year q_month ToBoolean ToNumber].
  rewrite Nid, Ny, Nm. cbn [Num.isNaN ofZ]. fold (ofZ y) (ofZ m).
  unfold Num.gtb. rewrite !ltb_ofZ.
  apply String.eqb_neq in Hid, Hy, Hm. rewrite Hid, Hy, Hm.
  cbn [negb orb].
  replace (y <? 2000) with false by (symmetry; apply Z.ltb_ge; lia).
  replace (YearFromTime (LocalTime rt now) <? y) with false
    by (symmetry; apply Z.ltb_ge; lia).
  replace (m <? 1) with false by (symmetry; apply Z.ltb_ge; lia).
  replace (12 <? m) with false by (symmetry; apply Z.ltb_ge; lia).
  reflexivity.
Qed.

(** C9. The validator asks for [userid] and [sum] of type number: when
    one of them is a string, whatever it reads as, the validator returns a
    message and [addCost] answers 400 with it, the store untouched. The
    report handler, which checks its parameters through the numeric
    conversion, lets strings that read as numbers in range through to the
    report. *)
Theorem numeric_strings_rejected_at_creation :
  (forall d c u s, is_string u \/ is_string s ->
     exists msg, validateCostInput d c u s = Some msg)
  /\ (forall rt db now oid body,
        is_string (cd_userid body) \/ is_string (cd_sum body) ->
        exists msg, addCost rt db now oid body = (db, Error 400 (Text msg)))
  /\ (forall rt db now sid sy sm y m,
        sid <> "" -> Num.isNaN (StringToNumber rt sid) = false ->
        sy <> "" -> StringToNumber rt sy = ofZ y ->
        2000 <= y <= YearFromTime (LocalTime rt now) ->
        sm <> "" -> StringToNumber rt sm = ofZ m -> 1 <= m <= 12 ->
        getMonthlyReport rt db now
          {| q_id := VString sid; q_year := VString sy; q_month := VString sm |}
        = fetchMonthlyReport rt db (VString sid) (VString sy) (VString sm)).
Proof.
  assert (V : forall d c u s, is_string u \/ is_string s ->
                validateCostInput d c u s <> None).
  { intros d c u s [[str ->] | [str ->]];
      [apply validate_string_userid | apply validate_string_sum]. }
  split; [|split].
  - intros d c u s H. specialize (V d c u s H).
    destruct (validateCostInput d c u s) as [msg|]; [eauto | congruence].
  - intros rt db now oid body H.
    destruct (addCost_rejects rt db now oid body (V _ _ _ _ H)) as (msg & _ & E).
    eauto.
  - intros. now apply getMonthlyReport_accepts with (y := y) (m := m).
Qed.

(** The sum "8" gets a message. *)
Lemma numeric_strings_rejected_at_creation_witness :
  exists msg,
    validateCostInput (VString "milk") (VString "food") (VNumber (ofZ 1001))
                      (VString "8") = Some msg.
Proof.
  destruct numeric_strings_rejected_at_creation as (H & _).
  apply H. right. now exists "8".
Defined.

(** The sum "8" is refused at creation; the query id=1001, year=2025,
    month=1 of strings is served. *)
Example string_sum_and_string_query :
  addCost Sample.runtime Sample.db0 Sample.noon_jan31_2025 64%N
    {| cd_description := VString "milk"; cd_category := VString "food";
       cd_userid := VNumber (ofZ 1001); cd_sum := VString "8";
       cd_date := VUndefined |}
  = (Sample.db0, Error 400 (Text "Sum must be a positive number."))
  /\ status_of
       (getMonthlyReport Sample.runtime Sample.db0 Sample.noon_jan31_2025
          {| q_id := VString "1001"; q_year := VString "2025";
             q_month := VString "1" |}) = 200.
Proof. split; reflexivity. Qed.

(* ================================================================== *)
(** ** C10: a falsy date *)

Lemma leb_ofZ (a b : Z) : Num.leb (ofZ a) (ofZ b) = (a <=? b).
Proof.
  change (Num.leb (ofZ a) (ofZ b)) with (negb (Num.ltb (ofZ b) (ofZ a))).
  rewrite ltb_ofZ. symmetry. apply Z.leb_antisym.
Qed.

Lemma castDate_now (rt : Runtime) (now : Z) :
  Z.abs now <= maxTime -> castDate rt (VNumber (ofZ now)) = CastOk now.
Proof.
  intros H. unfold castDate, newDate1. fold (ofZ now).
  change (match ofZ now with
          | Finite q =>
              if (Num.leb (ofZ (- maxTime)) (ofZ now)
                  && Num.leb (ofZ now) (ofZ maxTime))%bool
              then Some (Num.truncate q) else None
          | _ => None
          end)
    with (if (Num.leb (ofZ (- maxTime)) (ofZ now)
              && Num.leb (ofZ now) (ofZ maxTime))%bool
          then Some (Num.truncate (Q2Qc (inject_Z now))) else None).
  rewrite !leb_ofZ, truncate_ofZ.
  replace ((- maxTime <=? now) && (now <=? maxTime))%bool with true;
    [reflexivity|].
  symmetry. apply andb_true_iff. rewrite !Z.leb_le. lia.
Qed.

(** C10. [createCost] replaces every falsy [date] by the current instant:
    with such a date it behaves as with no date at all, and when the
    creation goes through the saved and the answered date are the instant
    of the creation. The values [undefined], [null], [0], the empty string
    and [false] are falsy, so a date given as the timestamp 0 is not
    stored. *)
Theorem falsy_date_is_now (rt : Runtime) (db : DB) (now : Z) (oid : ObjectId)
    (costData : CostData) :
  ToBoolean (cd_date costData) = false ->
  Z.abs now <= maxTime ->
  createCost rt db now oid costData
  = createCost rt db now oid (with_date costData VUndefined)
  /\ (forall db' payload,
        createCost rt db now oid costData = (db', Data 201 payload) ->
        obj_get payload "date" = Some (VDate (Some now))
        /\ exists savedCost,
             costs db' = (costs db ++ [savedCost])%list
             /\ date savedCost = Some now)
  /\ Forall (fun v => ToBoolean v = false)
            [VUndefined; VNull; VNumber (ofZ 0); VString ""; VBoolean false].
Proof.
  intros Hf Hnow. split; [|split].
  - unfold createCost, with_date, js_or. cbn [cd_description cd_category
      cd_userid cd_sum cd_date ToBoolean]. now rewrite Hf.
  - intros db' payload H. apply createCost_data in H.
    destruct H as (saved & _ & Hc & _ & -> & Hd).
    unfold js_or in Hd. rewrite Hf, (castDate_now rt now Hnow) in Hd.
    cbn [optional] in Hd. injection Hd as Hd. rewrite <- Hd.
    split; [reflexivity | eauto].
  - repeat constructor.
Qed.

(** Milk dated with the timestamp 0 is saved with the instant of its
    creation. *)
Lemma falsy_date_is_now_witness :
  let epoch_milk := with_date Sample.new_milk (VNumber (ofZ 0)) in
  let saved :=
    {| cost_id := 64%N; description := "milk"; category := "food";
       userid := ofZ 1001; user := 1%N; sum := ofZ 8;
       date := Some Sample.noon_jan31_2025;
       cost_createdAt := Sample.noon_jan31_2025;
       cost_updatedAt := Sample.noon_jan31_2025 |} in
  exists payload,
    createCost Sample.runtime Sample.db0 Sample.noon_jan31_2025 64%N epoch_milk
    = ({| users := [Sample.alice];
          costs := [Sample.bread; Sample.milk; saved] |}, Data 201 payload)
    /\ obj_get payload "date" = Some (VDate (Some Sample.noon_jan31_2025)).
Proof.
  intros epoch_milk saved. eexists.
  assert (E : createCost Sample.runtime Sample.db0 Sample.noon_jan31_2025 64%N
                epoch_milk
              = ({| users := [Sample.alice];
                    costs := [Sample.bread; Sample.milk; saved] |},
                 Data 201 _)) by reflexivity.
  split; [exact E|].
  assert (F : ToBoolean (cd_date epoch_milk) = false) by reflexivity.
  assert (B : Z.abs Sample.noon_jan31_2025 <= maxTime)
    by (vm_compute; discriminate).
  destruct (falsy_date_is_now Sample.runtime Sample.db0
              Sample.noon_jan31_2025 64%N epoch_milk F B) as (_ & H & _).
  exact (proj1 (H _ _ E)).
Defined.

(** A date that is truthy is stored as given: the timestamp of one day
    after the epoch stays. *)
Example truthy_date_is_kept :
  exists db' payload,
    createCost Sample.runtime Sample.db0 Sample.noon_jan31_2025 64%N
      (with_date Sample.new_milk (VNumber (ofZ 86400000)))
    = (db', Data 201 payload)
    /\ obj_get payload "date" = Some (VDate (Some 86400000)).
Proof. eexists. eexists. split; reflexivity. Qed.

(* ================================================================== *)
(** * Properties beyond the claims *)

From Stdlib Require Import Permutation.

(* ================================================================== *)
(** * Further properties of the cost controller *)

(** ** Deletion *)

Section Deletion.

Variable rt : Runtime.

Lemma delete_first_none (oid : ObjectId) (cs : list CostDoc) :
  (forall c, In c cs -> cost_id c <> oid) <-> snd (delete_first oid cs) = None.
Proof.
  induction cs as [|c rest IH]; simpl.
  - split; [reflexivity | intros _ c []].
  - destruct (N.eqb_spec (cost_id c) oid) as [E | E]; simpl.
    + split; [|discriminate]. intros H. exfalso. apply (H c); auto.
    + destruct (delete_first oid rest) as [rest' r]; simpl in *.
      rewrite <- IH. split.
      * intros H c' Hin. apply H. now right.
      * intros H c' [<- | Hin]; auto.
Qed.

Lemma delete_first_some (oid : ObjectId) (cs before after : list CostDoc)
    (c : CostDoc) :
  first_with_id cs oid before c after ->
  delete_first oid cs = ((before ++ after)%list, Some c).
Proof.
  intros (-> & Hc & Hb). induction before as [|b before IH]; simpl.
  - apply N.eqb_eq in Hc. now rewrite Hc.
  - destruct (N.eqb_spec (cost_id b) oid) as [E | _].
    + exfalso. apply (Hb b); [now left | assumption].
    + rewrite IH; [reflexivity|]. intros k Hk. apply Hb. now right.
Qed.

Lemma deleteCost_not_found (db : DB) (costId : string) (oid : ObjectId) :
  ParseObjectId rt costId = Some oid ->
  (forall c, In c (costs db) -> cost_id c <> oid) ->
  deleteCost rt db costId = (db, Error 404 (Text msg_cost_not_found)).
Proof.
  intros H Hn. unfold deleteCost, Cost_findByIdAndDelete. rewrite H.
  apply (delete_first_none oid) in Hn.
  destruct (delete_first oid (costs db)) as [cs' r]. simpl in Hn.
  now subst r.
Qed.

Lemma deleteCost_found (db : DB) (costId : string) (oid : ObjectId)
    (before after : list CostDoc) (c : CostDoc) :
  ParseObjectId rt costId = Some oid ->
  first_with_id (costs db) oid before c after ->
  deleteCost rt db costId
  = ({| users := users db; costs := (before ++ after)%list |},
     Message 200 msg_cost_deleted).
Proof.
  intros H Hf. unfold deleteCost, Cost_findByIdAndDelete. rewrite H.
  now rewrite (delete_first_some oid _ before after c Hf).
Qed.

End Deletion.

(** X1. [deleteCost] on an identifier that is no storage identifier
    answers 500 with the cast error of the store. On a well-formed
    identifier it removes the first expense that carries it, keeps every
    other expense in place and answers 200 "Cost deleted successfully.";
    it answers 404 "Cost not found." exactly when no expense carries the
    identifier. The store is unchanged on 500 and 404, and the users are
    never touched. *)
Theorem deleteCost_removes_first (rt : Runtime) (db : DB) (costId : string) :
  (ParseObjectId rt costId = None ->
     deleteCost rt db costId = (db, Error 500 (MessageOf (CastError "_id"))))
  /\ forall oid, ParseObjectId rt costId = Some oid ->
     ((forall c, In c (costs db) -> cost_id c <> oid) ->
        deleteCost rt db costId = (db, Error 404 (Text "Cost not found.")))
     /\ (forall before c after,
           first_with_id (costs db) oid before c after ->
           deleteCost rt db costId
           = ({| users := users db; costs := (before ++ after)%list |},
              Message 200 "Cost deleted successfully."))
     /\ (status_of (snd (deleteCost rt db costId)) = 404
         <-> forall c, In c (costs db) -> cost_id c <> oid).
Proof.
  split.
  { intros H. unfold deleteCost, Cost_findByIdAndDelete. now rewrite H. }
  intros oid H. split; [now apply deleteCost_not_found with (oid := oid)|].
  split; [intros; now apply deleteCost_found with (oid := oid) (c := c)|].
  split.
  - destruct (first_with_id_cases (costs db) oid)
      as [Hn | (before & c & after & Hf)]; [auto|].
    rewrite (deleteCost_found rt db costId oid before after c H Hf).
    discriminate.
  - intros Hn. now rewrite (deleteCost_not_found rt db costId oid).
Qed.

(** The bread of the sample store is deleted, the milk stays; "abc" is
    answered 500. *)
Lemma deleteCost_removes_first_witness :
  deleteCost Sample.runtime Sample.db0 Sample2.bread_id
  = ({| users := [Sample.alice]; costs := [Sample.milk] |},
     Message 200 "Cost deleted successfully.")
  /\ deleteCost Sample.runtime Sample.db0 "abc"
     = (Sample.db0, Error 500 (MessageOf (CastError "_id"))).
Proof.
  split.
  - destruct (deleteCost_removes_first Sample.runtime Sample.db0
                Sample2.bread_id) as (_ & H).
    destruct (H 17%N eq_refl) as (_ & Hfound & _).
    apply (Hfound [] Sample.bread [Sample.milk]).
    repeat split. intros k [].
  - destruct (deleteCost_removes_first Sample.runtime Sample.db0 "abc")
      as (H & _).
    apply H. reflexivity.
Defined.

(* ================================================================== *)
(** ** Creation and the store *)

Section CreationFacts.

Variable rt : Runtime.

(** What a save that returns has checked and stored. *)
Lemma Cost_save_checked (cs cs' : list CostDoc) (now : Z) (oid : ObjectId)
    (f : NewCost) (saved : CostDoc) :
  Cost_save rt cs now oid f = Returned (cs', saved) ->
  castString rt (nc_description f) = CastOk (description saved)
  /\ description saved <> ""
  /\ castString rt (nc_category f) = CastOk (category saved)
  /\ In (category saved) categories
  /\ castNumber rt (nc_userid f) = CastOk (userid saved)
  /\ castNumber rt (nc_sum f) = CastOk (sum saved)
  /\ (forall c, In c cs -> cost_id c <> oid)
  /\ cost_createdAt saved = now /\ cost_updatedAt saved = now.
Proof.
  unfold Cost_save, bind, required_string, required.
  destruct (castString rt (nc_description f)) as [d| |]; try discriminate.
  destruct (String.eqb_spec d ""); [discriminate|].
  destruct (castString rt (nc_category f)) as [c| |]; try discriminate.
  destruct (String.eqb c ""); [discriminate|].
  destruct (castNumber rt (nc_userid f)) as [u| |]; try discriminate.
  destruct (castNumber rt (nc_sum f)) as [s| |]; try discriminate.
  destruct (optional "date" _) as [dt|e]; [|discriminate].
  destruct (in_enum c) eqn:E; [|discriminate]. cbn [negb].
  destruct (existsb _ cs) eqn:X; [discriminate|].
  intros H. injection H as <- <-. cbn.
  repeat split; try assumption; try reflexivity.
  - unfold in_enum in E. apply existsb_exists in E.
    destruct E as (x & Hin & He). apply String.eqb_eq in He. now subst.
  - intros k Hk Hid.
    assert (existsb (fun k => N.eqb (cost_id k) oid) cs = true); [|congruence].
    apply existsb_exists. exists k. split; [assumption | now apply N.eqb_eq].
Qed.

Lemma User_findOne_found (us : list UserDoc) (v : value) (u : UserDoc) :
  User_findOne rt us v = Returned (Some u) ->
  In u us /\ castNumber rt v = CastOk (id u).
Proof.
  unfold User_findOne. destruct (castNumber rt v) as [n| |]; try discriminate.
  intros H. injection H as H. apply find_some in H. destruct H as [Hin He].
  apply Num_eqb_eq in He. subst n. auto.
Qed.

(** The store after a creation that went through. *)
Lemma createCost_saved (db db' : DB) (now : Z) (oid : ObjectId)
    (costData : CostData) (status : Z) (payload : jsobject value) :
  createCost rt db now oid costData = (db', Data status payload) ->
  exists saved u,
    db' = {| users := users db; costs := (costs db ++ [saved])%list |}
    /\ Cost_save rt (costs db) now oid
         {| nc_description := cd_description costData;
            nc_category := cd_category costData;
            nc_userid := cd_userid costData;
            nc_user := user_oid u;
            nc_sum := cd_sum costData;
            nc_date := js_or (cd_date costData) (VNumber (ofZ now)) |}
       = Returned ((costs db ++ [saved])%list, saved)
    /\ User_findOne rt (users db) (cd_userid costData) = Returned (Some u).
Proof.
  unfold createCost.
  destruct (User_findOne rt (users db) (cd_userid costData)) as [[u|]|e];
    try discriminate.
  destruct (Cost_save rt _ _ _ _) as [[cs' saved]|e] eqn:S; [|discriminate].
  intros H. injection H as <- _ _.
  pose proof (Cost_save_appends rt _ _ _ _ _ _ S) as (-> & _).
  exists saved, u. auto.
Qed.

End CreationFacts.

(** X2. Deleting the expense a creation has just saved gives back the
    store the creation started from. *)
Theorem createCost_then_deleteCost (rt : Runtime) (db db' : DB) (now : Z)
    (oid : ObjectId) (costData : CostData) (status : Z)
    (payload : jsobject value) (costId : string) :
  createCost rt db now oid costData = (db', Data status payload) ->
  ParseObjectId rt costId = Some oid ->
  deleteCost rt db' costId = (db, Message 200 "Cost deleted successfully.").
Proof.
  intros Hc Hp. apply createCost_saved in Hc.
  destruct Hc as (saved & u & -> & S & _).
  pose proof (Cost_save_appends rt _ _ _ _ _ _ S) as (_ & Hid & _).
  pose proof (Cost_save_checked rt _ _ _ _ _ _ S)
    as (_ & _ & _ & _ & _ & _ & Hfresh & _).
  rewrite (deleteCost_found rt _ costId oid (costs db) [] saved Hp).
  - cbn [users costs]. rewrite app_nil_r. now destruct db.
  - cbn [costs]. repeat split; assumption.
Qed.

Lemma createCost_then_deleteCost_witness :
  exists db' payload,
    createCost Sample.runtime Sample.db0 Sample.noon_jan31_2025 64%N
               Sample.new_milk = (db', Data 201 payload)
    /\ deleteCost Sample.runtime db' "000000000000000000000040"
       = (Sample.db0, Message 200 "Cost deleted successfully.").
Proof.
  destruct (createCost_succeeds Sample.runtime Sample.db0
              Sample.noon_jan31_2025 64%N Sample.new_milk (ofZ 1001)
              Sample.alice) as (db' & payload & E);
    try reflexivity; try (now left); try discriminate.
  { intros c [<- | [<- | []]]; discriminate. }
  exists db', payload. split; [exact E|].
  apply (createCost_then_deleteCost Sample.runtime Sample.db0 db'
           Sample.noon_jan31_2025 64%N Sample.new_milk 201 payload _ E).
  reflexivity.
Defined.

Section Shape.

Variable rt : Runtime.

Lemma update_first_map {B} (g : CostDoc -> B) (oid : ObjectId)
    (f : CostDoc -> CostDoc) (cs : list CostDoc) :
  (forall c, g (f c) = g c) ->
  map g (fst (update_first oid f cs)) = map g cs.
Proof.
  intros Hg. induction cs as [|c rest IH]; simpl; [reflexivity|].
  destruct (N.eqb (cost_id c) oid); simpl.
  - now rewrite Hg.
  - destruct (update_first oid f rest) as [rest' r]. simpl in *.
    now rewrite IH.
Qed.

Lemma deleteCost_store (db : DB) (costId : string) :
  fst (deleteCost rt db costId) = db
  \/ exists before c after,
       costs db = (before ++ c :: after)%list
       /\ fst (deleteCost rt db costId)
          = {| users := users db; costs := (before ++ after)%list |}.
Proof.
  unfold deleteCost, Cost_findByIdAndDelete.
  destruct (ParseObjectId rt costId) as [oid|]; [|now left].
  destruct (first_with_id_cases (costs db) oid)
    as [Hn | (before & c & after & Hf)].
  - apply (delete_first_none oid) in Hn.
    destruct (delete_first oid (costs db)) as [cs' r]. simpl in Hn. subst r.
    now left.
  - rewrite (delete_first_some oid _ before after c Hf).
    right. exists before, c, after. split; [apply Hf | reflexivity].
Qed.

Lemma createCost_store (db : DB) (now : Z) (oid : ObjectId)
    (costData : CostData) :
  fst (createCost rt db now oid costData) = db
  \/ exists saved,
       cost_id saved = oid
       /\ (forall c, In c (costs db) -> cost_id c <> oid)
       /\ In (category saved) categories
       /\ fst (createCost rt db now oid costData)
          = {| users := users db; costs := (costs db ++ [saved])%list |}.
Proof.
  destruct (createCost rt db now oid costData) as [db' [s p|s e|s m]] eqn:E;
    try (left; eapply createCost_failure_keeps_store;
         [exact E | intros; discriminate]).
  right. apply createCost_saved in E. destruct E as (saved & u & -> & S & _).
  pose proof (Cost_save_appends rt _ _ _ _ _ _ S) as (_ & Hid & _).
  pose proof (Cost_save_checked rt _ _ _ _ _ _ S)
    as (_ & _ & _ & Hcat & _ & _ & Hfresh & _).
  exists saved. auto.
Qed.

End Shape.

(** X3. No operation on expenses makes two expenses share a storage
    identifier: when the identifiers of the collection are pairwise
    distinct, they are so after [createCost], after [updateCost] and after
    [deleteCost], whatever the reply; and [updateCost] answers every
    update document that is given a meaning. *)
Theorem cost_ids_stay_unique (rt : Runtime) (db : DB) (now : Z)
    (oid : ObjectId) (costData : CostData) (costId : string)
    (updateData : jsobject value) :
  unique_cost_ids db ->
  unique_cost_ids (fst (createCost rt db now oid costData))
  /\ (forall r, updateCost rt db now costId updateData = Some r ->
        unique_cost_ids (fst r))
  /\ unique_cost_ids (fst (deleteCost rt db costId))
  /\ (cost_update_in_model rt updateData ->
      exists r, updateCost rt db now costId updateData = Some r).
Proof.
  unfold unique_cost_ids. intros H.
  split; [|split; [|split; [|apply updateCost_defined]]].
  - destruct (createCost_store rt db now oid costData)
      as [-> | (saved & Hid & Hfresh & _ & ->)]; [assumption|].
    cbn [costs]. rewrite map_app. apply NoDup_app; [assumption | |].
    + repeat constructor. intros [].
    + intros a Ha [<- | []]. apply in_map_iff in Ha.
      destruct Ha as (c & Hc & Hin). apply (Hfresh c Hin). congruence.
  - intros r Hr.
    destruct (updateCost_store rt db now costId updateData r Hr)
      as [-> | (k & u & _ & ->)]; [assumption|].
    cbn [costs]. now rewrite update_first_map.
  - destruct (deleteCost_store rt db costId)
      as [-> | (before & c & after & E & ->)]; [assumption|].
    cbn [costs]. rewrite E, map_app in H. cbn [map] in H.
    rewrite map_app. now apply NoDup_remove_1 in H.
Qed.

Lemma cost_ids_stay_unique_witness :
  unique_cost_ids
    (fst (createCost Sample.runtime Sample.db0 Sample.noon_jan31_2025 64%N
            Sample.new_milk))
  /\ exists r,
       updateCost Sample.runtime Sample.db0 5 Sample.milk_id
                  Sample.travel_update = Some r
       /\ unique_cost_ids (fst r).
Proof.
  assert (U : unique_cost_ids Sample.db0).
  { unfold unique_cost_ids. cbn. repeat constructor; cbn; intuition discriminate. }
  destruct (cost_ids_stay_unique Sample.runtime Sample.db0
              Sample.noon_jan31_2025 64%N Sample.new_milk "abc"
              Sample.no_update U) as (Hc & _).
  split; [exact Hc|].
  eexists. split; [reflexivity|].
  exact (proj1 (proj2 (cost_ids_stay_unique Sample.runtime Sample.db0 5 64%N
                         Sample.new_milk Sample.milk_id Sample.travel_update
                         U)) _ eq_refl).
Defined.

(** X5. Every expense [createCost] saves belongs to a user of the
    collection: its [userid] is the number of that user and its [user] is
    the storage identifier of the same user. It carries one of the five
    categories and a description that is not empty, even when the caller
    has not run the validator. *)
Theorem createCost_links_existing_user (rt : Runtime) (db db' : DB) (now : Z)
    (oid : ObjectId) (costData : CostData) (status : Z)
    (payload : jsobject value) :
  createCost rt db now oid costData = (db', Data status payload) ->
  exists saved u,
    costs db' = (costs db ++ [saved])%list
    /\ In u (users db)
    /\ userid saved = id u
    /\ user saved = user_oid u
    /\ cost_id saved = oid
    /\ In (category saved) categories
    /\ description saved <> "".
Proof.
  intros H. apply createCost_saved in H.
  destruct H as (saved & u & -> & S & F).
  pose proof (Cost_save_appends rt _ _ _ _ _ _ S) as (_ & Hid & Hu & _).
  pose proof (Cost_save_checked rt _ _ _ _ _ _ S)
    as (_ & Hd & _ & Hc & Hn & _).
  apply User_findOne_found in F. destruct F as [Hin Hcast].
  cbn [nc_userid nc_user] in *. rewrite Hcast in Hn. injection Hn as Hn.
  exists saved, u. repeat split; auto.
Qed.

Lemma createCost_links_existing_user_witness :
  exists db' payload saved,
    createCost Sample.runtime Sample.db0 Sample.noon_jan31_2025 64%N
               Sample.new_milk = (db', Data 201 payload)
    /\ costs db' = (costs Sample.db0 ++ [saved])%list
    /\ user saved = 1%N.
Proof.
  destruct (createCost_succeeds Sample.runtime Sample.db0
              Sample.noon_jan31_2025 64%N Sample.new_milk (ofZ 1001)
              Sample.alice) as (db' & payload & E);
    try reflexivity; try (now left); try discriminate.
  { intros c [<- | [<- | []]]; discriminate. }
  destruct (createCost_links_existing_user _ _ _ _ _ _ _ _ E)
    as (saved & u & Hc & Hin & _ & Hu & _).
  exists db', payload, saved. repeat split; try assumption.
  destruct Hin as [<- | []]. exact Hu.
Defined.

(** X6. Every expense the handler [addCost] saves is the body as given: a
    description that is a string with a character that is no white space,
    one of the five categories, and a [userid] and a [sum] that are
    positive numbers, stored without conversion. *)
Theorem addCost_saves_valid_expense (rt : Runtime) (db db' : DB) (now : Z)
    (oid : ObjectId) (body : CostData) (status : Z)
    (payload : jsobject value) :
  addCost rt db now oid body = (db', Data status payload) ->
  exists saved,
    costs db' = (costs db ++ [saved])%list
    /\ cd_description body = VString (description saved)
    /\ cd_category body = VString (category saved)
    /\ cd_userid body = VNumber (userid saved)
    /\ cd_sum body = VNumber (sum saved)
    /\ valid_description (VString (description saved))
    /\ In (category saved) categories
    /\ Num.positive (userid saved)
    /\ Num.positive (sum saved).
Proof.
  unfold addCost.
  destruct (is_error _) eqn:Ev; [discriminate|].
  assert (Hv : validateCostInput (cd_description body) (cd_category body)
                 (cd_userid body) (cd_sum body) = None).
  { destruct (validateCostInput _ _ _ _) eqn:V; [|reflexivity].
    assert (is_error (Some s) = true)
      by (rewrite <- V; apply is_error_validate; congruence).
    congruence. }
  apply validateCostInput_accepts in Hv.
  destruct Hv as (Hd & (c & Ec & Hc) & (u & Eu & Hu) & (s & Es & Hs)).
  intros H. apply createCost_saved in H.
  destruct H as (saved & usr & -> & S & _).
  pose proof (Cost_save_checked rt _ _ _ _ _ _ S)
    as (Cd & _ & Cc & _ & Cu & Cs & _).
  cbn [nc_description nc_category nc_userid nc_sum] in *.
  destruct Hd as (d & Ed & Hd).
  rewrite Ed in Cd. rewrite Ec in Cc. rewrite Eu in Cu. rewrite Es in Cs.
  rewrite (castNumber_number rt u (positive_not_nan u Hu)) in Cu.
  rewrite (castNumber_number rt s (positive_not_nan s Hs)) in Cs.
  cbn in Cd, Cc. injection Cd as Cd. injection Cc as Cc.
  injection Cu as Cu. injection Cs as Cs. subst d c u s.
  exists saved. repeat split; auto. exists (description saved). auto.
Qed.

Lemma addCost_saves_valid_expense_witness :
  exists db' payload saved,
    addCost Sample.runtime Sample.db0 Sample.noon_jan31_2025 64%N
            Sample.new_milk = (db', Data 201 payload)
    /\ costs db' = (costs Sample.db0 ++ [saved])%list
    /\ Num.positive (sum saved).
Proof.
  assert (E : exists db' payload,
             addCost Sample.runtime Sample.db0 Sample.noon_jan31_2025 64%N
                     Sample.new_milk = (db', Data 201 payload)).
  { change (addCost Sample.runtime Sample.db0 Sample.noon_jan31_2025 64%N
              Sample.new_milk)
      with (createCost Sample.runtime Sample.db0 Sample.noon_jan31_2025 64%N
              Sample.new_milk).
    apply (createCost_succeeds Sample.runtime Sample.db0
             Sample.noon_jan31_2025 64%N Sample.new_milk (ofZ 1001)
             Sample.alice);
      try reflexivity; try (now left); try discriminate.
    intros c [<- | [<- | []]]; discriminate. }
  destruct E as (db' & payload & E).
  destruct (addCost_saves_valid_expense _ _ _ _ _ _ _ _ E)
    as (saved & Hc & _ & _ & _ & _ & _ & _ & _ & Hs).
  exists db', payload, saved. auto.
Defined.

(* ================================================================== *)
(** ** Expenses and the lifetime total *)

Section Totals.

Variable rt : Runtime.

Lemma lifetimeTotal_same (db db' : DB) (n : number) :
  costs_of_user db' n = costs_of_user db n ->
  lifetimeTotal rt db' n = lifetimeTotal rt db n.
Proof. intros H. now rewrite !lifetimeTotal_eq, H. Qed.

(** One more number at the end of numbers that add up without rounding:
    the sum is the sum so far plus the number, in the arithmetic of the
    language too. *)
Lemma sum_of_snoc_exact (l : list number) (x : number) :
  adds_exactly (l ++ [x]) ->
  adds_exactly l /\ sum_of (l ++ [x]) = Num.add (sum_of l) x.
Proof.
  intros H. destruct (adds_exactly_app l [x] _ H) as (Hl & Hx).
  split; [exact Hl|].
  destruct (adds_exactly_total l _ Hl) as (t & Et & _).
  specialize (Hx t Et). rewrite Qcplus_0_l in Hx.
  destruct x as [| |q]; [destruct Hx | destruct Hx |].
  destruct Hx as (_ & Hd & _).
  rewrite sum_of_app, Et.
  change (sum_of [Finite q]) with (Num.exact_add (Finite q) (ofZ 0)).
  rewrite exact_add_0_r. unfold Num.add. cbn [Num.exact_add].
  symmetry. now apply round64_exact.
Qed.

(** A number taken out of numbers that add up without rounding. *)
Lemma sum_of_remove_exact (l1 l2 : list number) (x : number) :
  adds_exactly (l1 ++ x :: l2) -> adds_exactly (l1 ++ l2) ->
  sum_of (l1 ++ x :: l2) = Num.add x (sum_of (l1 ++ l2)).
Proof.
  intros H H'.
  destruct (adds_exactly_total _ _ H) as (t & Et & Dt).
  destruct (adds_exactly_total _ _ H') as (t' & Et' & _).
  destruct (adds_exactly_app l1 (x :: l2) _ H) as (Hl & Hx).
  destruct (adds_exactly_total l1 _ Hl) as (t1 & Et1 & _).
  specialize (Hx t1 Et1).
  destruct x as [| |q]; [destruct Hx | destruct Hx |].
  assert (E : sum_of (l1 ++ Finite q :: l2)
              = Num.exact_add (Finite q) (sum_of (l1 ++ l2))).
  { rewrite !sum_of_app.
    change (sum_of (Finite q :: l2))
      with (Num.exact_add (Finite q) (sum_of l2)).
    rewrite <- !exact_add_assoc. f_equal. apply exact_add_comm. }
  rewrite E, Et'. unfold Num.add. cbn [Num.exact_add].
  symmetry. apply round64_exact.
  rewrite Et, Et' in E. cbn [Num.exact_add] in E. injection E as <-.
  rewrite <- (Qcplus_0_l t). apply Dt. now destruct l1.
Qed.

End Totals.

(** X7. A creation that goes through puts the saved sum at the end of the
    numbers the store sums for the user the expense names, and leaves the
    total of every other number as it was. With a store that sums without
    error, and sums that add up without rounding, the new total is the
    total before plus the saved sum. *)
Theorem createCost_adds_to_total (rt : Runtime) (db db' : DB) (now : Z)
    (oid : ObjectId) (costData : CostData) (status : Z)
    (payload : jsobject value) :
  createCost rt db now oid costData = (db', Data status payload) ->
  exists saved,
    costs db' = (costs db ++ [saved])%list
    /\ lifetimeTotal rt db' (userid saved)
       = StoreSum rt (map sum (costs_of_user db (userid saved))
                        ++ [sum saved])%list
    /\ (exact_store_sum rt ->
        adds_exactly (map sum (costs_of_user db (userid saved))
                        ++ [sum saved])%list ->
        lifetimeTotal rt db' (userid saved)
        = Num.add (lifetimeTotal rt db (userid saved)) (sum saved))
    /\ forall n, Num.eqb (userid saved) n = false ->
         lifetimeTotal rt db' n = lifetimeTotal rt db n.
Proof.
  intros H. apply createCost_saved in H.
  destruct H as (saved & u & -> & S & _).
  pose proof (Cost_save_checked rt _ _ _ _ _ _ S)
    as (_ & _ & _ & _ & Cu & _).
  apply castNumber_not_nan in Cu.
  exists saved. split; [reflexivity|].
  assert (E : costs_of_user
                {| users := users db; costs := (costs db ++ [saved])%list |}
                (userid saved)
              = (costs_of_user db (userid saved) ++ [saved])%list).
  { unfold costs_of_user. cbn [costs]. rewrite filter_app. cbn [filter].
    now rewrite (Num_eqb_refl _ Cu). }
  assert (T : lifetimeTotal rt
                {| users := users db; costs := (costs db ++ [saved])%list |}
                (userid saved)
              = StoreSum rt (map sum (costs_of_user db (userid saved))
                               ++ [sum saved])%list).
  { rewrite lifetimeTotal_some; rewrite E.
    - now rewrite map_app.
    - now destruct (costs_of_user db (userid saved)). }
  split; [exact T|]. split.
  - intros Hs Ha. rewrite T.
    destruct (sum_of_snoc_exact _ _ Ha) as (Hl & Hsum).
    rewrite (lifetimeTotal_exact rt db _ Hs Hl), <- Hsum.
    apply Hs; [now destruct (map sum _) | exact Ha].
  - intros n Hn. apply lifetimeTotal_same.
    unfold costs_of_user. cbn [costs]. rewrite filter_app. cbn [filter].
    rewrite Hn. apply app_nil_r.
Qed.

Lemma createCost_adds_to_total_witness :
  exists db' payload,
    createCost Sample.runtime Sample.db0 Sample.noon_jan31_2025 64%N
               Sample.new_milk = (db', Data 201 payload)
    /\ lifetimeTotal Sample.runtime db' (ofZ 1001)
       = StoreSum Sample.runtime [ofZ 3; ofZ 8; ofZ 8]
    /\ lifetimeTotal Sample.runtime db' (ofZ 7)
       = lifetimeTotal Sample.runtime Sample.db0 (ofZ 7).
Proof.
  destruct (createCost_succeeds Sample.runtime Sample.db0
              Sample.noon_jan31_2025 64%N Sample.new_milk (ofZ 1001)
              Sample.alice) as (db' & payload & E);
    try reflexivity; try (now left); try discriminate.
  { intros c [<- | [<- | []]]; discriminate. }
  exists db', payload. split; [exact E|].
  destruct (createCost_adds_to_total _ _ _ _ _ _ _ _ E)
    as (saved & Hc & Ht & _ & Ho).
  destruct (createCost_saved _ _ _ _ _ _ _ _ E) as (s' & u & Hdb & S & _).
  rewrite Hdb in Hc. cbn [costs] in Hc. apply app_inj_tail in Hc.
  destruct Hc as [_ <-].
  pose proof (Cost_save_checked _ _ _ _ _ _ _ S)
    as (_ & _ & _ & _ & Cu & Cs & _).
  cbn in Cu, Cs. injection Cu as Cu. injection Cs as Cs.
  rewrite <- Cu, <- Cs in Ht. rewrite <- Cu in Ho. split; [exact Ht|].
  apply Ho. reflexivity.
Defined.

(** X8. Deleting an expense takes its sum out of the numbers the store
    sums for its user and leaves the totals of the other numbers as they
    were. With a store that sums without error, and sums that add up
    without rounding before and after, the total before the deletion is
    the deleted sum plus the total after it. *)
Theorem deleteCost_takes_from_total (rt : Runtime) (db : DB) (costId : string)
    (oid : ObjectId) (before after : list CostDoc) (c : CostDoc) :
  ParseObjectId rt costId = Some oid ->
  first_with_id (costs db) oid before c after ->
  Num.isNaN (userid c) = false ->
  let db' := fst (deleteCost rt db costId) in
  (exists l1 l2,
     map sum (costs_of_user db (userid c)) = (l1 ++ sum c :: l2)%list
     /\ map sum (costs_of_user db' (userid c)) = (l1 ++ l2)%list)
  /\ (exact_store_sum rt ->
      adds_exactly (map sum (costs_of_user db (userid c))) ->
      adds_exactly (map sum (costs_of_user db' (userid c))) ->
      lifetimeTotal rt db (userid c)
      = Num.add (sum c) (lifetimeTotal rt db' (userid c)))
  /\ forall n, Num.eqb (userid c) n = false ->
       lifetimeTotal rt db' n = lifetimeTotal rt db n.
Proof.
  intros Hp Hf Hn db'. subst db'.
  rewrite (deleteCost_found rt db costId oid before after c Hp Hf).
  cbn [fst]. destruct Hf as (E & _ & _).
  set (f := fun k : CostDoc => Num.eqb (userid k) (userid c)).
  assert (E1 : map sum (costs_of_user db (userid c))
               = (map sum (filter f before)
                  ++ sum c :: map sum (filter f after))%list).
  { unfold costs_of_user. rewrite E, filter_app. cbn [filter].
    rewrite (Num_eqb_refl _ Hn). now rewrite map_app. }
  assert (E2 : map sum (costs_of_user
                          {| users := users db;
                             costs := (before ++ after)%list |} (userid c))
               = (map sum (filter f before) ++ map sum (filter f after))%list).
  { unfold costs_of_user. cbn [costs]. now rewrite filter_app, map_app. }
  split; [eauto|]. split.
  - intros Hs Ha Ha'.
    rewrite (lifetimeTotal_exact rt db _ Hs Ha).
    rewrite (lifetimeTotal_exact rt _ _ Hs Ha').
    rewrite E1, E2 in *. now apply sum_of_remove_exact.
  - intros n Hne. apply lifetimeTotal_same.
    unfold costs_of_user. cbn [costs]. rewrite E, !filter_app. cbn [filter].
    now rewrite Hne.
Qed.

Lemma deleteCost_takes_from_total_witness :
  lifetimeTotal Sample.runtime Sample.db0 (ofZ 1001)
  = Num.add (ofZ 3)
      (lifetimeTotal Sample.runtime
         (fst (deleteCost Sample.runtime Sample.db0 Sample2.bread_id))
         (ofZ 1001)).
Proof.
  assert (D : forall k : Z, Z.abs k < 2 ^ 53 -> forall q : Qc,
                (this q == inject_Z k * Qpower 2 0)%Q -> is_double q).
  { intros k Hk q Hq. exists k, 0. repeat split; try lia; assumption. }
  assert (Hf : first_with_id (costs Sample.db0) 17%N [] Sample.bread
                 [Sample.milk]) by (repeat split; intros k []).
  destruct (deleteCost_takes_from_total Sample.runtime Sample.db0
              Sample2.bread_id 17%N [] [Sample.milk] Sample.bread
              eq_refl Hf eq_refl) as (_ & H & _).
  apply (H sample_store_sum_exact).
  - change (adds_exactly [ofZ 3; ofZ 8]).
    repeat split; [apply (D 3) | apply (D 3) | apply (D 8) | apply (D 11)];
      try (vm_compute; reflexivity).
  - change (adds_exactly [ofZ 8]).
    repeat split; [apply (D 8) | apply (D 8)]; try (vm_compute; reflexivity).
Defined.

(* ================================================================== *)
(** * Further properties of the monthly report *)

Section MonthContents.

Variable rt : Runtime.
Variables (year month : value) (y m : Z).

Hypothesis year_reads : ToNumber rt year = ofZ y.
Hypothesis month_reads : ToNumber rt month = ofZ m.
Hypothesis month_range : 1 <= m <= 12.
Hypothesis year_range : 100 <= y <= 275000.
Hypothesis zone_range : Z.abs (LocalTZA rt) <= msPerDay.

(** An instant that passes the filter is an instant of the month. *)
Lemma filter_within_month t :
  in_month_filter rt year month t = true ->
  exists d, on_local_day rt t y m d /\ 1 <= d <= days_in_month y m.
Proof.
  rewrite (in_month_filter_eq rt year month y m) by assumption.
  rewrite andb_true_iff, !Z.leb_le. intros [Hs He].
  pose proof (days_in_month_bounds y m) as Hb.
  set (L := LocalTime rt t) in *.
  set (F := MakeDay y (m - 1) 1) in *.
  assert (HL : MakeDay y (m - 1) (days_in_month y m) = F + days_in_month y m - 1)
    by (unfold F, MakeDay; lia).
  rewrite HL in He.
  set (d := L / msPerDay - F + 1).
  assert (Hd : 1 <= d <= days_in_month y m).
  { unfold d, msPerDay in *. Z.to_euclidean_division_equations. lia. }
  assert (HM : MakeDay y (m - 1) d = L / msPerDay)
    by (unfold d, F, MakeDay; lia).
  assert (Ht : L = MakeDate (MakeDay y (m - 1) d) (L mod msPerDay)).
  { rewrite HM. unfold MakeDate, msPerDay.
    Z.to_euclidean_division_equations. lia. }
  exists d. split; [|assumption].
  assert (Hmn : 0 <= m - 1 <= 11) by lia.
  assert (Hdm : 1 <= d <= days_in_month y (m - 1 + 1))
    by (replace (m - 1 + 1) with m by lia; assumption).
  assert (Htod : 0 <= L mod msPerDay < msPerDay)
    by (apply Z.mod_pos_bound; reflexivity).
  pose proof (fields_of_MakeDay y (m - 1) d (L mod msPerDay) Hmn Hdm Htod) as R.
  cbv zeta in R. rewrite <- Ht in R. exact R.
Qed.

(** An instant of a day of the month before the last passes the filter. *)
Lemma days_before_last_pass t d :
  on_local_day rt t y m d -> 1 <= d < days_in_month y m ->
  in_month_filter rt year month t = true.
Proof.
  intros H Hd.
  rewrite (in_month_filter_eq rt year month y m) by assumption.
  destruct (local_day_bounds rt y m zone_range t d H) as (H1 & H2 & H3).
  assert (HF : MakeDay y (m - 1) d = MakeDay y (m - 1) 1 + (d - 1))
    by (unfold MakeDay; lia).
  assert (HL : MakeDay y (m - 1) (days_in_month y m)
               = MakeDay y (m - 1) 1 + (days_in_month y m - 1))
    by (unfold MakeDay; lia).
  rewrite andb_true_iff, !Z.leb_le. rewrite HF in *. rewrite HL.
  unfold msPerDay in *. lia.
Qed.

End MonthContents.

Lemma castNumber_is_ToNumber (rt : Runtime) (v : value) (n : number) :
  castNumber rt v = CastOk n -> n = ToNumber rt v.
Proof.
  unfold castNumber.
  destruct v as [| |b|k|s|tv|[tag|tag]]; try discriminate;
    try (destruct (String.eqb s ""); [discriminate|]);
    match goal with
    | |- context [Num.isNaN ?x] => destruct (Num.isNaN x)
    end; try discriminate; intros H; now injection H as <-.
Qed.

(** X9. The monthly report lists only expenses of the requested month and
    user: every expense the report query fetches carries the requested
    user number and a date that falls, in local time, on a day of the
    requested month of the requested year. *)
Theorem report_lists_only_month_expenses (rt : Runtime) (db : DB)
    (id year month : value) (y m : Z) (c : CostDoc) :
  ToNumber rt year = ofZ y -> ToNumber rt month = ofZ m ->
  1 <= m <= 12 -> 100 <= y <= 275000 -> Z.abs (LocalTZA rt) <= msPerDay ->
  In c (matching_costs rt db id year month) ->
  In c (costs db)
  /\ userid c = ToNumber rt id
  /\ exists t d, date c = Some t /\ on_local_day rt t y m d
                 /\ 1 <= d <= days_in_month y m.
Proof.
  intros Hy Hm Rm Ry Rz Hin. apply matching_costs_iff in Hin.
  destruct Hin as (Hc & _ & Hu & t & Ht & Hf).
  split; [assumption|]. split; [now apply Num_eqb_eq|].
  destruct (filter_within_month rt year month y m Hy Hm Rm Ry Rz t Hf)
    as (d & Hd & Hr).
  eauto.
Qed.

Lemma report_lists_only_month_expenses_witness :
  exists t d,
    date Sample.bread = Some t
    /\ on_local_day Sample.runtime t 2025 1 d /\ 1 <= d <= days_in_month 2025 1.
Proof.
  assert (Hin : In Sample.bread
                  (matching_costs Sample.runtime Sample.db0 (VNumber (ofZ 1001))
                     (VNumber (ofZ 2025)) (VNumber (ofZ 1))))
    by (vm_compute; left; reflexivity).
  assert (Rm : 1 <= 1 <= 12) by lia.
  assert (Ry : 100 <= 2025 <= 275000) by lia.
  assert (Rz : Z.abs (LocalTZA Sample.runtime) <= msPerDay)
    by (vm_compute; discriminate).
  exact (proj2 (proj2 (report_lists_only_month_expenses Sample.runtime
           Sample.db0 (VNumber (ofZ 1001)) (VNumber (ofZ 2025))
           (VNumber (ofZ 1)) 2025 1 Sample.bread eq_refl eq_refl Rm Ry Rz Hin))).
Defined.

(** X10. The monthly report fetches every expense of the user dated, in
    local time, on a day of the requested month before its last day. *)
Theorem report_includes_days_before_last (rt : Runtime) (db : DB)
    (id year month : value) (y m : Z) (c : CostDoc) (t d : Z) :
  ToNumber rt year = ofZ y -> ToNumber rt month = ofZ m ->
  1 <= m <= 12 -> 100 <= y <= 275000 -> Z.abs (LocalTZA rt) <= msPerDay ->
  In c (costs db) -> userid c = ToNumber rt id ->
  Num.isNaN (ToNumber rt id) = false ->
  date c = Some t -> on_local_day rt t y m d -> 1 <= d < days_in_month y m ->
  In c (matching_costs rt db id year month).
Proof.
  intros Hy Hm Rm Ry Rz Hin Hu Hn Hd Hl Hr. apply matching_costs_iff.
  repeat split; try assumption.
  - rewrite Hu. now apply Num_eqb_refl.
  - exists t. split; [assumption|].
    now apply (days_before_last_pass rt year month y m Hy Hm Rm Ry Rz t d).
Qed.

Lemma report_includes_days_before_last_witness :
  In Sample.bread
     (matching_costs Sample.runtime Sample.db0 (VNumber (ofZ 1001))
                     (VNumber (ofZ 2025)) (VNumber (ofZ 1))).
Proof.
  assert (Rm : 1 <= 1 <= 12) by lia.
  assert (Ry : 100 <= 2025 <= 275000) by lia.
  assert (Rz : Z.abs (LocalTZA Sample.runtime) <= msPerDay)
    by (vm_compute; discriminate).
  assert (Hin : In Sample.bread (costs Sample.db0)) by (now left).
  assert (Hl : on_local_day Sample.runtime Sample.noon_jan15_2025 2025 1 15)
    by (repeat split).
  assert (Hd : 1 <= 15 < days_in_month 2025 1) by (vm_compute; intuition discriminate).
  exact (report_includes_days_before_last Sample.runtime Sample.db0
           (VNumber (ofZ 1001)) (VNumber (ofZ 2025)) (VNumber (ofZ 1))
           2025 1 Sample.bread Sample.noon_jan15_2025 15
           eq_refl eq_refl Rm Ry Rz Hin eq_refl eq_refl eq_refl Hl Hd).
Defined.

Section ReportOutcome.

Variable rt : Runtime.

(** The two ways [fetchMonthlyReport] ends once the query has returned. *)
Lemma fetchMonthlyReport_outcome (db : DB) (id year month : value)
    (found : list CostDoc) :
  Cost_find (costs db) (ToNumber rt id) (startDate_of rt year month)
            (endDate_of rt year month) = Returned found ->
  ((forall c, In c found -> In (category c) categories)
   /\ fetchMonthlyReport rt db id year month
      = Data 200 {| report_userid := ToNumber rt id;
                    report_year := ToNumber rt year;
                    report_month := ToNumber rt month;
                    report_costs := costs_shape rt found |})
  \/ ((exists c, In c found /\ ~ In (category c) categories)
      /\ fetchMonthlyReport rt db id year month
         = Error 500 (MessageOf (TypeError "push"))).
Proof.
  intros Q. unfold fetchMonthlyReport. rewrite Q.
  pose proof (push_all_spec rt found init_groups) as S.
  destruct (push_all rt init_groups found) as [g|e] eqn:P.
  - left. destruct S as (_ & Hc & _). split; [exact Hc|].
    now rewrite (push_all_init rt found g P).
  - right. destruct S as (-> & Hex). split; [exact Hex | reflexivity].
Qed.

Lemma matching_costs_returned (db : DB) (id year month : value) (c : CostDoc) :
  In c (matching_costs rt db id year month) ->
  Cost_find (costs db) (ToNumber rt id) (startDate_of rt year month)
            (endDate_of rt year month)
  = Returned (matching_costs rt db id year month).
Proof.
  unfold matching_costs.
  destruct (Cost_find _ _ _ _) as [l|e]; [reflexivity | intros []].
Qed.

(** The number of lines of the five categories is the number of expenses,
    when every expense has one of the five. *)
Lemma lines_count (found : list CostDoc) :
  (forall c, In c found -> In (category c) categories) ->
  List.length (List.concat (map (fun o => List.concat (map snd o))
                                (costs_shape rt found)))
  = List.length found.
Proof.
  intros H. unfold costs_shape, categories. cbn [map List.concat snd].
  rewrite !app_nil_r, !length_app. unfold entries_of. rewrite !length_map.
  induction found as [|c rest IH]; [reflexivity|].
  assert (Hr : forall k, In k rest -> In (category k) categories)
    by (intros k Hk; apply H; now right).
  specialize (IH Hr). cbn [filter].
  destruct (H c (or_introl eq_refl)) as [E | [E | [E | [E | [E | []]]]]];
    rewrite <- E; cbn [String.eqb Ascii.eqb Bool.eqb]; cbn [List.length];
    unfold categories in *; lia.
Qed.

End ReportOutcome.

(** X11. When a fetched expense carries a category that is none of the
    five, which an update can store, the whole monthly report of that
    month is lost: [fetchMonthlyReport] answers 500 with the type error of
    the failed [push] instead of a report. *)
Theorem report_fails_on_foreign_category (rt : Runtime) (db : DB)
    (id year month : value) (c : CostDoc) :
  In c (matching_costs rt db id year month) ->
  ~ In (category c) categories ->
  fetchMonthlyReport rt db id year month
  = Error 500 (MessageOf (TypeError "push")).
Proof.
  intros Hin Hcat.
  pose proof (matching_costs_returned rt db id year month c Hin) as Q.
  destruct (fetchMonthlyReport_outcome rt db id year month _ Q)
    as [[Hall _] | [_ E]]; [|exact E].
  exfalso. apply Hcat. now apply Hall.
Qed.

(** The bread of January moved to the category "travel" by an update: the
    report of January 2025 is answered 500. *)
Lemma report_fails_on_foreign_category_witness :
  let travel_bread :=
    {| cost_id := 17%N; description := ""; category := "travel";
       userid := ofZ 1001; user := 1%N; sum := ofZ (-5);
       date := Some Sample.noon_jan15_2025;
       cost_createdAt := Sample.noon_jan15_2025; cost_updatedAt := 5 |} in
  let db := {| users := [Sample.alice];
               costs := [travel_bread; Sample.milk] |} in
  updateCost Sample.runtime Sample.db0 5 Sample2.bread_id Sample.travel_update
  = Some (db, Data 200 travel_bread)
  /\ fetchMonthlyReport Sample.runtime db (VNumber (ofZ 1001))
                        (VNumber (ofZ 2025)) (VNumber (ofZ 1))
     = Error 500 (MessageOf (TypeError "push")).
Proof.
  intros travel_bread db. split; [reflexivity|].
  apply (report_fails_on_foreign_category Sample.runtime db
           (VNumber (ofZ 1001)) (VNumber (ofZ 2025)) (VNumber (ofZ 1))
           travel_bread).
  - vm_compute. left. reflexivity.
  - vm_compute. intuition discriminate.
Defined.

(** X12. The grouping of the report neither drops nor repeats an expense:
    in a report that is produced, the lines of the five categories are as
    many as the fetched expenses, and the line of each fetched expense
    stands under the category of the expense. *)
Theorem report_lines_are_the_fetched (rt : Runtime) (db : DB)
    (id year month : value) (r : Report) :
  fetchMonthlyReport rt db id year month = Data 200 r ->
  let found := matching_costs rt db id year month in
  List.length (report_lines r) = List.length found
  /\ forall c, In c found ->
       exists lines, In [(category c, lines)] (report_costs r)
                     /\ In (entry_of rt c) lines.
Proof.
  intros H found. subst found.
  assert (Q : exists l, Cost_find (costs db) (ToNumber rt id)
                (startDate_of rt year month) (endDate_of rt year month)
              = Returned l).
  { unfold fetchMonthlyReport in H.
    destruct (Cost_find _ _ _ _) as [l|e]; [eauto | discriminate]. }
  destruct Q as [l Q].
  assert (M : matching_costs rt db id year month = l)
    by (unfold matching_costs; now rewrite Q).
  rewrite M.
  destruct (fetchMonthlyReport_outcome rt db id year month l Q)
    as [[Hall E] | [_ E]]; rewrite E in H; [|discriminate].
  injection H as <-. unfold report_lines. cbn [report_costs].
  split; [now apply lines_count|].
  intros c Hc. exists (entries_of rt (category c) l). split.
  - unfold costs_shape. apply in_map_iff. exists (category c).
    split; [reflexivity | now apply Hall].
  - unfold entries_of. apply in_map. apply filter_In.
    split; [assumption | apply String.eqb_refl].
Qed.

Lemma report_lines_are_the_fetched_witness :
  exists r,
    fetchMonthlyReport Sample.runtime Sample.db0 (VNumber (ofZ 1001))
                       (VNumber (ofZ 2025)) (VNumber (ofZ 1)) = Data 200 r
    /\ List.length (report_lines r) = 1%nat.
Proof.
  eexists. split; [reflexivity|].
  refine (proj1 (report_lines_are_the_fetched Sample.runtime Sample.db0
            (VNumber (ofZ 1001)) (VNumber (ofZ 2025)) (VNumber (ofZ 1))
            _ eq_refl)).
Defined.

(** X13. Creations and deletions keep every expense within the five
    categories, and so does an update whose document names no category or
    gives it a value that casts to one of the five; [updateCost] answers
    every update document that is given a meaning. An update is the only
    operation that can store another category. *)
Theorem categories_stay_valid (rt : Runtime) (db : DB) (now : Z)
    (oid : ObjectId) (costData : CostData) (costId : string)
    (updateData : jsobject value) :
  categories_valid db ->
  categories_valid (fst (createCost rt db now oid costData))
  /\ categories_valid (fst (deleteCost rt db costId))
  /\ (forall r,
        updateCost rt db now costId updateData = Some r ->
        (forall v, obj_get updateData "category" = Some v ->
           exists k, castString rt v = CastOk k /\ In k categories) ->
        categories_valid (fst r))
  /\ (cost_update_in_model rt updateData ->
      exists r, updateCost rt db now costId updateData = Some r).
Proof.
  unfold categories_valid. intros H.
  split; [|split; [|split; [|apply updateCost_defined]]].
  - destruct (createCost_store rt db now oid costData)
      as [-> | (saved & _ & _ & Hcat & ->)]; [assumption|].
    cbn [costs]. intros c Hc. apply in_app_iff in Hc.
    destruct Hc as [Hc | [<- | []]]; auto.
  - destruct (deleteCost_store rt db costId)
      as [-> | (before & c & after & E & ->)]; [assumption|].
    cbn [costs]. intros k Hk. apply H. rewrite E.
    apply in_app_iff in Hk. apply in_app_iff.
    destruct Hk; [now left | right; now right].
  - intros r Hr Hu.
    destruct (updateCost_store rt db now costId updateData r Hr)
      as [-> | (k & u & Hcast & ->)]; [assumption|].
    assert (Hk : forall cat, up_category u = Some cat -> In cat categories).
    { intros cat Hcat. unfold Cost_castUpdate in Hcast.
      repeat match type of Hcast with
             | (if ?b then _ else _) = _ => destruct b; try discriminate
             end.
      injection Hcast as <-. cbn [up_category] in Hcat.
      unfold cast_path in Hcat.
      destruct (obj_get updateData "category") as [v|]; [|discriminate].
      destruct (Hu v eq_refl) as (k' & Ck & Hin).
      destruct v; try discriminate; rewrite Ck in Hcat;
        cbn [path_set] in Hcat; injection Hcat as <-; exact Hin. }
    cbn [costs]. generalize (costs db) H. clear H Hr.
    induction l as [|c rest IH]; intros H x; cbn [update_first fst].
    + intros [].
    + destruct (N.eqb (cost_id c) k); cbn [fst].
      * intros [<- | Hx]; [|apply H; now right].
        unfold apply_update. cbn [category].
        destruct (up_category u) as [cat|] eqn:E; cbn [or_else].
        -- now apply Hk.
        -- apply H. now left.
      * destruct (update_first k _ rest) as [rest' r']. cbn [fst] in *.
        intros [<- | Hx]; [apply H; now left|].
        apply IH; [intros z Hz; apply H; now right | exact Hx].
Qed.

(** The update of the description of the bread keeps the categories
    valid; the update to the category "travel" does not. *)
Lemma categories_stay_valid_witness :
  (exists r,
     updateCost Sample.runtime Sample.db0 5 Sample2.bread_id
                [("description", VString "rye")] = Some r
     /\ categories_valid (fst r))
  /\ exists r,
       updateCost Sample.runtime Sample.db0 5 Sample2.bread_id
                  Sample.travel_update = Some r
       /\ ~ categories_valid (fst r).
Proof.
  assert (H : categories_valid Sample.db0).
  { intros c [<- | [<- | []]]; now left. }
  split.
  - eexists. split; [reflexivity|].
    refine (proj1 (proj2 (proj2 (categories_stay_valid Sample.runtime
                                   Sample.db0 5 64%N Sample.new_milk
                                   Sample2.bread_id
                                   [("description", VString "rye")] H)))
              _ eq_refl _).
    intros v Hv. discriminate Hv.
  - eexists. split; [reflexivity|].
    intros V. specialize (V _ (or_introl eq_refl)).
    vm_compute in V. intuition discriminate.
Defined.

(** The query of the report returns for a number, a year and a month in
    range. *)
Lemma report_query_returns (rt : Runtime) (db : DB)
    (id year month : value) (y m : Z) :
  ToNumber rt year = ofZ y -> ToNumber rt month = ofZ m ->
  1 <= m <= 12 -> 100 <= y <= 275000 -> Z.abs (LocalTZA rt) <= msPerDay ->
  Num.isNaN (ToNumber rt id) = false ->
  Cost_find (costs db) (ToNumber rt id) (startDate_of rt year month)
            (endDate_of rt year month)
  = Returned (matching_costs rt db id year month).
Proof.
  intros Hy Hm Rm Ry Rz Hn. unfold matching_costs, Cost_find. rewrite Hn.
  rewrite (startDate_of_month rt year month y m Hy Hm Rm Ry Rz).
  now rewrite (endDate_of_month rt year month y m Hy Hm Rm Ry Rz).
Qed.

(** The report on a store whose expenses carry the five categories. *)
Lemma fetchMonthlyReport_valid (rt : Runtime) (db : DB)
    (id year month : value) (y m : Z) :
  ToNumber rt year = ofZ y -> ToNumber rt month = ofZ m ->
  1 <= m <= 12 -> 100 <= y <= 275000 -> Z.abs (LocalTZA rt) <= msPerDay ->
  Num.isNaN (ToNumber rt id) = false ->
  categories_valid db ->
  fetchMonthlyReport rt db id year month
  = Data 200 {| report_userid := ToNumber rt id;
                report_year := ofZ y;
                report_month := ofZ m;
                report_costs :=
                  costs_shape rt (matching_costs rt db id year month) |}.
Proof.
  intros Hy Hm Rm Ry Rz Hn Hv.
  pose proof (report_query_returns rt db id year month y m Hy Hm Rm Ry Rz Hn)
    as Q.
  destruct (fetchMonthlyReport_outcome rt db id year month _ Q)
    as [[_ E] | [(c & Hc & Hcat) _]].
  - now rewrite E, Hy, Hm.
  - exfalso. apply Hcat. apply Hv. now apply matching_costs_iff in Hc.
Qed.

(** X14. On a store whose expenses carry the five categories, the monthly
    report of a user number that is a number, a year from 100 to 275000
    and a month from 1 to 12 is always produced: status 200, the three
    request values echoed as numbers, and the five categories holding the
    fetched expenses. *)
Theorem report_on_valid_store (rt : Runtime) (db : DB)
    (id year month : value) (y m : Z) :
  ToNumber rt year = ofZ y -> ToNumber rt month = ofZ m ->
  1 <= m <= 12 -> 100 <= y <= 275000 -> Z.abs (LocalTZA rt) <= msPerDay ->
  Num.isNaN (ToNumber rt id) = false ->
  categories_valid db ->
  fetchMonthlyReport rt db id year month
  = Data 200 {| report_userid := ToNumber rt id;
                report_year := ofZ y;
                report_month := ofZ m;
                report_costs :=
                  costs_shape rt (matching_costs rt db id year month) |}.
Proof.
  intros Hy Hm Rm Ry Rz Hn Hv.
  pose proof (report_query_returns rt db id year month y m Hy Hm Rm Ry Rz Hn)
    as Q.
  destruct (fetchMonthlyReport_outcome rt db id year month _ Q)
    as [[Hall E] | [(c & Hc & Hcat) E]].
  - rewrite E. now rewrite Hy, Hm.
  - exfalso. apply Hcat. apply Hv.
    apply matching_costs_iff in Hc. apply Hc.
Qed.

Lemma report_on_valid_store_witness :
  status_of (fetchMonthlyReport Sample.runtime Sample.db0 (VString "1001")
               (VString "2025") (VString "2")) = 200.
Proof.
  assert (H : categories_valid Sample.db0).
  { intros c [<- | [<- | []]]; now left. }
  assert (Rm : 1 <= 2 <= 12) by lia.
  assert (Ry : 100 <= 2025 <= 275000) by lia.
  assert (Rz : Z.abs (LocalTZA Sample.runtime) <= msPerDay)
    by (vm_compute; discriminate).
  now rewrite (report_on_valid_store Sample.runtime Sample.db0
                 (VString "1001") (VString "2025") (VString "2") 2025 2
                 eq_refl eq_refl Rm Ry Rz eq_refl H).
Defined.

(** X15. An expense created without a date is in the monthly report of
    its user for the month of its creation, as long as the creation does
    not happen on the last day of that month. *)
Theorem created_expense_is_reported (rt : Runtime) (db db' : DB) (now : Z)
    (oid : ObjectId) (costData : CostData) (status : Z)
    (payload : jsobject value) (year month : value) (y m d : Z) :
  createCost rt db now oid costData = (db', Data status payload) ->
  ToBoolean (cd_date costData) = false ->
  Z.abs now <= maxTime ->
  ToNumber rt year = ofZ y -> ToNumber rt month = ofZ m ->
  1 <= m <= 12 -> 100 <= y <= 275000 -> Z.abs (LocalTZA rt) <= msPerDay ->
  on_local_day rt now y m d -> 1 <= d < days_in_month y m ->
  exists saved,
    costs db' = (costs db ++ [saved])%list
    /\ In saved (matching_costs rt db' (cd_userid costData) year month).
Proof.
  intros Hc Hf Hnow Hy Hm Rm Ry Rz Hl Hd.
  pose proof (createCost_data rt _ _ _ _ _ _ _ Hc)
    as (s0 & _ & Hc0 & _ & _ & Hdate).
  apply createCost_saved in Hc. destruct Hc as (saved & u & -> & S & _).
  cbn [costs] in Hc0. apply app_inj_tail in Hc0. destruct Hc0 as [_ <-].
  unfold js_or in Hdate. rewrite Hf, (castDate_now rt now Hnow) in Hdate.
  cbn [optional] in Hdate. injection Hdate as Hdate.
  pose proof (Cost_save_checked rt _ _ _ _ _ _ S)
    as (_ & _ & _ & _ & Cu & _).
  cbn [nc_userid] in Cu.
  pose proof (castNumber_not_nan rt _ _ Cu) as Hnan.
  apply castNumber_is_ToNumber in Cu.
  exists saved. split; [reflexivity|].
  apply matching_costs_iff. cbn [costs]. rewrite <- Cu.
  repeat split.
  - apply in_app_iff. right. now left.
  - assumption.
  - now apply Num_eqb_refl.
  - exists now. split; [now symmetry|].
    now apply (days_before_last_pass rt year month y m Hy Hm Rm Ry Rz now d).
Qed.

Lemma created_expense_is_reported_witness :
  exists db' payload saved,
    createCost Sample.runtime Sample.db0 Sample.noon_jan15_2025 64%N
               Sample.new_milk = (db', Data 201 payload)
    /\ costs db' = (costs Sample.db0 ++ [saved])%list
    /\ In saved (matching_costs Sample.runtime db' (VNumber (ofZ 1001))
                   (VNumber (ofZ 2025)) (VNumber (ofZ 1))).
Proof.
  destruct (createCost_succeeds Sample.runtime Sample.db0
              Sample.noon_jan15_2025 64%N Sample.new_milk (ofZ 1001)
              Sample.alice) as (db' & payload & E);
    try reflexivity; try (now left); try discriminate.
  { intros c [<- | [<- | []]]; discriminate. }
  assert (Rm : 1 <= 1 <= 12) by lia.
  assert (Ry : 100 <= 2025 <= 275000) by lia.
  assert (Rz : Z.abs (LocalTZA Sample.runtime) <= msPerDay)
    by (vm_compute; discriminate).
  assert (Rn : Z.abs Sample.noon_jan15_2025 <= maxTime)
    by (vm_compute; discriminate).
  assert (Hl : on_local_day Sample.runtime Sample.noon_jan15_2025 2025 1 15)
    by (repeat split).
  assert (Hd : 1 <= 15 < days_in_month 2025 1)
    by (vm_compute; intuition discriminate).
  destruct (created_expense_is_reported Sample.runtime Sample.db0 db'
              Sample.noon_jan15_2025 64%N Sample.new_milk 201 payload
              (VNumber (ofZ 2025)) (VNumber (ofZ 1)) 2025 1 15
              E eq_refl Rn eq_refl eq_refl Rm Ry Rz Hl Hd)
    as (saved & Hc & Hin).
  exists db', payload, saved. auto.
Defined.

(* ================================================================== *)
(** * Further properties of the user controller *)

Lemma Num_eqb_false_neq (a b : number) :
  Num.isNaN b = false -> Num.eqb a b = false -> a <> b.
Proof. intros Hb H ->. rewrite Num_eqb_refl in H; [discriminate | assumption]. Qed.

Lemma NoDup_insert {A} (l1 l2 : list A) (a : A) :
  NoDup (l1 ++ l2) -> ~ In a (l1 ++ l2) -> NoDup (l1 ++ a :: l2).
Proof.
  intros H Hn. apply (Permutation_NoDup (Permutation_middle l1 l2 a)).
  now constructor.
Qed.

Section UserFacts.

Variable rt : Runtime.

Lemma split_user_none (n : number) (us : list UserDoc) :
  split_user n us = None <-> forall u, In u us -> Num.eqb (id u) n = false.
Proof.
  induction us as [|u rest IH]; simpl.
  - split; [intros _ u [] | reflexivity].
  - destruct (Num.eqb (id u) n) eqn:E.
    + split; [discriminate|]. intros H. rewrite (H u (or_introl eq_refl)) in E.
      discriminate.
    + destruct (split_user n rest) as [[[b x] a]|].
      * split; [discriminate|]. intros H.
        assert (F : Some (b, x, a) = @None (list UserDoc * UserDoc * list UserDoc))
          by (apply IH; intros; apply H; now right).
        discriminate F.
      * split; [|reflexivity]. intros _ k [<- | Hk]; [assumption|].
        now apply IH.
Qed.

Lemma split_user_some (n : number) (us before after : list UserDoc)
    (x : UserDoc) :
  split_user n us = Some (before, x, after) ->
  us = (before ++ x :: after)%list
  /\ id x = n
  /\ forall u, In u before -> Num.eqb (id u) n = false.
Proof.
  revert before. induction us as [|u rest IH]; intros before; simpl;
    [discriminate|].
  destruct (Num.eqb (id u) n) eqn:E.
  - intros H. injection H as <- <- <-. apply Num_eqb_eq in E.
    repeat split; [assumption | intros k []].
  - destruct (split_user n rest) as [[[b y] a]|]; [|discriminate].
    intros H. injection H as <- <- <-.
    destruct (IH b eq_refl) as (-> & Hid & Hb).
    repeat split; [assumption|]. intros k [<- | Hk]; auto.
Qed.

Lemma find_in_split (n : number) (before after : list UserDoc) (x : UserDoc) :
  (forall u, In u before -> Num.eqb (id u) n = false) ->
  Num.eqb (id x) n = true ->
  find (fun u => Num.eqb (id u) n) (before ++ x :: after) = Some x.
Proof.
  intros Hb Hx. induction before as [|b before IH]; simpl.
  - now rewrite Hx.
  - rewrite (Hb b (or_introl eq_refl)). apply IH. intros u Hu. apply Hb.
    now right.
Qed.

Lemma find_none_all (n : number) (us : list UserDoc) :
  (forall u, In u us -> Num.eqb (id u) n = false) ->
  find (fun u => Num.eqb (id u) n) us = None.
Proof.
  intros H. destruct (find _ us) as [u|] eqn:F; [|reflexivity].
  apply find_some in F. destruct F as [Hin He]. rewrite (H u Hin) in He.
  discriminate.
Qed.

(** What a user save that returns has checked and stored. *)
Lemma User_save_checked (us us' : list UserDoc) (now : Z) (oid : ObjectId)
    (d : UserData) (doc : UserDoc) :
  User_save rt us now oid d = Returned (us', doc) ->
  us' = (us ++ [doc])%list
  /\ castNumber rt (ud_id d) = CastOk (id doc)
  /\ (forall u, In u us -> Num.eqb (id u) (id doc) = false)
  /\ castString rt (ud_first_name d) = CastOk (first_name doc)
  /\ castString rt (ud_last_name d) = CastOk (last_name doc)
  /\ first_name doc <> "" /\ last_name doc <> "" /\ marital_status doc <> ""
  /\ user_oid doc = oid.
Proof.
  unfold User_save, bind, required_string, required.
  destruct (castNumber rt (ud_id d)) as [i| |]; try discriminate.
  destruct (castString rt (ud_first_name d)) as [fn| |]; try discriminate.
  destruct (String.eqb_spec fn ""); [discriminate|].
  destruct (castString rt (ud_last_name d)) as [ln| |]; try discriminate.
  destruct (String.eqb_spec ln ""); [discriminate|].
  destruct (castDate rt (ud_birthday d)) as [bd| |]; try discriminate.
  destruct (castString rt (ud_marital_status d)) as [ms| |]; try discriminate.
  destruct (String.eqb_spec ms ""); [discriminate|].
  destruct (existsb (fun u => Num.eqb (id u) i) us) eqn:X; [discriminate|].
  destruct (existsb (fun u => N.eqb (user_oid u) oid) us); [discriminate|].
  intros H. injection H as <- <-. cbn.
  repeat split; try assumption; try reflexivity.
  intros u Hu. destruct (Num.eqb (id u) i) eqn:E; [|reflexivity].
  assert (existsb (fun u => Num.eqb (id u) i) us = true); [|congruence].
  apply existsb_exists. eauto.
Qed.

Lemma createUser_saved (db db' : DB) (now : Z) (oid : ObjectId)
    (d : UserData) (status : Z) (saved : UserDoc) :
  createUser rt db now oid d = (db', Data status saved) ->
  status = 201
  /\ db' = {| users := (users db ++ [saved])%list; costs := costs db |}
  /\ User_save rt (users db) now oid d
     = Returned ((users db ++ [saved])%list, saved).
Proof.
  unfold createUser.
  destruct (User_findOne rt (users db) (ud_id d)) as [[u|]|e];
    try discriminate.
  destruct (User_save rt _ _ _ _) as [[us' doc]|e] eqn:S; [|discriminate].
  intros H. injection H as <- <- <-.
  pose proof (User_save_checked _ _ _ _ _ _ S) as (-> & _). auto.
Qed.

Lemma fetchUserDetails_of (db : DB) (v : value) (u : UserDoc) :
  User_findOne rt (users db) v = Returned (Some u) ->
  fetchUserDetails rt db v
  = Data 200 [("first_name", VString (first_name u));
              ("last_name", VString (last_name u));
              ("id", VNumber (id u));
              ("total", VNumber (lifetimeTotal rt db (id u)))].
Proof. intros H. unfold fetchUserDetails. now rewrite H. Qed.

End UserFacts.

(** X16. The details of a user that [createUser] has just saved are
    answered 200 with the saved names and number, and with the total of
    the expenses the collection already held under that number, the
    number 0 when there was none: expenses left behind under a number
    count for the next user created with it. *)
Theorem createUser_then_fetchUserDetails (rt : Runtime) (db db' : DB) (now : Z)
    (oid : ObjectId) (userData : UserData) (status : Z) (saved : UserDoc) :
  createUser rt db now oid userData = (db', Data status saved) ->
  costs db' = costs db
  /\ users db' = (users db ++ [saved])%list
  /\ fetchUserDetails rt db' (VNumber (id saved))
     = Data 200
         [("first_name", VString (first_name saved));
          ("last_name", VString (last_name saved));
          ("id", VNumber (id saved));
          ("total", VNumber (lifetimeTotal rt db (id saved)))]
  /\ (costs_of_user db (id saved) = [] ->
      lifetimeTotal rt db (id saved) = ofZ 0).
Proof.
  intros H. apply createUser_saved in H. destruct H as (_ & -> & S).
  apply User_save_checked in S.
  destruct S as (_ & Hc & Hfresh & _).
  pose proof (castNumber_not_nan rt _ _ Hc) as Hn.
  split; [reflexivity|]. split; [reflexivity|].
  split; [|apply lifetimeTotal_none].
  rewrite (fetchUserDetails_of rt _ _ saved).
  - now rewrite (lifetimeTotal_same rt db _ (id saved)).
  - unfold User_findOne. rewrite (castNumber_number rt _ Hn). cbn [users].
    now rewrite (find_in_split (id saved) (users db) [] saved Hfresh
                   (Num_eqb_refl _ Hn)).
Qed.

Lemma createUser_then_fetchUserDetails_witness :
  exists db' saved,
    createUser Sample.runtime Sample.db0 5 2%N Sample2.carol
    = (db', Data 201 saved)
    /\ fetchUserDetails Sample.runtime db' (VNumber (ofZ 1003))
       = Data 200 [("first_name", VString "E"); ("last_name", VString "F");
                   ("id", VNumber (ofZ 1003)); ("total", VNumber (ofZ 0))].
Proof.
  eexists. eexists.
  assert (E : createUser Sample.runtime Sample.db0 5 2%N Sample2.carol
              = (_, Data 201 _)) by reflexivity.
  split; [exact E|].
  exact (proj1 (proj2 (proj2
           (createUser_then_fetchUserDetails _ _ _ _ _ _ _ _ E)))).
Defined.

Section UserOutcomes.

Variable rt : Runtime.

(** The store after [createUser]. *)
Lemma createUser_store (db : DB) (now : Z) (oid : ObjectId) (d : UserData) :
  fst (createUser rt db now oid d) = db
  \/ exists saved,
       Num.isNaN (id saved) = false
       /\ (forall u, In u (users db) -> Num.eqb (id u) (id saved) = false)
       /\ fst (createUser rt db now oid d)
          = {| users := (users db ++ [saved])%list; costs := costs db |}.
Proof.
  destruct (createUser rt db now oid d) as [db' [s u|s e|s m]] eqn:E;
    try (left; unfold createUser in E;
         destruct (User_findOne rt (users db) (ud_id d)) as [[x|]|x];
         try (now injection E as <- _);
         destruct (User_save rt _ _ _ _) as [[us' doc]|x];
         [discriminate | now injection E as <- _]).
  right. apply createUser_saved in E. destruct E as (_ & -> & S).
  apply User_save_checked in S. destruct S as (_ & Hc & Hf & _).
  exists u. split; [now apply castNumber_not_nan in Hc | auto].
Qed.

(** The three outcomes of [deleteUser]. *)
Lemma deleteUser_outcome (db : DB) (v : value) :
  (exists e, deleteUser rt db v = (db, Error 500 (MessageOf e)))
  \/ (deleteUser rt db v = (db, Error 404 (Text msg_user_missing))
      /\ User_findOne rt (users db) v = Returned None)
  \/ exists n before x after,
       castNumber rt v = CastOk n
       /\ users db = (before ++ x :: after)%list
       /\ id x = n
       /\ (forall u, In u before -> Num.eqb (id u) n = false)
       /\ deleteUser rt db v
          = ({| users := (before ++ after)%list; costs := costs db |},
             Message 200 msg_user_deleted).
Proof.
  unfold deleteUser, User_findOneAndDelete, User_findOne.
  destruct (castNumber rt v) as [n| |] eqn:C.
  - destruct (split_user n (users db)) as [[[b x] a]|] eqn:S.
    + right. right. apply split_user_some in S. destruct S as (E & Hid & Hb).
      exists n, b, x, a. auto.
    + right. left. split; [reflexivity|].
      f_equal. apply find_none_all. now apply split_user_none.
  - right. left. auto.
  - left. eauto.
Qed.

(** The update a cast returns merges as the update document says. *)
Lemma User_castUpdate_returned (updateData : jsobject value) (d : UserUpdate) :
  User_castUpdate rt updateData = Some (Returned d) ->
  forall now u, user_merge rt now updateData u (apply_user_update now d u).
Proof.
  unfold User_castUpdate.
  destruct (only_paths user_paths updateData); [|discriminate].
  destruct (path_modelled false (cast_path (castNumber rt) updateData "id"))
    eqn:Mi; [|discriminate].
  destruct (path_modelled false (cast_path (castString rt) updateData
                                           "first_name")) eqn:Mf;
    [|discriminate].
  destruct (path_modelled false (cast_path (castString rt) updateData
                                           "last_name")) eqn:Ml;
    [|discriminate].
  destruct (path_modelled false (cast_path (castDate rt) updateData
                                           "birthday")) eqn:Mb;
    [|discriminate].
  destruct (path_modelled false (cast_path (castString rt) updateData
                                           "marital_status")) eqn:Mm;
    [|discriminate].
  cbn [andb negb].
  destruct (path_fails (cast_path (castNumber rt) updateData "id"))
    eqn:Fi; [discriminate|].
  destruct (path_fails (cast_path (castString rt) updateData "first_name"))
    eqn:Ff; [discriminate|].
  destruct (path_fails (cast_path (castString rt) updateData "last_name"))
    eqn:Fl; [discriminate|].
  destruct (path_fails (cast_path (castDate rt) updateData "birthday"))
    eqn:Fb; [discriminate|].
  destruct (path_fails (cast_path (castString rt) updateData
                                  "marital_status")) eqn:Fm; [discriminate|].
  intros H now u. injection H as <-.
  unfold user_merge, apply_user_update.
  cbn [user_oid user_createdAt user_updatedAt id first_name last_name
       birthday marital_status uu_id uu_first_name uu_last_name uu_birthday
       uu_marital_status].
  repeat split; now apply cast_path_merged.
Qed.

(** The cast of an update document that is given a meaning: it throws
    when a value does not cast, and returns otherwise. *)
Lemma User_castUpdate_outcome (updateData : jsobject value) :
  user_update_in_model rt updateData ->
  (user_update_fails rt updateData
   /\ exists e, User_castUpdate rt updateData = Some (Threw e))
  \/ (~ user_update_fails rt updateData
      /\ exists d, User_castUpdate rt updateData = Some (Returned d)).
Proof.
  intros (Hkeys & Hplain & Hstr & Hid & Hbd).
  assert (P : forall path v, obj_get updateData path = Some v -> plain_value v)
    by (intros path v; apply Hplain).
  pose proof (cast_path_modelled (castNumber rt) updateData "id"
                false (P _) (fun _ => Hid)) as Mi.
  pose proof (cast_path_modelled (castString rt) updateData "first_name"
                false (P _)
                (fun _ v => Hstr "first_name" v (or_introl eq_refl))) as Mf.
  pose proof (cast_path_modelled (castString rt) updateData "last_name"
                false (P _)
                (fun _ v => Hstr "last_name" v (or_intror (or_introl eq_refl))))
    as Ml.
  pose proof (cast_path_modelled (castDate rt) updateData "birthday"
                false (P _) (fun _ => Hbd)) as Mb.
  pose proof (cast_path_modelled (castString rt) updateData "marital_status"
                false (P _)
                (fun _ v => Hstr "marital_status" v
                              (or_intror (or_intror (or_introl eq_refl)))))
    as Mm.
  pose proof (cast_path_fails (castNumber rt) updateData "id" (P _)) as Fi.
  pose proof (cast_path_fails (castString rt) updateData "first_name" (P _))
    as Ff.
  pose proof (cast_path_fails (castString rt) updateData "last_name" (P _))
    as Fl.
  pose proof (cast_path_fails (castDate rt) updateData "birthday" (P _)) as Fb.
  pose proof (cast_path_fails (castString rt) updateData "marital_status"
                (P _)) as Fm.
  assert (Yes : forall path v,
             obj_get updateData path = Some v ->
             (In path ["first_name"; "last_name"; "marital_status"]
              /\ castString rt v = CastFail)
             \/ (path = "id" /\ castNumber rt v = CastFail)
             \/ (path = "birthday" /\ castDate rt v = CastFail) ->
             user_update_fails rt updateData)
    by (intros path v E H; exists path, v; auto).
  destruct (User_castUpdate rt updateData) as [[d|e]|] eqn:C.
  - right. split; [|eauto].
    unfold User_castUpdate in C.
    rewrite (only_paths_all _ _ Hkeys), Mi, Mf, Ml, Mb, Mm in C.
    cbn [andb negb] in C.
    destruct (path_fails (cast_path (castNumber rt) updateData "id"));
      [discriminate|].
    destruct (path_fails (cast_path (castString rt) updateData "first_name"));
      [discriminate|].
    destruct (path_fails (cast_path (castString rt) updateData "last_name"));
      [discriminate|].
    destruct (path_fails (cast_path (castDate rt) updateData "birthday"));
      [discriminate|].
    destruct (path_fails (cast_path (castString rt) updateData
                                    "marital_status")); [discriminate|].
    intros (path & v & E & [[Hp F] | [[Hp F] | [Hp F]]]).
    + destruct Hp as [<- | [<- | [<- | []]]].
      * assert (X : false = true) by (apply Ff; eauto). discriminate X.
      * assert (X : false = true) by (apply Fl; eauto). discriminate X.
      * assert (X : false = true) by (apply Fm; eauto). discriminate X.
    + subst path.
      assert (X : false = true) by (apply Fi; eauto). discriminate X.
    + subst path.
      assert (X : false = true) by (apply Fb; eauto). discriminate X.
  - left. split; [|eauto].
    unfold User_castUpdate in C.
    rewrite (only_paths_all _ _ Hkeys), Mi, Mf, Ml, Mb, Mm in C.
    cbn [andb negb] in C.
    destruct (path_fails (cast_path (castNumber rt) updateData "id"));
      [destruct (proj1 Fi eq_refl) as (v & E & F);
       apply (Yes _ v E); right; left; split; [reflexivity | exact F]|].
    destruct (path_fails (cast_path (castString rt) updateData "first_name"));
      [destruct (proj1 Ff eq_refl) as (v & E & F);
       apply (Yes _ v E); left; split; [now left | exact F]|].
    destruct (path_fails (cast_path (castString rt) updateData "last_name"));
      [destruct (proj1 Fl eq_refl) as (v & E & F);
       apply (Yes _ v E); left; split; [right; now left | exact F]|].
    destruct (path_fails (cast_path (castDate rt) updateData "birthday"));
      [destruct (proj1 Fb eq_refl) as (v & E & F);
       apply (Yes _ v E); right; right; split; [reflexivity | exact F]|].
    destruct (path_fails (cast_path (castString rt) updateData
                                    "marital_status"));
      [destruct (proj1 Fm eq_refl) as (v & E & F);
       apply (Yes _ v E); left; split; [right; right; now left | exact F]|].
    discriminate C.
  - exfalso. unfold User_castUpdate in C.
    rewrite (only_paths_all _ _ Hkeys), Mi, Mf, Ml, Mb, Mm in C.
    cbn [andb negb] in C.
    repeat match type of C with
           | (if ?b then _ else _) = _ => destruct b; try discriminate C
           end.
Qed.

(** [updateUser] on a filter value that is no object, as a function of
    the two casts. *)
Lemma updateUser_eq (db : DB) (now : Z) (v : value)
    (updateData : jsobject value) :
  (forall o, v <> VObject o) ->
  updateUser rt db now v updateData
  = match User_castUpdate rt updateData with
    | None => None
    | Some casted =>
        match castNumber rt v, casted with
        | CastFail, _ => Some (db, Error 500 (MessageOf (CastError "id")))
        | _, Threw e => Some (db, Error 500 (MessageOf e))
        | CastNull, Returned _ => Some (db, Error 404 (Text msg_user_missing))
        | CastOk n, Returned d =>
            match update_user (users db) now n d with
            | Threw e => Some (db, Error 500 (MessageOf e))
            | Returned (_, None) =>
                Some (db, Error 404 (Text msg_user_missing))
            | Returned (users', Some updatedUser) =>
                Some ({| users := users'; costs := costs db |},
                      Data 200 updatedUser)
            end
        end
    end.
Proof.
  intros Hv. unfold updateUser, User_findOneAndUpdate.
  destruct v; try (exfalso; now eapply Hv);
    destruct (User_castUpdate rt updateData) as [[d|e]|]; try reflexivity;
    match goal with
    | |- context [castNumber rt ?x] => destruct (castNumber rt x)
    end; reflexivity.
Qed.

Lemma updateUser_object (db : DB) (now : Z) (o : object)
    (updateData : jsobject value) :
  updateUser rt db now (VObject o) updateData = None.
Proof. reflexivity. Qed.

(** [updateUser] answers every update document that is given a meaning,
    for a user number that is no object. *)
Lemma updateUser_defined (db : DB) (now : Z) (v : value)
    (updateData : jsobject value) :
  (forall o, v <> VObject o) -> user_update_in_model rt updateData ->
  exists r, updateUser rt db now v updateData = Some r.
Proof.
  intros Hv Hm. rewrite (updateUser_eq db now v updateData Hv).
  destruct (User_castUpdate_outcome updateData Hm)
    as [(_ & e & ->) | (_ & d & ->)];
    destruct (castNumber rt v) as [n| |]; eauto.
  destruct (update_user (users db) now n d) as [[us' [u'|]]|e]; eauto.
Qed.

(** The three ways [updateUser] ends. *)
Lemma updateUser_outcome (db : DB) (now : Z) (v : value)
    (updateData : jsobject value) (r : DB * reply UserDoc) :
  updateUser rt db now v updateData = Some r ->
  (exists e, r = (db, Error 500 (MessageOf e)))
  \/ (r = (db, Error 404 (Text msg_user_missing))
      /\ User_findOne rt (users db) v = Returned None)
  \/ exists n before x after x',
       castNumber rt v = CastOk n
       /\ users db = (before ++ x :: after)%list
       /\ id x = n
       /\ (forall u, In u before -> Num.eqb (id u) n = false)
       /\ user_merge rt now updateData x x'
       /\ (forall u, In u (before ++ after)%list ->
             Num.eqb (id u) (id x') = false)
       /\ r = ({| users := (before ++ x' :: after)%list; costs := costs db |},
               Data 200 x').
Proof.
  intros Hr.
  assert (Hv : forall o, v <> VObject o).
  { intros o ->. rewrite updateUser_object in Hr. discriminate. }
  rewrite (updateUser_eq db now v updateData Hv) in Hr.
  destruct (User_castUpdate rt updateData) as [[d|e]|] eqn:C; [| |discriminate].
  - unfold User_findOne. destruct (castNumber rt v) as [n| |] eqn:Cn.
    + unfold update_user in Hr.
      destruct (split_user n (users db)) as [[[bf x] af]|] eqn:S.
      * apply split_user_some in S. destruct S as (E & Hid & Hb).
        destruct (existsb _ (bf ++ af)%list) eqn:X.
        -- injection Hr as <-. left. eauto.
        -- injection Hr as <-. right. right.
           exists n, bf, x, af, (apply_user_update now d x).
           split; [reflexivity|]. split; [exact E|]. split; [exact Hid|].
           split; [exact Hb|].
           split; [apply (User_castUpdate_returned _ _ C)|].
           split; [|reflexivity].
           intros u Hu.
           destruct (Num.eqb (id u) (id (apply_user_update now d x))) eqn:Q;
             [|reflexivity].
           assert (existsb (fun z => Num.eqb (id z)
                                       (id (apply_user_update now d x)))
                           (bf ++ af)%list = true); [|congruence].
           apply existsb_exists. eauto.
      * injection Hr as <-. right. left. split; [reflexivity|].
        f_equal. apply find_none_all. now apply split_user_none.
    + injection Hr as <-. right. left. auto.
    + injection Hr as <-. left. eauto.
  - destruct (castNumber rt v); injection Hr as <-; left; eauto.
Qed.

End UserOutcomes.

(** The number a merge leaves a user with is not [NaN]. *)
Lemma merged_id_not_nan (rt : Runtime) (now : Z) (updateData : jsobject value)
    (x x' : UserDoc) :
  Num.isNaN (id x) = false -> user_merge rt now updateData x x' ->
  Num.isNaN (id x') = false.
Proof.
  intros Hx (_ & _ & _ & M & _). unfold merged in M.
  destruct (obj_get updateData "id") as [v|].
  - now apply castNumber_not_nan in M.
  - now rewrite M.
Qed.

(** X17. No operation on users makes two users share a number or stores
    the number [NaN]: when the numbers of the collection are pairwise
    distinct and none is [NaN], they are so after [createUser], after
    [updateUser] (which may renumber a user) and after [deleteUser],
    whatever the reply; and [updateUser] answers every update document
    that is given a meaning, for a user number that is no object. *)
Theorem user_ids_stay_unique (rt : Runtime) (db : DB) (now : Z)
    (oid : ObjectId) (userData : UserData) (userId : value)
    (updateData : jsobject value) :
  unique_user_ids db ->
  unique_user_ids (fst (createUser rt db now oid userData))
  /\ (forall r, updateUser rt db now userId updateData = Some r ->
        unique_user_ids (fst r))
  /\ unique_user_ids (fst (deleteUser rt db userId))
  /\ ((forall o, userId <> VObject o) ->
      user_update_in_model rt updateData ->
      exists r, updateUser rt db now userId updateData = Some r).
Proof.
  unfold unique_user_ids. intros [Hd Hn].
  split; [|split; [|split; [|apply updateUser_defined]]].
  - destruct (createUser_store rt db now oid userData)
      as [-> | (saved & Hs & Hf & ->)]; [auto|].
    cbn [users]. split.
    + rewrite map_app. apply NoDup_app; [assumption | |].
      * repeat constructor. intros [].
      * intros a Ha [<- | []]. apply in_map_iff in Ha.
        destruct Ha as (u & Hu & Hin).
        apply (Num_eqb_false_neq (id u) (id saved) Hs (Hf u Hin)). assumption.
    + intros u Hu. apply in_app_iff in Hu. destruct Hu as [Hu | [<- | []]]; auto.
  - intros r Hr.
    destruct (updateUser_outcome rt db now userId updateData r Hr)
      as [[e ->] | [[-> _] | (n & b & x & a & x' & _ & E & _ & _ & Hm & Hf & ->)]];
      [auto | auto |].
    cbn [fst users]. rewrite E in Hd, Hn.
    assert (Hx : Num.isNaN (id x') = false).
    { apply (merged_id_not_nan rt now updateData x x'); [|exact Hm].
      apply Hn. apply in_app_iff. right. now left. }
    split.
    + rewrite map_app. cbn [map]. rewrite map_app in Hd. cbn [map] in Hd.
      apply NoDup_insert; [now apply NoDup_remove_1 in Hd|].
      rewrite <- map_app. intros Hin. apply in_map_iff in Hin.
      destruct Hin as (u & Hid & Hin).
      apply (Num_eqb_false_neq _ _ Hx (Hf u Hin)). assumption.
    + intros u Hin. apply in_app_iff in Hin.
      destruct Hin as [Hin | [<- | Hin]]; [| assumption |];
        apply Hn; apply in_app_iff; [now left | right; now right].
  - destruct (deleteUser_outcome rt db userId)
      as [[e ->] | [[-> _] | (n & b & x & a & _ & E & _ & _ & ->)]];
      [auto | auto |].
    cbn [fst users]. rewrite E in Hd, Hn. split.
    + rewrite map_app in *. cbn [map] in Hd. now apply NoDup_remove_1 in Hd.
    + intros u Hin. apply Hn. apply in_app_iff in Hin. apply in_app_iff.
      destruct Hin; [now left | right; now right].
Qed.

Lemma unique_ids_db2 : unique_user_ids Sample2.db2.
Proof.
  split.
  - cbn. repeat constructor; cbn; [|tauto].
    intros [H | []]. apply (f_equal (Num.eqb (ofZ 1001))) in H.
    vm_compute in H. discriminate.
  - intros u [<- | [<- | []]]; reflexivity.
Qed.

Lemma user_ids_stay_unique_witness :
  exists r,
    updateUser Sample.runtime Sample2.db2 7 (VNumber (ofZ 1001))
               (Sample2.renumber 1005) = Some r
    /\ unique_user_ids (fst r).
Proof.
  eexists. split; [reflexivity|].
  exact (proj1 (proj2 (user_ids_stay_unique Sample.runtime Sample2.db2 7 9%N
                         Sample2.carol (VNumber (ofZ 1001))
                         (Sample2.renumber 1005) unique_ids_db2))
           _ eq_refl).
Defined.

(** X18. [deleteUser] deletes no expense: when it answers 200, the
    expenses, every lifetime total and every monthly report are as
    before, and, the numbers of the users being pairwise distinct, the
    deleted number no longer resolves: its details are answered 404 and
    an expense can no longer be created for it. *)
Theorem deleteUser_keeps_expenses (rt : Runtime) (db db' : DB)
    (userId : value) (status : Z) (message : string) :
  unique_user_ids db ->
  deleteUser rt db userId = (db', Message status message) ->
  costs db' = costs db
  /\ (forall n, lifetimeTotal rt db' n = lifetimeTotal rt db n)
  /\ (forall id year month,
        fetchMonthlyReport rt db' id year month
        = fetchMonthlyReport rt db id year month)
  /\ fetchUserDetails rt db' userId = Error 404 (Text "User not found")
  /\ forall now oid costData,
       cd_userid costData = userId ->
       createCost rt db' now oid costData
       = (db', Error 404 (Text "User not found. Cannot add cost.")).
Proof.
  intros [Hd Hn] H.
  destruct (deleteUser_outcome rt db userId)
    as [[e E] | [[E _] | (n & b & x & a & C & Eu & Hid & Hb & E)]];
    rewrite E in H; try discriminate.
  injection H as <- _ _. cbn [costs users].
  assert (F : User_findOne rt (b ++ a)%list userId = Returned None).
  { unfold User_findOne. rewrite C. f_equal. apply find_none_all.
    intros u Hu. apply in_app_iff in Hu. destruct Hu as [Hu | Hu]; [auto|].
    destruct (Num.eqb (id u) n) eqn:Q; [|reflexivity].
    apply Num_eqb_eq in Q. exfalso.
    rewrite Eu, map_app in Hd. cbn [map] in Hd.
    apply NoDup_remove_2 in Hd. apply Hd. apply in_app_iff. right.
    rewrite Hid, <- Q. now apply in_map. }
  repeat split.
  - unfold fetchUserDetails. cbn [users]. now rewrite F.
  - intros now oid costData Hc. apply createCost_no_user. cbn [users].
    now rewrite Hc.
Qed.

Lemma deleteUser_keeps_expenses_witness :
  let db' := {| users := [Sample2.bob]; costs := costs Sample2.db2 |} in
  lifetimeTotal Sample.runtime db' (ofZ 1001)
  = lifetimeTotal Sample.runtime Sample2.db2 (ofZ 1001)
  /\ fetchUserDetails Sample.runtime db' (VNumber (ofZ 1001))
     = Error 404 (Text "User not found").
Proof.
  intros db'.
  assert (E : deleteUser Sample.runtime Sample2.db2 (VNumber (ofZ 1001))
              = (db', Message 200 msg_user_deleted)) by reflexivity.
  destruct (deleteUser_keeps_expenses Sample.runtime Sample2.db2 db'
              (VNumber (ofZ 1001)) 200 msg_user_deleted unique_ids_db2 E)
    as (_ & Ht & _ & Hf & _).
  split; [apply Ht | exact Hf].
Defined.

Lemma Num_neq_eqb_false (a b : number) : a <> b -> Num.eqb a b = false.
Proof.
  intros H. destruct (Num.eqb a b) eqn:E; [|reflexivity].
  apply Num_eqb_eq in E. contradiction.
Qed.

(** X19. The number of a user is a path like the others for
    [updateUser]: when the update goes through, the user merged with the
    update document stands where the user stood, with the same storage
    identifier, and the expenses are untouched. The user then answers
    under its, possibly new, number with the total of the expenses filed
    under that number; after a change of number the old number resolves
    to no user, while the expenses filed under it stay. *)
Theorem updateUser_renumbers (rt : Runtime) (db db' : DB) (now : Z)
    (userId : value) (updateData : jsobject value) (status : Z)
    (updated : UserDoc) :
  unique_user_ids db ->
  updateUser rt db now userId updateData = Some (db', Data status updated) ->
  status = 200
  /\ costs db' = costs db
  /\ (exists before x after,
        users db = (before ++ x :: after)%list
        /\ castNumber rt userId = CastOk (id x)
        /\ user_merge rt now updateData x updated
        /\ users db' = (before ++ updated :: after)%list)
  /\ fetchUserDetails rt db' (VNumber (id updated))
     = Data 200
         [("first_name", VString (first_name updated));
          ("last_name", VString (last_name updated));
          ("id", VNumber (id updated));
          ("total", VNumber (lifetimeTotal rt db (id updated)))]
  /\ (castNumber rt userId <> CastOk (id updated) ->
      fetchUserDetails rt db' userId = Error 404 (Text "User not found")).
Proof.
  intros [Hd Hn] H.
  destruct (updateUser_outcome rt db now userId updateData _ H)
    as [[e E] | [[E _] | (n & b & x & a & x' & C & Eu & Hid & Hb & Hm & Hf & E)]];
    try discriminate.
  injection E as -> -> ->. cbn [costs users].
  assert (Hx : Num.isNaN (id x') = false).
  { apply (merged_id_not_nan rt now updateData x x'); [|exact Hm].
    apply Hn. rewrite Eu. apply in_app_iff. right. now left. }
  split; [reflexivity|]. split; [reflexivity|]. split; [|split].
  - exists b, x, a. subst n. auto.
  - rewrite (fetchUserDetails_of rt _ _ x').
    + reflexivity.
    + unfold User_findOne. rewrite (castNumber_number rt _ Hx). cbn [users].
      rewrite (find_in_split (id x') b a x');
        [reflexivity | | now apply Num_eqb_refl].
      intros u Hin. apply Hf. apply in_app_iff. now left.
  - intros Hne. unfold fetchUserDetails, User_findOne. cbn [users].
    rewrite C. rewrite find_none_all; [reflexivity|].
    intros u Hin. apply in_app_iff in Hin.
    destruct Hin as [Hin | [<- | Hin]].
    + now apply Hb.
    + apply Num_neq_eqb_false. intros Q. apply Hne. now rewrite C, Q.
    + apply Num_neq_eqb_false. intros Q.
      rewrite Eu, map_app in Hd. cbn [map] in Hd.
      apply NoDup_remove_2 in Hd. apply Hd. apply in_app_iff. right.
      rewrite Hid, <- Q. now apply in_map.
Qed.

(** User 1001 becomes user 1005 and keeps its names: the details of 1005
    show the total 0, the expenses of 1001 stay, and 1001 is not found. *)
Lemma updateUser_renumbers_witness :
  exists db' updated,
    updateUser Sample.runtime Sample2.db2 7 (VNumber (ofZ 1001))
               (Sample2.renumber 1005) = Some (db', Data 200 updated)
    /\ costs db' = costs Sample2.db2
    /\ first_name updated = "A"
    /\ fetchUserDetails Sample.runtime db' (VNumber (ofZ 1005))
       = Data 200 [("first_name", VString "A"); ("last_name", VString "B");
                   ("id", VNumber (ofZ 1005)); ("total", VNumber (ofZ 0))]
    /\ fetchUserDetails Sample.runtime db' (VNumber (ofZ 1001))
       = Error 404 (Text "User not found").
Proof.
  eexists. eexists.
  assert (E : updateUser Sample.runtime Sample2.db2 7 (VNumber (ofZ 1001))
                (Sample2.renumber 1005) = Some (_, Data 200 _))
    by reflexivity.
  split; [exact E|].
  destruct (updateUser_renumbers Sample.runtime Sample2.db2 _ 7
              (VNumber (ofZ 1001)) (Sample2.renumber 1005) 200 _
              unique_ids_db2 E) as (_ & Hc & (b & x & a & _ & _ & Hm & _) & Hd & Hf).
  split; [exact Hc|]. split; [reflexivity|]. split; [exact Hd|].
  apply Hf. intros Q.
  apply (f_equal (fun c => match c with
                           | CastOk k => Num.eqb k (ofZ 1001)
                           | _ => false
                           end)) in Q.
  vm_compute in Q. discriminate Q.
Defined.

(** X20. What [updateUser] refuses, for a user number that is a number
    and an update document that is given a meaning. A value that does not
    cast is answered 500, the store unchanged, whether a user carries the
    number or not. Otherwise the reply is 404 "User not found.", the
    store unchanged, when no user carries the number; and the update that
    would give a user the number of another user is answered 500, the
    store unchanged: the unique index throws. *)
Theorem updateUser_refusals (rt : Runtime) (db : DB) (now : Z)
    (n : number) (updateData : jsobject value) :
  Num.isNaN n = false ->
  user_update_in_model rt updateData ->
  (user_update_fails rt updateData ->
     exists e,
       updateUser rt db now (VNumber n) updateData
       = Some (db, Error 500 (MessageOf e)))
  /\ (~ user_update_fails rt updateData ->
      (forall u, In u (users db) -> id u <> n) ->
      updateUser rt db now (VNumber n) updateData
      = Some (db, Error 404 (Text "User not found.")))
  /\ (~ user_update_fails rt updateData ->
      forall x other v k,
        unique_user_ids db ->
        In x (users db) -> id x = n -> In other (users db) ->
        id other = k -> k <> n ->
        obj_get updateData "id" = Some v -> castNumber rt v = CastOk k ->
        updateUser rt db now (VNumber n) updateData
        = Some (db, Error 500 (MessageOf (DuplicateKeyError "id")))).
Proof.
  intros Hn Hm.
  rewrite (updateUser_eq rt db now (VNumber n) updateData)
    by discriminate.
  rewrite (castNumber_number rt n Hn).
  destruct (User_castUpdate_outcome rt updateData Hm)
    as [(Hy & e & ->) | (Hf & d & C)].
  - split; [eauto|]. split; intros; contradiction.
  - rewrite C. split; [intros; contradiction|]. split.
    + intros _ Hnone. unfold update_user.
      assert (S : split_user n (users db) = None).
      { apply split_user_none. intros u Hin. apply Num_neq_eqb_false. auto. }
      now rewrite S.
    + intros _ x other v k [Hd Hnan] Hx Hid Ho Hk Hne Hv Hc.
      unfold update_user.
      destruct (split_user n (users db)) as [[[b y] a]|] eqn:S.
      * apply split_user_some in S. destruct S as (E & Hy & Hb).
        pose proof (User_castUpdate_returned rt updateData d C now y)
          as (_ & _ & _ & Mi & _).
        unfold merged in Mi. rewrite Hv, Hc in Mi.
        assert (Mk : id (apply_user_update now d y) = k) by congruence.
        assert (X : existsb (fun z => Num.eqb (id z)
                               (id (apply_user_update now d y)))
                            (b ++ a)%list = true).
        { apply existsb_exists. exists other. split.
          - rewrite E in Ho. apply in_app_iff in Ho. apply in_app_iff.
            destruct Ho as [Ho | [Ho | Ho]]; [now left | | now right].
            exfalso. apply Hne. now rewrite <- Hk, <- Ho.
          - rewrite Mk, Hk. apply Num_eqb_refl.
            now apply castNumber_not_nan in Hc. }
        now rewrite X.
      * exfalso. rewrite split_user_none in S. specialize (S x Hx).
        rewrite Hid, Num_eqb_refl in S; [discriminate | assumption].
Qed.

(** A one-path update document of the sample is given a meaning, and
    casts. *)
Ltac user_update_in_model_tac :=
  repeat split;
  [ intros k [<- | []]; cbn; tauto
  | intros k v H; cbn in H;
    match type of H with
    | (if ?b then _ else _) = _ => destruct b
    end; [injection H as <-; exact I | discriminate H]
  | intros k v [<- | [<- | [<- | []]]] H; cbn in H; try discriminate H;
    injection H as <-; discriminate
  | intros v H; cbn in H; try discriminate H; injection H as <-; discriminate
  | intros v H; cbn in H; try discriminate H; injection H as <-; discriminate ].

Ltac user_update_passes_tac :=
  let p := fresh "p" in
  let v := fresh "v" in
  let E := fresh "E" in
  let Hp := fresh "Hp" in
  let F := fresh "F" in
  intros (p & v & E & [[Hp F] | [[Hp F] | [Hp F]]]);
  [destruct Hp as [<- | [<- | [<- | []]]] | subst p | subst p];
  cbn in E; try discriminate E; injection E as <-; discriminate F.

(** In the store of the two users: the number of the other user is
    refused, a birthday that is no date is answered 500 for a number no
    user carries, and a new name for that number is answered 404. *)
Lemma updateUser_refusals_witness :
  updateUser Sample.runtime Sample2.db2 7 (VNumber (ofZ 1001))
             (Sample2.renumber 1002)
  = Some (Sample2.db2, Error 500 (MessageOf (DuplicateKeyError "id")))
  /\ (exists e,
        updateUser Sample.runtime Sample2.db2 7 (VNumber (ofZ 77))
                   Sample2.bad_birthday
        = Some (Sample2.db2, Error 500 (MessageOf e)))
  /\ updateUser Sample.runtime Sample2.db2 7 (VNumber (ofZ 77)) Sample2.rename
     = Some (Sample2.db2, Error 404 (Text "User not found.")).
Proof.
  assert (N : forall k, Num.isNaN (ofZ k) = false) by reflexivity.
  assert (M1 : user_update_in_model Sample.runtime (Sample2.renumber 1002))
    by user_update_in_model_tac.
  assert (M2 : user_update_in_model Sample.runtime Sample2.bad_birthday)
    by user_update_in_model_tac.
  assert (M3 : user_update_in_model Sample.runtime Sample2.rename)
    by user_update_in_model_tac.
  assert (F1 : ~ user_update_fails Sample.runtime (Sample2.renumber 1002))
    by user_update_passes_tac.
  assert (F3 : ~ user_update_fails Sample.runtime Sample2.rename)
    by user_update_passes_tac.
  split; [|split].
  - destruct (updateUser_refusals Sample.runtime Sample2.db2 7 (ofZ 1001)
                (Sample2.renumber 1002) (N 1001) M1) as (_ & _ & H).
    apply (H F1 Sample.alice Sample2.bob (VNumber (ofZ 1002)) (ofZ 1002)
             unique_ids_db2);
      try reflexivity.
    + now left.
    + right. now left.
    + intros Q. apply (f_equal (Num.eqb (ofZ 1002))) in Q.
      vm_compute in Q. discriminate Q.
  - destruct (updateUser_refusals Sample.runtime Sample2.db2 7 (ofZ 77)
                Sample2.bad_birthday (N 77) M2) as (H & _).
    apply H. exists "birthday", (VBoolean true).
    split; [reflexivity|]. right. right. split; reflexivity.
  - destruct (updateUser_refusals Sample.runtime Sample2.db2 7 (ofZ 77)
                Sample2.rename (N 77) M3) as (_ & H & _).
    apply (H F3).
    intros u [<- | [<- | []]] Q;
      apply (f_equal (Num.eqb (ofZ 77))) in Q; vm_compute in Q;
      discriminate Q.
Defined.

(** X21. The check of the path parameter in [getUserDetails] and
    [removeUser] keeps the store's cast error away: whatever the path
    parameter, the reply is 400 (an empty or non-numeric identifier), 404
    or 200, never 500, and the store changes only on a 200 of
    [removeUser]. *)
Theorem user_id_check_prevents_500 (rt : Runtime) (db : DB)
    (params_id : string) :
  (status_of (getUserDetails rt db params_id) = 200
   \/ status_of (getUserDetails rt db params_id) = 400
   \/ status_of (getUserDetails rt db params_id) = 404)
  /\ (status_of (snd (removeUser rt db params_id)) = 200
      \/ (fst (removeUser rt db params_id) = db
          /\ (status_of (snd (removeUser rt db params_id)) = 400
              \/ status_of (snd (removeUser rt db params_id)) = 404))).
Proof.
  unfold getUserDetails, removeUser.
  destruct (bad_user_id rt params_id) eqn:B; [cbn; auto|].
  unfold bad_user_id in B. apply orb_false_iff in B. destruct B as [_ B].
  unfold js_isNaN in B.
  pose proof (castNumber_number rt _ B) as C.
  split.
  - unfold fetchUserDetails, User_findOne. rewrite C.
    destruct (find _ (users db)); cbn; auto.
  - unfold deleteUser, User_findOneAndDelete. rewrite C.
    destruct (split_user _ (users db)) as [[[b x] a]|]; cbn; auto.
Qed.

(** X22. Every user [createUser] saves has a number that is not [NaN] and
    that no user of the collection carried, first name, last name and
    marital status that are not empty, and the fresh storage identifier;
    the users before it and the expenses are untouched. *)
Theorem createUser_saves_valid_user (rt : Runtime) (db db' : DB) (now : Z)
    (oid : ObjectId) (userData : UserData) (status : Z) (saved : UserDoc) :
  createUser rt db now oid userData = (db', Data status saved) ->
  status = 201
  /\ users db' = (users db ++ [saved])%list
  /\ costs db' = costs db
  /\ Num.isNaN (id saved) = false
  /\ (forall u, In u (users db) -> id u <> id saved)
  /\ first_name saved <> "" /\ last_name saved <> ""
  /\ marital_status saved <> ""
  /\ user_oid saved = oid.
Proof.
  intros H. apply createUser_saved in H. destruct H as (-> & -> & S).
  apply User_save_checked in S.
  destruct S as (_ & Hc & Hf & _ & _ & Hfn & Hln & Hms & Ho).
  pose proof (castNumber_not_nan rt _ _ Hc) as Hn.
  repeat split; try assumption.
  intros u Hu. now apply Num_eqb_false_neq; [|apply Hf].
Qed.

Lemma createUser_saves_valid_user_witness :
  exists db' saved,
    createUser Sample.runtime Sample.db0 5 2%N Sample2.carol
    = (db', Data 201 saved)
    /\ first_name saved <> "" /\ user_oid saved = 2%N.
Proof.
  eexists. eexists.
  assert (E : createUser Sample.runtime Sample.db0 5 2%N Sample2.carol
              = (_, Data 201 _)) by reflexivity.
  split; [exact E|].
  destruct (createUser_saves_valid_user _ _ _ _ _ _ _ _ E)
    as (_ & _ & _ & _ & _ & Hfn & _ & _ & Ho).
  split; assumption.
Defined.

(** X23. On a store whose expenses carry the five categories, the handler
    of the monthly report never answers 500 for a year and a month that
    read as whole numbers: it answers 400, or the year is from 2000 to
    the current year, the month from 1 to 12, and the answer is the
    report, status 200. *)
Theorem getMonthlyReport_answers (rt : Runtime) (db : DB) (now : Z)
    (query : ReportQuery) (y m : Z) :
  ToNumber rt (q_year query) = ofZ y ->
  ToNumber rt (q_month query) = ofZ m ->
  YearFromTime (LocalTime rt now) <= 275000 ->
  Z.abs (LocalTZA rt) <= msPerDay ->
  categories_valid db ->
  status_of (getMonthlyReport rt db now query) = 400
  \/ (2000 <= y <= YearFromTime (LocalTime rt now) /\ 1 <= m <= 12
      /\ getMonthlyReport rt db now query
         = Data 200
             {| report_userid := ToNumber rt (q_id query);
                report_year := ofZ y;
                report_month := ofZ m;
                report_costs :=
                  costs_shape rt
                    (matching_costs rt db (q_id query) (q_year query)
                                    (q_month query)) |}).
Proof.
  intros Hy Hm Hcy Rz Hv. unfold getMonthlyReport.
  destruct (js_not (q_id query) || js_isNaN rt (q_id query))%bool eqn:Ci;
    [now left|].
  destruct (js_not (q_year query) || js_isNaN rt (q_year query)
            || js_lt rt (q_year query) (ofZ 2000)
            || js_gt rt (q_year query) (getFullYear rt now))%bool eqn:Cy;
    [now left|].
  destruct (js_not (q_month query) || js_isNaN rt (q_month query)
            || js_lt rt (q_month query) (ofZ 1)
            || js_gt rt (q_month query) (ofZ 12))%bool eqn:Cm;
    [now left|].
  right.
  apply orb_false_iff in Ci. destruct Ci as [_ Ci].
  repeat (apply orb_false_iff in Cy; destruct Cy as [Cy ?]).
  repeat (apply orb_false_iff in Cm; destruct Cm as [Cm ?]).
  unfold js_lt, js_gt, Num.gtb, getFullYear in *.
  rewrite Hy in *. rewrite Hm in *. rewrite ltb_ofZ in *.
  repeat match goal with
         | H : (_ <? _) = false |- _ => apply Z.ltb_ge in H
         end.
  split; [lia|]. split; [lia|].
  apply fetchMonthlyReport_valid; auto; lia.
Qed.

Lemma getMonthlyReport_answers_witness :
  status_of
    (getMonthlyReport Sample.runtime Sample.db0 Sample.noon_jan31_2025
       {| q_id := VString "1001"; q_year := VString "2025";
          q_month := VString "1" |}) = 200.
Proof.
  assert (H : categories_valid Sample.db0).
  { intros c [<- | [<- | []]]; now left. }
  assert (Hcy : YearFromTime (LocalTime Sample.runtime Sample.noon_jan31_2025)
                <= 275000) by (vm_compute; discriminate).
  assert (Rz : Z.abs (LocalTZA Sample.runtime) <= msPerDay)
    by (vm_compute; discriminate).
  destruct (getMonthlyReport_answers Sample.runtime Sample.db0
              Sample.noon_jan31_2025
              {| q_id := VString "1001"; q_year := VString "2025";
                 q_month := VString "1" |} 2025 1 eq_refl eq_refl Hcy Rz H)
    as [E | (_ & _ & E)].
  - vm_compute in E. discriminate E.
  - now rewrite E.
Defined.
